(** * Widgets of the control surface: Slider and LiveDropMenu

    A shallow embedding of [Slider] (a [Widget] with one constrained state
    field) and of [LiveDropMenu] (a stand-alone two-canvas menu), with the
    properties of their mutation protocol, listener discipline and geometry.

    Conventions of the embedding.
    - A JavaScript number is an exact rational [Q]: rounding of doubles is
      idealised away, and [-0] is not told apart from 0.  Where the code
      can produce [NaN], an infinity or a [-0] that matters from finite
      input, the number is a [JS.jsint].  [Qdiv] is total with
      [x / 0 == 0]; the statements that depend on a quotient carry the
      hypothesis that the divisor is not zero.
    - The string [toFixed] returns is a [JS.Numeral]; [JS.ToNumber] reads
      it as the number it spells.
    - A JavaScript object used as a record of named fields (state, state
      delta, constraint table) is a [gmap string _].
    - Functions and objects compared by reference (observer contexts and
      callbacks, event listeners) are identifiers; invoking a callback is
      recorded in a call log and has no other effect on the widget. *)

From Stdlib Require Import QArith Qround Qminmax ZArith Lia Lqa Ascii String.
From stdpp Require Import base option list gmap strings.

(** ** JavaScript values and numeric helpers *)

Module JS.

(** [Math.trunc] on a finite number: rounding toward zero. *)
Definition trunc (x : Q) : Z :=
  if Qlt_le_dec x 0 then Qceiling x else Qfloor x.

(** The integer [x.toFixed(0)] spells: the integer nearest to [x], a tie
    going away from zero. *)
Definition toFixed0 (x : Q) : Z :=
  if Qlt_le_dec x 0 then (- Qfloor (- x + (1 # 2)))%Z
  else Qfloor (x + (1 # 2)).

(** [x < 0] for a finite [x]. *)
Definition is_neg (x : Q) : bool := if Qlt_le_dec x 0 then true else false.

(** What the transform of a Constraint can return: a number, or the
    string [toFixed] returns, a decimal numeral given by its sign and the
    integer its digits spell. *)
Inductive value : Type :=
| Number (q : Q)
| Numeral (negative : bool) (magnitude : N).

(** [x.toFixed(0)] for a number [x]: the string of the sign, when
    [x < 0], and of the digits of the rounded magnitude; [-0.4] gives
    ["-0"].  (From 10^21 on the string is in exponent notation; it
    spells the same number.) *)
Definition toFixed (x : Q) : value :=
  Numeral (is_neg x) (Z.abs_N (toFixed0 x)).

(** [Number(v)]: the number a value stands for in arithmetic and in
    comparisons with numbers. *)
Definition ToNumber (v : value) : Q :=
  match v with
  | Number q => q
  | Numeral negative n => inject_Z (if negative then - Z.of_N n else Z.of_N n)
  end.

(** An integer-valued JavaScript number: what [parseInt] and
    [Math.trunc] can return. *)
Inductive jsint : Type :=
| Int (z : Z)
| NegZero
| NaN
| Inf (negative : bool).

#[global] Instance jsint_eq_dec : EqDecision jsint.
Proof. solve_decision. Defined.

Definition is_ws (c : ascii) : bool :=
  match N_of_ascii c with
  | 9%N | 10%N | 11%N | 12%N | 13%N | 32%N => true
  | _ => false
  end.

Fixpoint skip_ws (s : string) : string :=
  match s with
  | String c r => if is_ws c then skip_ws r else s
  | EmptyString => s
  end.

Definition digit (radix : N) (c : ascii) : option N :=
  let n := N_of_ascii c in
  let d :=
    if ((48 <=? n) && (n <=? 57))%N then Some (n - 48)%N
    else if ((97 <=? n) && (n <=? 122))%N then Some (n - 87)%N
    else if ((65 <=? n) && (n <=? 90))%N then Some (n - 55)%N
    else None in
  match d with
  | Some v => if (v <? radix)%N then Some v else None
  | None => None
  end.

(** The longest prefix of digits of the radix; [None] when there is no
    digit at all. *)
Fixpoint digits (radix : N) (s : string) (acc : option N) : option N :=
  match s with
  | String c r =>
      match digit radix c with
      | Some d => digits radix r (Some (radix * default 0%N acc + d)%N)
      | None => acc
      end
  | EmptyString => acc
  end.

(** [parseInt(s)] with no radix argument: leading white space, a sign, an
    optional [0x] prefix, then the longest run of digits. *)
Definition parseInt (s : string) : jsint :=
  let s := skip_ws s in
  let '(neg, s) :=
    match s with
    | String "-"%char r => (true, r)
    | String "+"%char r => (false, r)
    | _ => (false, s)
    end in
  let '(radix, s) :=
    match s with
    | String "0"%char (String "x"%char r)
    | String "0"%char (String "X"%char r) => (16%N, r)
    | _ => (10%N, s)
    end in
  match digits radix s None with
  | None => NaN
  | Some n =>
      if neg then (if (n =? 0)%N then NegZero else Int (- Z.of_N n))
      else Int (Z.of_N n)
  end.

(** [a * k] for a non-negative integer constant [k] (a literal or a
    [length]). *)
Definition mul_nat (a : jsint) (k : nat) : jsint :=
  match a with
  | Int z => Int (z * Z.of_nat k)
  | NegZero => NegZero
  | NaN => NaN
  | Inf s => match k with O => NaN | _ => Inf s end
  end.

(** The integer an integer-valued number is, when it is finite; [-0]
    is 0. *)
Definition int_value (a : jsint) : option Z :=
  match a with
  | Int z => Some z
  | NegZero => Some 0%Z
  | _ => None
  end.

(** [Math.trunc(y / h)] for a finite [y] that is the difference of two
    numbers, hence never [-0].  The quotient has the sign of [y] times
    that of [h], and a negative quotient above -1 truncates to [-0]. *)
Definition trunc_div (y : Q) (h : jsint) : jsint :=
  match h with
  | NaN => NaN
  | Int 0 => if Qeq_bool y 0 then NaN else Inf (is_neg y)
  | NegZero => if Qeq_bool y 0 then NaN else Inf (negb (is_neg y))
  | Int z =>
      let t := trunc (y / inject_Z z) in
      if (t =? 0)%Z && xorb (is_neg y) (z <? 0)%Z then NegZero else Int t
  | Inf negative => if xorb (is_neg y) negative then NegZero else Int 0
  end.

(** Conversion of a number to an [unsigned long] of the DOM interfaces:
    [NaN] and the infinities give 0, a finite number is truncated and
    reduced modulo 2^32. *)
Definition ToUint32 (a : jsint) : Z :=
  match a with
  | Int z => (z mod 4294967296)%Z
  | _ => 0%Z
  end.

(** What the [width] or the [height] of a canvas reads after [a] has
    been assigned to it: the attribute is an [unsigned long] limited to
    2^31 - 1, beyond which it falls back to its default. *)
Definition canvas_size (default : Z) (a : jsint) : Z :=
  let v := ToUint32 a in
  if (v <=? 2147483647)%Z then v else default.

(** [a[i]]: [undefined] ([None]) unless [i] is an index of [a]. *)
Definition index {A} (a : list A) (i : jsint) : option A :=
  match i with
  | Int z => if (z <? 0)%Z then None else a !! Z.to_nat z
  | NegZero => a !! 0%nat
  | _ => None
  end.

(** [a || b] on optional strings: [undefined] and the empty string are
    falsy. *)
Definition truthy (a : option string) : bool :=
  match a with
  | Some s => negb (String.eqb s "")
  | None => false
  end.

Definition or (a b : option string) : option string :=
  if truthy a then a else b.

(** [a || 'literal'] with a non-empty literal. *)
Definition or_default (a : option string) (d : string) : string :=
  match a with
  | Some s => if String.eqb s "" then d else s
  | None => d
  end.

(** The outcome of a call that may throw. *)
Inductive completion (A : Type) : Type :=
| Normal (a : A)
| Throw (error : string).
#[global] Arguments Normal {A} a.
#[global] Arguments Throw {A} error.

(** [v.toFixed(0)] for any value [v]: numbers have the method, strings
    do not, and calling what is [undefined] throws. *)
Definition call_toFixed (v : value) : completion value :=
  match v with
  | Number x => Normal (toFixed x)
  | Numeral _ _ => Throw "TypeError"
  end.

End JS.

(** ** Event targets *)

Module EventTarget.
Section Listeners.
Context {T L : Type} `{EqDecision T, EqDecision L}.

(** The listener list of one event target: (event type, listener)
    pairs in registration order. *)
Definition listeners : Type := list (T * L).

(** [addEventListener(type, f)]: a pair already registered is not
    added again. *)
Definition addEventListener (ty : T) (f : L) (ls : listeners) : listeners :=
  if decide ((ty, f) ∈ ls) then ls else ls ++ [(ty, f)].

(** [removeEventListener(type, f)]. *)
Definition removeEventListener (ty : T) (f : L) (ls : listeners) : listeners :=
  filter (λ p, p ≠ (ty, f)) ls.

(** Invoking the listeners of a target for an event of type [ty]: the
    list is read when the target is reached, and a listener removed by
    an earlier one is skipped. *)
Definition invoke {S : Type} (current : S → listeners) (run : L → S → S)
    (ty : T) (s : S) : S :=
  foldl (λ s p, if decide (p.1 = ty ∧ p ∈ current s) then run p.2 s else s)
        s (current s).
End Listeners.
End EventTarget.

(** ** Constraint *)

Module Constraint.
Local Open Scope Q_scope.

(** Modelled from the spec: [util/constraint] is not among the sources.
    A Constraint is [{min, max, transform}].  The transform is a pure
    function that [apply] calls on the clamped number; what it returns
    need not be a number ([toFixed] returns a string). *)
Record t : Type := { min : Q; max : Q; transform : option (Q → JS.value) }.

(** Modelled from the spec: clamping a raw value into [[min, max]]. *)
Definition clamp (c : t) (x : Q) : Q := Qmax (min c) (Qmin (max c) x).

(** Modelled from the spec: [apply(rawValue)] clamps the raw value and
    applies the transform to the clamped value if one is present.  A
    Constraint always returns a value within [[min, max]]: the output of
    the transform is clamped again, which reads it as a number. *)
Definition apply (c : t) (rawValue : Q) : Q :=
  match transform c with
  | Some f => clamp c (JS.ToNumber (f (clamp c rawValue)))
  | None => clamp c rawValue
  end.
End Constraint.

(** ** ConstraintSpec *)

Module ConstraintSpec.

(** Modelled from the spec: [util/constraint-def] is not among the
    sources.  A ConstraintSpec maps state-field names to Constraints;
    [apply] validates each field of a delta independently.  The spec
    leaves two things open, which are policies of the instance: whether
    a field with no Constraint passes through or is dropped
    ([permissive]), and what validation makes of a value that is not a
    number, which is rejected or replaced by a value taken from the
    Constraint ([non_numeric] gives that value, [None] when the field is
    rejected). *)
Record t : Type :=
  { constraints : gmap string Constraint.t;
    permissive : bool;
    non_numeric : Constraint.t → option Q }.

(** Modelled from the spec: [apply(stateDelta)] applies the Constraint
    of each field to its value and returns the validated delta. *)
Definition apply (cs : t) (delta : gmap string Q) : gmap string Q :=
  map_imap (λ k v,
    match constraints cs !! k with
    | Some c => Some (Constraint.apply c v)
    | None => if permissive cs then Some v else None
    end) delta.

(** Modelled from the spec: validation of the delta [{k: x}] for an [x]
    that is not a number ([NaN], [undefined]).  The field is constrained
    in every use made of this; a state of numbers could not hold the [x]
    a permissive instance lets through for a field with no Constraint. *)
Definition apply_non_numeric (cs : t) (k : string) : gmap string Q :=
  match constraints cs !! k with
  | Some c =>
      match non_numeric cs c with
      | Some v => {[ k := v ]}
      | None => ∅
      end
  | None => ∅
  end.
End ConstraintSpec.

(** ** Widget: the base abstraction *)

Module Widget.

(** An observer registration; contexts and callbacks are compared by
    reference, hence identifiers. *)
Record observer : Type := { context : nat; callback : nat }.

#[global] Instance observer_eq_dec : EqDecision observer.
Proof. solve_decision. Defined.

(** Modelled from the spec: the methods a concrete widget overrides that
    the mutation protocol of [ui/core/widget] calls back.  [_update]
    redraws the render tree from the options and the state, [getVal] reads
    the value handed to observers. *)
Class Impl (O X : Type) : Type :=
  { _update : O → gmap string Q → X → X;
    getVal : gmap string Q → option Q }.

(** Modelled from the spec: [ui/core/widget] is not among the sources.
    A widget instance holds its options [o], its ConstraintSpec, its
    state, its observer registry, and the part [els] that belongs to the
    concrete widget (geometry, render tree, listeners).  [calls] is the
    log of observer callbacks invoked so far, each with its argument. *)
Record t (O X : Type) : Type :=
  { o : O;
    stateConstraints : ConstraintSpec.t;
    state : gmap string Q;
    observers : list observer;
    calls : list (observer * option Q);
    els : X }.
#[global] Arguments o {O X} _.
#[global] Arguments stateConstraints {O X} _.
#[global] Arguments state {O X} _.
#[global] Arguments observers {O X} _.
#[global] Arguments calls {O X} _.
#[global] Arguments els {O X} _.

Section Protocol.
Context {O X : Type} `{Impl O X}.

(** Modelled from the spec: [setInternalState(delta)] validates the
    delta through the ConstraintSpec, merges it into the state and
    re-renders; observers are not notified. *)
Definition setInternalState (delta : gmap string Q) (w : t O X) : t O X :=
  let st := ConstraintSpec.apply (stateConstraints w) delta ∪ state w in
  {| o := o w; stateConstraints := stateConstraints w; state := st;
     observers := observers w; calls := calls w;
     els := _update (o w) st (els w) |}.

(** Modelled from the spec: each registered callback is invoked once,
    in registration order, with the committed value. *)
Definition notifyObservers (w : t O X) : t O X :=
  {| o := o w; stateConstraints := stateConstraints w; state := state w;
     observers := observers w;
     calls := calls w ++ map (λ ob, (ob, getVal (state w))) (observers w);
     els := els w |}.

(** Modelled from the spec: [setState(delta)] is [setInternalState]
    followed by the notification of all observers. *)
Definition setState (delta : gmap string Q) (w : t O X) : t O X :=
  notifyObservers (setInternalState delta w).

(** Modelled from the spec: [setInternalState] for a delta [{k: x}]
    whose [x] is not a number. *)
Definition setInternalState_non_numeric (k : string) (w : t O X) : t O X :=
  let st :=
    ConstraintSpec.apply_non_numeric (stateConstraints w) k ∪ state w in
  {| o := o w; stateConstraints := stateConstraints w; state := st;
     observers := observers w; calls := calls w;
     els := _update (o w) st (els w) |}.

(** Modelled from the spec: [setState] for such a delta. *)
Definition setState_non_numeric (k : string) (w : t O X) : t O X :=
  notifyObservers (setInternalState_non_numeric k w).

(** Modelled from the spec: [subscribe(context, callback)] appends to
    the registry. *)
Definition subscribe (ctx cb : nat) (w : t O X) : t O X :=
  {| o := o w; stateConstraints := stateConstraints w; state := state w;
     observers := observers w ++ [{| context := ctx; callback := cb |}];
     calls := calls w; els := els w |}.

(** Modelled from the spec: [unsubscribe(context, callback)] removes
    the entries equal to both arguments by reference. *)
Definition unsubscribe (ctx cb : nat) (w : t O X) : t O X :=
  {| o := o w; stateConstraints := stateConstraints w; state := state w;
     observers :=
       filter (λ ob, context ob ≠ ctx ∨ callback ob ≠ cb) (observers w);
     calls := calls w; els := els w |}.

Definition set_els (x : X) (w : t O X) : t O X :=
  {| o := o w; stateConstraints := stateConstraints w; state := state w;
     observers := observers w; calls := calls w; els := x |}.
End Protocol.
End Widget.

(** ** Slider *)

Module Slider.
Local Open Scope Q_scope.

(** The options after [_initOptions]. *)
Record options : Type :=
  { minVal : Q;
    maxVal : Q;
    sliderBodyColor : string;
    sliderHandleColor : string;
    mouseSensitivity : Q }.

(** The options object handed to the constructor: any field may be
    missing. *)
Record supplied : Type :=
  { given_minVal : option Q;
    given_maxVal : option Q;
    given_sliderBodyColor : option string;
    given_sliderHandleColor : option string;
    given_mouseSensitivity : option Q }.

Definition defaults : options :=
  {| minVal := 0; maxVal := 127;
     sliderBodyColor := "#484848"; sliderHandleColor := "#484848";
     mouseSensitivity := 12 # 10 |}.

(** Modelled from the spec: [super._initOptions(o)] (Widget) overrides
    the defaults with the supplied values. *)
Definition super_initOptions (d : options) (s : supplied) : options :=
  {| minVal := default (minVal d) (given_minVal s);
     maxVal := default (maxVal d) (given_maxVal s);
     sliderBodyColor := default (sliderBodyColor d) (given_sliderBodyColor s);
     sliderHandleColor :=
       default (sliderHandleColor d) (given_sliderHandleColor s);
     mouseSensitivity :=
       default (mouseSensitivity d) (given_mouseSensitivity s) |}.

Definition _initOptions (s : supplied) : options :=
  super_initOptions defaults s.

(** What the Widget helpers [_getWidth()], [_getHeight()] and
    [_getRelativeY(y)] return for the container of the widget; the
    helpers are not among the sources and are taken as given. *)
Record container : Type :=
  { _getWidth : Q; _getHeight : Q; _getRelativeY : Q → Q }.

Record dims_t : Type :=
  { offsetBottom : Q; offsetTop : Q; bodyWidth : Q;
    handleWidth : Q; handleHeight : Q }.

Inductive evtype : Type :=
  mousedown | touchstart | mousemove | touchmove | mouseup | touchend.

Inductive handler : Type := touchBody | touchHandle | moveHandle | releaseHandle.

#[global] Instance evtype_eq_dec : EqDecision evtype.
Proof. solve_decision. Defined.

#[global] Instance handler_eq_dec : EqDecision handler.
Proof. solve_decision. Defined.

(** The attributes [_update] writes on the three SVG elements. *)
Record rect_attrs : Type :=
  { x : Q; y : Q; width : Q; height : Q; fill : string }.

Record svg : Type :=
  { body : rect_attrs;
    overlay : rect_attrs;
    handle_points : (Q * Q) * (Q * Q) * (Q * Q);
    handle_fill : string }.

(** The part of a Slider beside the Widget fields: container, [dims],
    [svgEls], and the listeners registered on the overlay, on the handle
    and on [document.body]. *)
Record parts : Type :=
  { cont : container;
    dims : dims_t;
    svgEls : svg;
    overlay_listeners : list (evtype * handler);
    handle_listeners : list (evtype * handler);
    body_listeners : list (evtype * handler) }.

(** The ConstraintSpec of a Slider, under the two policies the absent
    [ConstraintSpec] class stands for. *)
Definition _initStateConstraints (permissive : bool)
    (non_numeric : Constraint.t → option Q) (o : options)
    : ConstraintSpec.t :=
  {| ConstraintSpec.constraints :=
       {[ "val" :=
            {| Constraint.min := minVal o; Constraint.max := maxVal o;
               Constraint.transform := Some (λ num, JS.toFixed num) |} ]};
     ConstraintSpec.permissive := permissive;
     ConstraintSpec.non_numeric := non_numeric |}.

Definition _initState_state (o : options) : gmap string Q :=
  {[ "val" := minVal o ]}.

Definition _initState_dims : dims_t :=
  {| offsetBottom := 5; offsetTop := 5; bodyWidth := 2;
     handleWidth := 10; handleHeight := 10 |}.

Section Geometry.
Variable c : container.
Variable d : dims_t.
Variable o : options.
Variable state : gmap string Q.

(** [this.state.val] read as a number; [undefined] does not occur, as
    no operation removes the field. *)
Definition state_val : Q := default 0 (state !! "val").

Definition _calcSliderBodyPos : Q * Q :=
  (_getWidth c / 2 - 1, offsetTop d).

Definition _calcSliderBodyHeight : Q :=
  _getHeight c - offsetTop d - offsetBottom d.

Definition _calcSliderBodyWidth : Q := bodyWidth d.

(** The three corners of the handle.  The vertical coordinates divide by
    [maxVal - minVal]: they are numbers when that range is not zero, which
    the statements about them assume. *)
Definition _calcSliderHandlePoints : (Q * Q) * (Q * Q) * (Q * Q) :=
  let sliderBodyHeight := _calcSliderBodyHeight in
  let x0 := (_getWidth c / 2) + 1 in
  let y0 :=
    (sliderBodyHeight
     - (state_val / (maxVal o - minVal o)) * sliderBodyHeight)
    + offsetBottom d in
  let x1 := x0 + handleWidth d in
  let y1 := y0 - handleHeight d / 2 in
  let x2 := x1 in
  let y2 := y0 + handleHeight d / 2 in
  ((x0, y0), (x1, y1), (x2, y2)).

(** The value for the pointer position [y]; the quotient is a number
    when the body has a height other than zero. *)
Definition _calcTouchVal (y : Q) : Q :=
  let valRange := maxVal o - minVal o in
  let bodyY := (_getHeight c - _getRelativeY c y) - offsetBottom d in
  let touchVal := ((bodyY / _calcSliderBodyHeight) * valRange) + minVal o in
  touchVal.

Definition draw : svg :=
  let sliderBodyPos := _calcSliderBodyPos in
  {| body :=
       {| x := sliderBodyPos.1; y := sliderBodyPos.2;
          width := bodyWidth d; height := _calcSliderBodyHeight;
          fill := sliderBodyColor o |};
     overlay :=
       {| x := sliderBodyPos.1; y := sliderBodyPos.2;
          width := bodyWidth d + handleWidth d;
          height := _calcSliderBodyHeight; fill := "transparent" |};
     handle_points := _calcSliderHandlePoints;
     handle_fill := sliderHandleColor o |}.
End Geometry.

Definition set_svgEls (v : svg) (p : parts) : parts :=
  {| cont := cont p; dims := dims p; svgEls := v;
     overlay_listeners := overlay_listeners p;
     handle_listeners := handle_listeners p;
     body_listeners := body_listeners p |}.

Definition set_body_listeners (l : list (evtype * handler)) (p : parts) : parts :=
  {| cont := cont p; dims := dims p; svgEls := svgEls p;
     overlay_listeners := overlay_listeners p;
     handle_listeners := handle_listeners p;
     body_listeners := l |}.

(** [_update()] rewrites every attribute of the three elements. *)
Definition _update (o : options) (st : gmap string Q) (p : parts) : parts :=
  set_svgEls (draw (cont p) (dims p) o st) p.

#[global] Instance impl : Widget.Impl options parts :=
  {| Widget._update := _update;
     Widget.getVal := λ st, st !! "val" |}.

Definition t : Type := Widget.t options parts.

(** [getVal()] returns [this.state.val]. *)
Definition getVal (w : t) : option Q := Widget.state w !! "val".

Definition setInternalVal (newVal : Q) (w : t) : t :=
  Widget.setInternalState {[ "val" := newVal ]} w.

Definition setVal (newVal : Q) (w : t) : t :=
  Widget.setState {[ "val" := newVal ]} w.

(** *** Events and handlers *)

(** Where an event is targeted: the transparent overlay over the body,
    the handle, another node below [document.body], or a node that is not
    below [document.body] (the document element, the document itself). *)
Inductive node : Type := Overlay | Handle | Elsewhere | Outside.

(** The three phases of a pointer interaction. *)
Inductive phase : Type := Press | Move | Release.

(** A MouseEvent carries [clientY].  A TouchEvent does not (its
    coordinates are in [touches]): [ev.clientY] is [undefined] there. *)
Inductive event : Type :=
| MouseEvent (ph : phase) (target : node) (y : Q)
| TouchEvent (ph : phase) (target : node).

Definition ev_type (ev : event) : evtype :=
  match ev with
  | MouseEvent Press _ _ => mousedown
  | MouseEvent Move _ _ => mousemove
  | MouseEvent Release _ _ => mouseup
  | TouchEvent Press _ => touchstart
  | TouchEvent Move _ => touchmove
  | TouchEvent Release _ => touchend
  end.

Definition ev_target (ev : event) : node :=
  match ev with
  | MouseEvent _ target _ => target
  | TouchEvent _ target => target
  end.

(** [ev.clientY]; [None] is [undefined]. *)
Definition clientY (ev : event) : option Q :=
  match ev with
  | MouseEvent _ _ y => Some y
  | TouchEvent _ _ => None
  end.

Definition body_add (ty : evtype) (h : handler) (w : t) : t :=
  Widget.set_els
    (set_body_listeners
       (EventTarget.addEventListener ty h (body_listeners (Widget.els w)))
       (Widget.els w)) w.

Definition body_remove (ty : evtype) (h : handler) (w : t) : t :=
  Widget.set_els
    (set_body_listeners
       (EventTarget.removeEventListener ty h (body_listeners (Widget.els w)))
       (Widget.els w)) w.

Definition calcTouchVal_of (w : t) (y : Q) : Q :=
  _calcTouchVal (cont (Widget.els w)) (dims (Widget.els w)) (Widget.o w) y.

Definition run_touchHandle (ev : event) (w : t) : t :=
  body_add touchend releaseHandle
    (body_add mouseup releaseHandle
       (body_add touchmove moveHandle
          (body_add mousemove moveHandle w))).

(** [_this.setState({val: _this._calcTouchVal(ev.clientY)})].  With
    [ev.clientY] [undefined] the arithmetic of [_calcTouchVal] gives
    [NaN], and the delta holds a value that is not a number. *)
Definition commit_touchVal (ev : event) (w : t) : t :=
  match clientY ev with
  | Some y =>
      let newVal := calcTouchVal_of w y in
      Widget.setState {[ "val" := newVal ]} w
  | None => Widget.setState_non_numeric "val" w
  end.

Definition run_touchBody (ev : event) (w : t) : t :=
  run_touchHandle ev (commit_touchVal ev w).

Definition run_moveHandle (ev : event) (w : t) : t :=
  commit_touchVal ev w.

Definition run_releaseHandle (ev : event) (w : t) : t :=
  body_remove touchend releaseHandle
    (body_remove mouseup releaseHandle
       (body_remove mousemove moveHandle
          (body_remove touchmove moveHandle w))).

Definition run (ev : event) (h : handler) (w : t) : t :=
  match h with
  | touchBody => run_touchBody ev w
  | touchHandle => run_touchHandle ev w
  | moveHandle => run_moveHandle ev w
  | releaseHandle => run_releaseHandle ev w
  end.

Definition target_listeners (n : node) (w : t) : list (evtype * handler) :=
  match n with
  | Overlay => overlay_listeners (Widget.els w)
  | Handle => handle_listeners (Widget.els w)
  | Elsewhere => []
  | Outside => []
  end.

(** Whether [document.body] is on the path of an event targeted at
    [n]. *)
Definition below_body (n : node) : bool :=
  match n with
  | Outside => false
  | _ => true
  end.

(** Dispatch of one event: the listeners of the target run first.  Every
    handler of the Slider calls [stopPropagation], so the event reaches
    [document.body] only when no listener of the target ran; an event
    targeted outside [document.body] does not pass there at all. *)
Definition dispatch (ev : event) (w : t) : t :=
  if decide (Exists (λ p, p.1 = ev_type ev)
               (target_listeners (ev_target ev) w))
  then EventTarget.invoke (target_listeners (ev_target ev)) (run ev)
         (ev_type ev) w
  else if below_body (ev_target ev)
  then EventTarget.invoke (λ w, body_listeners (Widget.els w)) (run ev)
         (ev_type ev) w
  else w.

(** *** Construction *)

Definition _initHandlers (p : parts) : parts :=
  {| cont := cont p; dims := dims p; svgEls := svgEls p;
     overlay_listeners :=
       EventTarget.addEventListener touchstart touchBody
         (EventTarget.addEventListener mousedown touchBody
            (overlay_listeners p));
     handle_listeners :=
       EventTarget.addEventListener touchstart touchHandle
         (EventTarget.addEventListener mousedown touchHandle
            (handle_listeners p));
     body_listeners := body_listeners p |}.

(** [new Slider(container, o)].  The Widget constructor runs the
    initialisation methods in the order options, constraints, state,
    render tree, handlers. *)
Definition new (permissive : bool) (non_numeric : Constraint.t → option Q)
    (c : container) (s : supplied) : t :=
  let o := _initOptions s in
  let st := _initState_state o in
  {| Widget.o := o;
     Widget.stateConstraints := _initStateConstraints permissive non_numeric o;
     Widget.state := st;
     Widget.observers := [];
     Widget.calls := [];
     Widget.els :=
       _initHandlers
         {| cont := c; dims := _initState_dims;
            svgEls := draw c _initState_dims o st;
            overlay_listeners := []; handle_listeners := [];
            body_listeners := [] |} |}.

(** *** Sequences of calls and of events *)

Inductive call : Type :=
| SetState (delta : gmap string Q)
| SetInternalState (delta : gmap string Q).

Definition do_call (w : t) (c : call) : t :=
  match c with
  | SetState delta => Widget.setState delta w
  | SetInternalState delta => Widget.setInternalState delta w
  end.

Definition is_down (ev : event) : Prop :=
  (ev_type ev = mousedown ∨ ev_type ev = touchstart)
  ∧ (ev_target ev = Overlay ∨ ev_target ev = Handle).

Definition is_move (ev : event) : Prop :=
  ev_type ev = mousemove ∨ ev_type ev = touchmove.

Definition is_up (ev : event) : Prop :=
  ev_type ev = mouseup ∨ ev_type ev = touchend.

(** Whether an event passes [document.body] on its way up. *)
Definition reaches_body (ev : event) : Prop := ev_target ev ≠ Outside.

(** A drag: pointer-down on the overlay or the handle, any number of
    moves, pointer-up. *)
Definition drag_cycle (down : event) (moves : list event) (up : event)
    (w : t) : t :=
  dispatch up (foldl (λ w ev, dispatch ev w) (dispatch down w) moves).
End Slider.

(** ** LiveDropMenu *)

Module LiveDropMenu.
Local Open Scope Q_scope.

Record observer : Type := { context : nat; func : nat }.

#[global] Instance observer_eq_dec : EqDecision observer.
Proof. solve_decision. Defined.

(** The options object [o] of the constructor, one field for every
    property the constructor reads ([o.container] apart, which only
    selects the parent element); [None] is a missing property. *)
Record options : Type :=
  { menuItems : option (list string);
    backgroundColor : option string;
    UIbackgroundColor : option string;
    fontColor : option string;
    UIfontColor : option string;
    fontSize : option string;
    UIfontSize : option string;
    fontFamily : option string;
    UIfontFamily : option string;
    menuItemFontSize : option string;
    UImenuItemFontSize : option string;
    menuItemFontFamily : option string;
    UImenuItemFontFamily : option string;
    selectedItemBackgroundColor : option string;
    UIselectedItemBackgroundColor : option string;
    selectedItemFontColor : option string }.

(** [{}]: what [o = o || {}] yields when no options are passed. *)
Definition no_options : options :=
  {| menuItems := None;
     backgroundColor := None; UIbackgroundColor := None;
     fontColor := None; UIfontColor := None;
     fontSize := None; UIfontSize := None;
     fontFamily := None; UIfontFamily := None;
     menuItemFontSize := None; UImenuItemFontSize := None;
     menuItemFontFamily := None; UImenuItemFontFamily := None;
     selectedItemBackgroundColor := None;
     UIselectedItemBackgroundColor := None;
     selectedItemFontColor := None |}.

(** The styling fields of the instance. *)
Record style : Type :=
  { _UIbackgroundColor : string;
    _UIfontColor : string;
    _UIfontSize : string;
    _UIfontFamily : string;
    _UImenuItemFontSize : string;
    _UImenuItemFntFamily : string;
    _UIselectedItemBackgroundColor : string;
    _UIselectedItemFontColor : string }.

Definition init_style (o : options) : style :=
  {| _UIbackgroundColor :=
       JS.or_default (JS.or (backgroundColor o) (UIbackgroundColor o)) "#555";
     _UIfontColor :=
       JS.or_default (JS.or (fontColor o) (UIfontColor o)) "#bbb";
     _UIfontSize :=
       JS.or_default (JS.or (fontSize o) (UIfontSize o)) "12px";
     _UIfontFamily :=
       JS.or_default (JS.or (fontFamily o) (UIfontFamily o)) "Arial";
     _UImenuItemFontSize :=
       JS.or_default (JS.or (menuItemFontSize o) (UImenuItemFontSize o))
         "12px";
     _UImenuItemFntFamily :=
       JS.or_default (JS.or (menuItemFontFamily o) (UImenuItemFontFamily o))
         "Arial";
     _UIselectedItemBackgroundColor :=
       JS.or_default
         (JS.or (selectedItemBackgroundColor o)
            (UIselectedItemBackgroundColor o)) "#ccc";
     _UIselectedItemFontColor :=
       JS.or_default
         (JS.or (selectedItemFontColor o) (UIselectedItemBackgroundColor o))
         "#fff" |}.

(** What the page reports when asked, at the time of the question: the
    bounding rectangle of the closed box ([_canvas]), the top of the
    bounding rectangle of the overlay ([_ddCanvas]), and the width
    [measureText] gives for a label. *)
Record page : Type :=
  { box_left : Q; box_bottom : Q; overlay_top : Q;
    measureText : string → Q }.

Inductive visibility : Type := hidden | visible.

(** The overlay canvas: what its [width] and [height] attributes read,
    and the style the code sets ([left] and [top] in pixels). *)
Record ddCanvas_t : Type :=
  { dd_width : Z;
    dd_height : Z;
    dd_visibility : visibility;
    dd_left : Q;
    dd_top : Q }.

Inductive evtype : Type := mousedown | mousemove | mouseup.

Inductive listener : Type :=
  mouseDownListener | secondMouseDownListener | mouseMoveListener
| mouseUpListener.

#[global] Instance visibility_eq_dec : EqDecision visibility.
Proof. solve_decision. Defined.

#[global] Instance evtype_eq_dec : EqDecision evtype.
Proof. solve_decision. Defined.

#[global] Instance listener_eq_dec : EqDecision listener.
Proof. solve_decision. Defined.

(** What the last [_drawUI] painted: the text of the closed box
    ([None] when [_menuItems[_selectedItemNum]] is [undefined]) and the
    rows of the overlay, each with its highlight. *)
Record frame : Type :=
  { box_text : option string; rows : list (string * bool) }.

Record t : Type :=
  { _observers : list observer;
    _menuItems : list string;
    _selectedItemNum : JS.jsint;
    _hoverItemNum : JS.jsint;
    ui : style;
    _ddCanvas : ddCanvas_t;
    canvas_listeners : list (evtype * listener);
    ddCanvas_listeners : list (evtype * listener);
    document_listeners : list (evtype * listener);
    painted : frame;
    calls : list (observer * JS.jsint) }.

(** *** Field updates *)

Definition set_observers (v : list observer) (m : t) : t :=
  {| _observers := v; _menuItems := _menuItems m;
     _selectedItemNum := _selectedItemNum m;
     _hoverItemNum := _hoverItemNum m; ui := ui m; _ddCanvas := _ddCanvas m;
     canvas_listeners := canvas_listeners m;
     ddCanvas_listeners := ddCanvas_listeners m;
     document_listeners := document_listeners m;
     painted := painted m; calls := calls m |}.

Definition set_menuItems (v : list string) (m : t) : t :=
  {| _observers := _observers m; _menuItems := v;
     _selectedItemNum := _selectedItemNum m;
     _hoverItemNum := _hoverItemNum m; ui := ui m; _ddCanvas := _ddCanvas m;
     canvas_listeners := canvas_listeners m;
     ddCanvas_listeners := ddCanvas_listeners m;
     document_listeners := document_listeners m;
     painted := painted m; calls := calls m |}.

Definition set_selectedItemNum (v : JS.jsint) (m : t) : t :=
  {| _observers := _observers m; _menuItems := _menuItems m;
     _selectedItemNum := v;
     _hoverItemNum := _hoverItemNum m; ui := ui m; _ddCanvas := _ddCanvas m;
     canvas_listeners := canvas_listeners m;
     ddCanvas_listeners := ddCanvas_listeners m;
     document_listeners := document_listeners m;
     painted := painted m; calls := calls m |}.

Definition set_hoverItemNum (v : JS.jsint) (m : t) : t :=
  {| _observers := _observers m; _menuItems := _menuItems m;
     _selectedItemNum := _selectedItemNum m;
     _hoverItemNum := v; ui := ui m; _ddCanvas := _ddCanvas m;
     canvas_listeners := canvas_listeners m;
     ddCanvas_listeners := ddCanvas_listeners m;
     document_listeners := document_listeners m;
     painted := painted m; calls := calls m |}.

Definition set_ddCanvas (v : ddCanvas_t) (m : t) : t :=
  {| _observers := _observers m; _menuItems := _menuItems m;
     _selectedItemNum := _selectedItemNum m;
     _hoverItemNum := _hoverItemNum m; ui := ui m; _ddCanvas := v;
     canvas_listeners := canvas_listeners m;
     ddCanvas_listeners := ddCanvas_listeners m;
     document_listeners := document_listeners m;
     painted := painted m; calls := calls m |}.

Definition set_canvas_listeners (v : list (evtype * listener)) (m : t) : t :=
  {| _observers := _observers m; _menuItems := _menuItems m;
     _selectedItemNum := _selectedItemNum m;
     _hoverItemNum := _hoverItemNum m; ui := ui m; _ddCanvas := _ddCanvas m;
     canvas_listeners := v;
     ddCanvas_listeners := ddCanvas_listeners m;
     document_listeners := document_listeners m;
     painted := painted m; calls := calls m |}.

Definition set_ddCanvas_listeners (v : list (evtype * listener)) (m : t) : t :=
  {| _observers := _observers m; _menuItems := _menuItems m;
     _selectedItemNum := _selectedItemNum m;
     _hoverItemNum := _hoverItemNum m; ui := ui m; _ddCanvas := _ddCanvas m;
     canvas_listeners := canvas_listeners m;
     ddCanvas_listeners := v;
     document_listeners := document_listeners m;
     painted := painted m; calls := calls m |}.

Definition set_document_listeners (v : list (evtype * listener)) (m : t) : t :=
  {| _observers := _observers m; _menuItems := _menuItems m;
     _selectedItemNum := _selectedItemNum m;
     _hoverItemNum := _hoverItemNum m; ui := ui m; _ddCanvas := _ddCanvas m;
     canvas_listeners := canvas_listeners m;
     ddCanvas_listeners := ddCanvas_listeners m;
     document_listeners := v;
     painted := painted m; calls := calls m |}.

Definition set_painted (v : frame) (m : t) : t :=
  {| _observers := _observers m; _menuItems := _menuItems m;
     _selectedItemNum := _selectedItemNum m;
     _hoverItemNum := _hoverItemNum m; ui := ui m; _ddCanvas := _ddCanvas m;
     canvas_listeners := canvas_listeners m;
     ddCanvas_listeners := ddCanvas_listeners m;
     document_listeners := document_listeners m;
     painted := v; calls := calls m |}.

Definition set_calls (v : list (observer * JS.jsint)) (m : t) : t :=
  {| _observers := _observers m; _menuItems := _menuItems m;
     _selectedItemNum := _selectedItemNum m;
     _hoverItemNum := _hoverItemNum m; ui := ui m; _ddCanvas := _ddCanvas m;
     canvas_listeners := canvas_listeners m;
     ddCanvas_listeners := ddCanvas_listeners m;
     document_listeners := document_listeners m;
     painted := painted m; calls := v |}.

Definition set_dd_visibility (v : visibility) (d : ddCanvas_t) : ddCanvas_t :=
  {| dd_width := dd_width d; dd_height := dd_height d; dd_visibility := v;
     dd_left := dd_left d; dd_top := dd_top d |}.

(** [_ddCanvas.width = w; _ddCanvas.height = h]: the attributes keep
    what a canvas makes of the numbers assigned, 300 and 150 being their
    defaults. *)
Definition set_dd_size (w : Q) (h : JS.jsint) (d : ddCanvas_t) : ddCanvas_t :=
  {| dd_width := JS.canvas_size 300 (JS.Int (JS.trunc w));
     dd_height := JS.canvas_size 150 h;
     dd_visibility := dd_visibility d;
     dd_left := dd_left d; dd_top := dd_top d |}.

(** *** Drawing and sizes *)

Definition _getMenuItemHeight (m : t) : JS.jsint :=
  let menuItemHeight :=
    JS.mul_nat (JS.parseInt (_UImenuItemFontSize (ui m))) 2 in
  menuItemHeight.

Definition _getDdCanvasDimensions (pg : page) (m : t) : Q * JS.jsint :=
  let width :=
    foldl (λ maxWidth item,
             let itemWidth := measureText pg item in
             if Qlt_le_dec maxWidth itemWidth then itemWidth else maxWidth)
          0 (_menuItems m) + 20 in
  let height :=
    JS.mul_nat (_getMenuItemHeight m) (length (_menuItems m)) in
  (width, height).

(** [i === this._hoverItemNum] for a loop index [i]. *)
Definition is_hovered (hover : JS.jsint) (i : nat) : bool :=
  match hover with
  | JS.Int z => (Z.of_nat i =? z)%Z
  | JS.NegZero => Nat.eqb i 0
  | _ => false
  end.

Definition _drawClosedMenuBox (m : t) : option string :=
  JS.index (_menuItems m) (_selectedItemNum m).

Definition _drawDropDownMenuBox (m : t) : list (string * bool) :=
  imap (λ i item, (item, is_hovered (_hoverItemNum m) i)) (_menuItems m).

Definition _drawUI (m : t) : t :=
  set_painted
    {| box_text := _drawClosedMenuBox m; rows := _drawDropDownMenuBox m |} m.

(** *** Observer support *)

Definition subscribe (ctx f : nat) (m : t) : t :=
  set_observers (_observers m ++ [{| context := ctx; func := f |}]) m.

(** Reading a property of the instance by name. *)
Inductive value : Type :=
| Undefined
| Observers (l : list observer)
| Other.

(** The names that resolve on an instance beside [_observers]: the
    remaining fields the constructor assigns and the members of the
    class. *)
Definition other_properties : list string :=
  [ "_menuItems"; "_selectedItemNum"; "_hoverItemNum";
    "_UIbackgroundColor"; "_UIfontColor"; "_UIfontSize"; "_UIfontFamily";
    "_UImenuItemFontSize"; "_UImenuItemFntFamily";
    "_UIselectedItemBackgroundColor"; "_UIselectedItemFontColor";
    "_container"; "_canvas"; "_ctx"; "_ddCanvas"; "_ddCtx";
    "menuItems"; "_drawUI"; "_drawClosedMenuBox"; "_drawDropDownMenuBox";
    "_getDdCanvasDimensions"; "_getMenuItemHeight"; "_assignListeners";
    "subscribe"; "unsubscribe"; "notifyObservers" ]%string.

Definition get (m : t) (name : string) : value :=
  if decide (name = "_observers"%string) then Observers (_observers m)
  else if decide (name ∈ other_properties) then Other
  else Undefined.

(** [unsubscribe] filters [this.observers] and assigns the result to
    [this._observers].  Calling [filter] on [undefined] throws before
    the assignment; a property holding something else than the registry
    does not occur. *)
Definition unsubscribe (ctx f : nat) (m : t) : JS.completion t :=
  match get m "observers" with
  | Observers l =>
      JS.Normal
        (set_observers (filter (λ ob, context ob ≠ ctx ∨ func ob ≠ f) l) m)
  | Undefined => JS.Throw "TypeError"
  | Other => JS.Throw "TypeError"
  end.

Definition notifyObservers (m : t) : t :=
  set_calls
    (calls m ++ map (λ ob, (ob, _selectedItemNum m)) (_observers m)) m.

(** *** Events and listeners *)

(** Where an event is targeted: the closed box, the overlay, or anything
    else in the document. *)
Inductive node : Type := Canvas | DdCanvas | Elsewhere.

#[global] Instance node_eq_dec : EqDecision node.
Proof. solve_decision. Defined.

Record event : Type :=
  { ev_type : evtype; target : node; clientY : Q }.

Definition run_mouseDownListener (m : t) : t :=
  let m := set_ddCanvas (set_dd_visibility visible (_ddCanvas m)) m in
  let m :=
    set_ddCanvas_listeners
      (EventTarget.addEventListener mousemove mouseMoveListener
         (ddCanvas_listeners m)) m in
  set_document_listeners
    (EventTarget.addEventListener mousedown secondMouseDownListener
       (document_listeners m)) m.

Definition run_secondMouseDownListener (e : event) (m : t) : t :=
  if decide (target e ≠ Canvas) then
    set_document_listeners
      (EventTarget.addEventListener mouseup mouseUpListener
         (document_listeners m)) m
  else m.

Definition run_mouseMoveListener (pg : page) (e : event) (m : t) : t :=
  let ddCanvasY := clientY e - overlay_top pg in
  let m :=
    set_hoverItemNum (JS.trunc_div ddCanvasY (_getMenuItemHeight m)) m in
  _drawUI m.

Definition run_mouseUpListener (e : event) (m : t) : t :=
  let m := set_ddCanvas (set_dd_visibility hidden (_ddCanvas m)) m in
  let m :=
    if decide (_hoverItemNum m ≠ JS.Int (-1) ∧ target e = DdCanvas) then
      notifyObservers (set_selectedItemNum (_hoverItemNum m) m)
    else m in
  let m := set_hoverItemNum (JS.Int (-1)) m in
  let m :=
    set_document_listeners
      (EventTarget.removeEventListener mouseup mouseUpListener
         (document_listeners m)) m in
  _drawUI m.

Definition run (pg : page) (e : event) (f : listener) (m : t) : t :=
  match f with
  | mouseDownListener => run_mouseDownListener m
  | secondMouseDownListener => run_secondMouseDownListener e m
  | mouseMoveListener => run_mouseMoveListener pg e m
  | mouseUpListener => run_mouseUpListener e m
  end.

Definition target_listeners (n : node) (m : t) : list (evtype * listener) :=
  match n with
  | Canvas => canvas_listeners m
  | DdCanvas => ddCanvas_listeners m
  | Elsewhere => []
  end.

(** Dispatch of one event: the listeners of the target, then, as no
    listener stops the propagation, those of [document], whose list is
    read when the event arrives there. *)
Definition dispatch (pg : page) (e : event) (m : t) : t :=
  let m := EventTarget.invoke (target_listeners (target e)) (run pg e)
             (ev_type e) m in
  EventTarget.invoke document_listeners (run pg e) (ev_type e) m.

Definition _assignListeners (m : t) : t :=
  set_canvas_listeners
    (EventTarget.addEventListener mousedown mouseDownListener
       (canvas_listeners m)) m.

(** *** Construction and the public API *)

(** [new LiveDropMenu(o)] on a page in the state [pg]. *)
Definition new (o : option options) (pg : page) : t :=
  let o := default no_options o in
  let m :=
    {| _observers := [];
       _menuItems := default [] (menuItems o);
       _selectedItemNum := JS.Int 0;
       _hoverItemNum := JS.Int (-1);
       ui := init_style o;
       _ddCanvas :=
         {| dd_width := 300; dd_height := 150;
            dd_visibility := hidden;
            dd_left := box_left pg; dd_top := box_bottom pg |};
       canvas_listeners := []; ddCanvas_listeners := [];
       document_listeners := [];
       painted := {| box_text := None; rows := [] |};
       calls := [] |} in
  let dims := _getDdCanvasDimensions pg m in
  let m := set_ddCanvas (set_dd_size dims.1 dims.2 (_ddCanvas m)) m in
  _assignListeners (_drawUI m).

(** The setter [menuItems]. *)
Definition assign_menuItems (pg : page) (newMenuItems : list string) (m : t)
    : t :=
  let m := set_menuItems newMenuItems m in
  let ddCanvasDims := _getDdCanvasDimensions pg m in
  let m :=
    set_ddCanvas (set_dd_size ddCanvasDims.1 ddCanvasDims.2 (_ddCanvas m)) m in
  _drawUI m.

(** The getter [menuItems] returns the array [_menuItems] itself, which
    is also the array the host passed as [o.menuItems]: the host can change
    its contents in place, and the menu sees the change without any of its
    methods running. *)
Definition mutate_menuItems (items : list string) (m : t) : t :=
  set_menuItems items m.

(** What can happen to a menu: an event of the page, or a call of a
    public member or an in-place update by the host. *)
Inductive action : Type :=
| Dispatch (pg : page) (e : event)
| Subscribe (ctx f : nat)
| Unsubscribe (ctx f : nat)
| AssignMenuItems (pg : page) (items : list string)
| MutateMenuItems (items : list string)
| NotifyObservers.

Definition step (m : t) (a : action) : t :=
  match a with
  | Dispatch pg e => dispatch pg e m
  | Subscribe ctx f => subscribe ctx f m
  | Unsubscribe ctx f =>
      match unsubscribe ctx f m with
      | JS.Normal m' => m'
      | JS.Throw _ => m
      end
  | AssignMenuItems pg items => assign_menuItems pg items m
  | MutateMenuItems items => mutate_menuItems items m
  | NotifyObservers => notifyObservers m
  end.

Definition run_actions (m : t) (l : list action) : t := foldl step m l.

(** The states a menu built from [o] on the page [pg] can be in. *)
Inductive reachable (o : option options) (pg : page) : t → Prop :=
| reachable_new : reachable o pg (new o pg)
| reachable_step m a : reachable o pg m → reachable o pg (step m a).
End LiveDropMenu.

(** * Vocabulary of the statements *)

(** The number the result of a transform stands for. *)
Definition as_number (f : Q → JS.value) (a : Q) : Q := JS.ToNumber (f a).

(** A Constraint is well behaved when its transform, if it has one and
    its results are read as numbers, is monotone and maps every number it
    produces to itself. *)
Definition well_behaved (c : Constraint.t) : Prop :=
  match Constraint.transform c with
  | Some f =>
      (∀ a b, (a <= b)%Q → (as_number f a <= as_number f b)%Q)
      ∧ (∀ a, (as_number f (as_number f a) == as_number f a)%Q)
  | None => True
  end.

(** The Constraint the Slider puts on [val]. *)
Definition slider_val_constraint (o : Slider.options) : Constraint.t :=
  {| Constraint.min := Slider.minVal o; Constraint.max := Slider.maxVal o;
     Constraint.transform := Some (λ num, JS.toFixed num) |}.

(** The policy that rejects a value that is not a number. *)
Definition rejecting : Constraint.t → option Q := λ _, None.

(** The calls made to one observer among a list of calls. *)
Definition calls_to {V : Type} (ob : Widget.observer)
    (log : list (Widget.observer * V)) : list (Widget.observer * V) :=
  filter (λ c, c.1 = ob) log.

(** A container 20 pixels wide and 110 high, at the top of the page. *)
Definition sample_container : Slider.container :=
  {| Slider._getWidth := 20; Slider._getHeight := 110;
     Slider._getRelativeY := λ y, y |}.

Definition no_supplied : Slider.supplied :=
  {| Slider.given_minVal := None; Slider.given_maxVal := None;
     Slider.given_sliderBodyColor := None;
     Slider.given_sliderHandleColor := None;
     Slider.given_mouseSensitivity := None |}.

Definition sample_observer : Widget.observer :=
  {| Widget.context := 1; Widget.callback := 2 |}.

(** [new Slider(container, {})] with one observer subscribed. *)
Definition sample_slider : Slider.t :=
  Widget.subscribe 1 2
    (Slider.new true rejecting sample_container no_supplied).

(** What holds of a Slider built from the options [o] under the policies
    [p] and [nn], whatever calls it has received. *)
Definition slider_inv (p : bool) (nn : Constraint.t → option Q)
    (o : Slider.options) (w : Slider.t) : Prop :=
  Widget.stateConstraints w = Slider._initStateConstraints p nn o
  ∧ ∃ v, Widget.state w !! "val" = Some v
         ∧ (Slider.minVal o <= v)%Q ∧ (v <= Slider.maxVal o)%Q.

(** The vertical pixel position of the handle tip: the [y0] of
    [_calcSliderHandlePoints] for the current state. *)
Definition handle_y0 (w : Slider.t) : Q :=
  (Slider._calcSliderHandlePoints (Slider.cont (Widget.els w))
     (Slider.dims (Widget.els w)) (Widget.o w) (Widget.state w)).1.1.2.

Definition body_height (w : Slider.t) : Q :=
  Slider._calcSliderBodyHeight (Slider.cont (Widget.els w))
    (Slider.dims (Widget.els w)).

(** [new Slider(container, {minVal: 10, maxVal: 20})]. *)
Definition slider_10_20 : Slider.t :=
  Slider.new true rejecting sample_container
    {| Slider.given_minVal := Some 10%Q; Slider.given_maxVal := Some 20%Q;
       Slider.given_sliderBodyColor := None;
       Slider.given_sliderHandleColor := None;
       Slider.given_mouseSensitivity := None |}.

(** The listeners [_initHandlers] puts on the overlay and on the handle
    of a Slider. *)
Definition slider_wired (w : Slider.t) : Prop :=
  Slider.overlay_listeners (Widget.els w)
  = [(Slider.mousedown, Slider.touchBody);
     (Slider.touchstart, Slider.touchBody)]
  ∧ Slider.handle_listeners (Widget.els w)
    = [(Slider.mousedown, Slider.touchHandle);
       (Slider.touchstart, Slider.touchHandle)].

(** The listeners a Slider has on [document.body] while it is dragged. *)
Definition dragging_listeners : list (Slider.evtype * Slider.handler) :=
  [(Slider.mousemove, Slider.moveHandle);
   (Slider.touchmove, Slider.moveHandle);
   (Slider.mouseup, Slider.releaseHandle);
   (Slider.touchend, Slider.releaseHandle)].

(** The three listener configurations of a LiveDropMenu: never opened;
    opened at least once; opened and a pointer-down seen outside the closed
    box since. *)
Definition fresh (m : LiveDropMenu.t) : Prop :=
  LiveDropMenu.canvas_listeners m
  = [(LiveDropMenu.mousedown, LiveDropMenu.mouseDownListener)]
  ∧ LiveDropMenu.ddCanvas_listeners m = []
  ∧ LiveDropMenu.document_listeners m = [].

Definition opened (m : LiveDropMenu.t) : Prop :=
  LiveDropMenu.canvas_listeners m
  = [(LiveDropMenu.mousedown, LiveDropMenu.mouseDownListener)]
  ∧ LiveDropMenu.ddCanvas_listeners m
    = [(LiveDropMenu.mousemove, LiveDropMenu.mouseMoveListener)]
  ∧ LiveDropMenu.document_listeners m
    = [(LiveDropMenu.mousedown, LiveDropMenu.secondMouseDownListener)].

Definition armed (m : LiveDropMenu.t) : Prop :=
  LiveDropMenu.canvas_listeners m
  = [(LiveDropMenu.mousedown, LiveDropMenu.mouseDownListener)]
  ∧ LiveDropMenu.ddCanvas_listeners m
    = [(LiveDropMenu.mousemove, LiveDropMenu.mouseMoveListener)]
  ∧ LiveDropMenu.document_listeners m
    = [(LiveDropMenu.mousedown, LiveDropMenu.secondMouseDownListener);
       (LiveDropMenu.mouseup, LiveDropMenu.mouseUpListener)].

(** A page with the closed box ending at (10, 30) and the overlay just
    below it; every label is 40 pixels wide. *)
Definition sample_page : LiveDropMenu.page :=
  {| LiveDropMenu.box_left := 10; LiveDropMenu.box_bottom := 30;
     LiveDropMenu.overlay_top := 30; LiveDropMenu.measureText := λ _, 40%Q |}.

(** The same page after the closed box has moved to (50, 90). *)
Definition moved_page : LiveDropMenu.page :=
  {| LiveDropMenu.box_left := 50; LiveDropMenu.box_bottom := 90;
     LiveDropMenu.overlay_top := 90; LiveDropMenu.measureText := λ _, 40%Q |}.

Definition abc_options : LiveDropMenu.options :=
  {| LiveDropMenu.menuItems := Some ["A"; "B"; "C"]%string;
     LiveDropMenu.backgroundColor := None;
     LiveDropMenu.UIbackgroundColor := None;
     LiveDropMenu.fontColor := None; LiveDropMenu.UIfontColor := None;
     LiveDropMenu.fontSize := None; LiveDropMenu.UIfontSize := None;
     LiveDropMenu.fontFamily := None; LiveDropMenu.UIfontFamily := None;
     LiveDropMenu.menuItemFontSize := None;
     LiveDropMenu.UImenuItemFontSize := None;
     LiveDropMenu.menuItemFontFamily := None;
     LiveDropMenu.UImenuItemFontFamily := None;
     LiveDropMenu.selectedItemBackgroundColor := None;
     LiveDropMenu.UIselectedItemBackgroundColor := None;
     LiveDropMenu.selectedItemFontColor := None |}.

Definition menu_observer : LiveDropMenu.observer :=
  {| LiveDropMenu.context := 1; LiveDropMenu.func := 2 |}.

(** [new LiveDropMenu({menuItems: ["A", "B", "C"]})] with one observer
    subscribed. *)
Definition abc_menu : LiveDropMenu.t :=
  LiveDropMenu.subscribe 1 2 (LiveDropMenu.new (Some abc_options) sample_page).

Definition mouse (ty : LiveDropMenu.evtype) (tg : LiveDropMenu.node) (y : Q)
    : LiveDropMenu.event :=
  {| LiveDropMenu.ev_type := ty; LiveDropMenu.target := tg;
     LiveDropMenu.clientY := y |}.

(** How the constructor of LiveDropMenu settles one styling field from
    the property [primary] named after it and the second property [alias]
    it consults: a non-empty [primary] is taken as it is, and when neither
    holds a non-empty string the field is the default [d]. *)
Definition settles (primary alias : option string) (d actual : string) : Prop :=
  (∀ v, primary = Some v → v ≠ ""%string → actual = v)
  ∧ (JS.truthy primary = false → JS.truthy alias = false → actual = d).

(** [{backgroundColor: c}] and [{selectedItemBackgroundColor: c}]. *)
Definition only_backgroundColor (c : string) : LiveDropMenu.options :=
  {| LiveDropMenu.menuItems := None;
     LiveDropMenu.backgroundColor := Some c;
     LiveDropMenu.UIbackgroundColor := None;
     LiveDropMenu.fontColor := None; LiveDropMenu.UIfontColor := None;
     LiveDropMenu.fontSize := None; LiveDropMenu.UIfontSize := None;
     LiveDropMenu.fontFamily := None; LiveDropMenu.UIfontFamily := None;
     LiveDropMenu.menuItemFontSize := None;
     LiveDropMenu.UImenuItemFontSize := None;
     LiveDropMenu.menuItemFontFamily := None;
     LiveDropMenu.UImenuItemFontFamily := None;
     LiveDropMenu.selectedItemBackgroundColor := None;
     LiveDropMenu.UIselectedItemBackgroundColor := None;
     LiveDropMenu.selectedItemFontColor := None |}.

Definition only_selectedItemBackgroundColor (c : string)
    : LiveDropMenu.options :=
  {| LiveDropMenu.menuItems := None;
     LiveDropMenu.backgroundColor := None;
     LiveDropMenu.UIbackgroundColor := None;
     LiveDropMenu.fontColor := None; LiveDropMenu.UIfontColor := None;
     LiveDropMenu.fontSize := None; LiveDropMenu.UIfontSize := None;
     LiveDropMenu.fontFamily := None; LiveDropMenu.UIfontFamily := None;
     LiveDropMenu.menuItemFontSize := None;
     LiveDropMenu.UImenuItemFontSize := None;
     LiveDropMenu.menuItemFontFamily := None;
     LiveDropMenu.UImenuItemFontFamily := None;
     LiveDropMenu.selectedItemBackgroundColor := Some c;
     LiveDropMenu.UIselectedItemBackgroundColor := None;
     LiveDropMenu.selectedItemFontColor := None |}.

(** [{UIselectedItemBackgroundColor: c}]. *)
Definition only_UIselectedItemBackgroundColor (c : string)
    : LiveDropMenu.options :=
  {| LiveDropMenu.menuItems := None;
     LiveDropMenu.backgroundColor := None;
     LiveDropMenu.UIbackgroundColor := None;
     LiveDropMenu.fontColor := None; LiveDropMenu.UIfontColor := None;
     LiveDropMenu.fontSize := None; LiveDropMenu.UIfontSize := None;
     LiveDropMenu.fontFamily := None; LiveDropMenu.UIfontFamily := None;
     LiveDropMenu.menuItemFontSize := None;
     LiveDropMenu.UImenuItemFontSize := None;
     LiveDropMenu.menuItemFontFamily := None;
     LiveDropMenu.UImenuItemFontFamily := None;
     LiveDropMenu.selectedItemBackgroundColor := None;
     LiveDropMenu.UIselectedItemBackgroundColor := Some c;
     LiveDropMenu.selectedItemFontColor := None |}.

(** [{menuItems: ["A", "B", "C"], menuItemFontSize: size}]. *)
Definition abc_sized_options (size : string) : LiveDropMenu.options :=
  {| LiveDropMenu.menuItems := Some ["A"; "B"; "C"]%string;
     LiveDropMenu.backgroundColor := None;
     LiveDropMenu.UIbackgroundColor := None;
     LiveDropMenu.fontColor := None; LiveDropMenu.UIfontColor := None;
     LiveDropMenu.fontSize := None; LiveDropMenu.UIfontSize := None;
     LiveDropMenu.fontFamily := None; LiveDropMenu.UIfontFamily := None;
     LiveDropMenu.menuItemFontSize := Some size;
     LiveDropMenu.UImenuItemFontSize := None;
     LiveDropMenu.menuItemFontFamily := None;
     LiveDropMenu.UImenuItemFontFamily := None;
     LiveDropMenu.selectedItemBackgroundColor := None;
     LiveDropMenu.UIselectedItemBackgroundColor := None;
     LiveDropMenu.selectedItemFontColor := None |}.

(** The overlay has the style position ([a], [b]). *)
Definition overlay_at (a b : Q) (m : LiveDropMenu.t) : Prop :=
  LiveDropMenu.dd_left (LiveDropMenu._ddCanvas m) = a
  ∧ LiveDropMenu.dd_top (LiveDropMenu._ddCanvas m) = b.

(** The menu of three items, opened by a press on the closed box that is
    held while the pointer moves to the second row of the overlay. *)
Definition pressed_and_dragged : LiveDropMenu.t :=
  LiveDropMenu.run_actions abc_menu
    [LiveDropMenu.Dispatch sample_page
       (mouse LiveDropMenu.mousedown LiveDropMenu.Canvas 20);
     LiveDropMenu.Dispatch sample_page
       (mouse LiveDropMenu.mousemove LiveDropMenu.DdCanvas 60)].

(** The menu of three items after a click on the closed box, a move to
    the third row and a press on the overlay. *)
Definition hovering_third_row : LiveDropMenu.t :=
  LiveDropMenu.run_actions abc_menu
    [LiveDropMenu.Dispatch sample_page
       (mouse LiveDropMenu.mousedown LiveDropMenu.Canvas 20);
     LiveDropMenu.Dispatch sample_page
       (mouse LiveDropMenu.mouseup LiveDropMenu.Canvas 20);
     LiveDropMenu.Dispatch sample_page
       (mouse LiveDropMenu.mousemove LiveDropMenu.DdCanvas 80);
     LiveDropMenu.Dispatch sample_page
       (mouse LiveDropMenu.mousedown LiveDropMenu.DdCanvas 80)].

(** The menu of three items after a click on the closed box. *)
Definition clicked_open : LiveDropMenu.t :=
  LiveDropMenu.run_actions abc_menu
    [LiveDropMenu.Dispatch sample_page
       (mouse LiveDropMenu.mousedown LiveDropMenu.Canvas 20);
     LiveDropMenu.Dispatch sample_page
       (mouse LiveDropMenu.mouseup LiveDropMenu.Canvas 20)].

(** The host shortens the array it shares with the menu of three items
    to one label, then clicks the closed box: the overlay is open, still
    three rows high. *)
Definition shortened_then_opened : list LiveDropMenu.action :=
  [LiveDropMenu.MutateMenuItems ["A"]%string;
   LiveDropMenu.Dispatch sample_page
     (mouse LiveDropMenu.mousedown LiveDropMenu.Canvas 20);
   LiveDropMenu.Dispatch sample_page
     (mouse LiveDropMenu.mouseup LiveDropMenu.Canvas 20)].

(** A move to the pointer position [y], and a click there, all over the
    overlay. *)
Definition click_overlay_at (y : Q) : list LiveDropMenu.action :=
  [LiveDropMenu.Dispatch sample_page
     (mouse LiveDropMenu.mousemove LiveDropMenu.DdCanvas y);
   LiveDropMenu.Dispatch sample_page
     (mouse LiveDropMenu.mousedown LiveDropMenu.DdCanvas y);
   LiveDropMenu.Dispatch sample_page
     (mouse LiveDropMenu.mouseup LiveDropMenu.DdCanvas y)].

(** A click on the closed box, a move over the overlay 100 pixels below
    its top, and a click there. *)
Definition click_below_last_row : list LiveDropMenu.action :=
  [LiveDropMenu.Dispatch sample_page
     (mouse LiveDropMenu.mousedown LiveDropMenu.Canvas 20);
   LiveDropMenu.Dispatch sample_page
     (mouse LiveDropMenu.mouseup LiveDropMenu.Canvas 20);
   LiveDropMenu.Dispatch sample_page
     (mouse LiveDropMenu.mousemove LiveDropMenu.DdCanvas 130);
   LiveDropMenu.Dispatch sample_page
     (mouse LiveDropMenu.mousedown LiveDropMenu.DdCanvas 130);
   LiveDropMenu.Dispatch sample_page
     (mouse LiveDropMenu.mouseup LiveDropMenu.DdCanvas 130)].

(** What a host and a user do to a Slider, one step at a time: a complete
    drag, or a call of the mutation protocol. *)
Inductive session : Type :=
| Drag (down : Slider.event) (moves : list Slider.event) (up : Slider.event)
| Call (c : Slider.call).

Definition run_session (w : Slider.t) (s : session) : Slider.t :=
  match s with
  | Drag down moves up => Slider.drag_cycle down moves up w
  | Call c => Slider.do_call w c
  end.

(** A complete drag starts with a pointer-down on the overlay or the
    handle, continues with moves and ends with a pointer-up that passes
    [document.body]. *)
Definition well_formed (s : session) : Prop :=
  match s with
  | Drag down moves up =>
      Slider.is_down down ∧ Forall Slider.is_move moves
      ∧ Slider.is_up up ∧ Slider.reaches_body up
  | Call _ => True
  end.

(** The observers the [subscribe] calls of a list of actions register, in
    the order of the calls. *)
Definition subscriptions (l : list LiveDropMenu.action)
    : list LiveDropMenu.observer :=
  flat_map (λ a,
    match a with
    | LiveDropMenu.Subscribe ctx f =>
        [{| LiveDropMenu.context := ctx; LiveDropMenu.func := f |}]
    | _ => []
    end) l.

(** The actions in which the host changes the shared label array in
    place. *)
Definition in_place (a : LiveDropMenu.action) : Prop :=
  match a with
  | LiveDropMenu.MutateMenuItems _ => True
  | _ => False
  end.

(** The painted frame is the one [_drawUI] would paint now. *)
Definition in_sync (m : LiveDropMenu.t) : Prop :=
  LiveDropMenu.painted m
  = {| LiveDropMenu.box_text := LiveDropMenu._drawClosedMenuBox m;
       LiveDropMenu.rows := LiveDropMenu._drawDropDownMenuBox m |}.

(** The height of the overlay is what its canvas makes of the height
    of its rows: the row height times the number of labels. *)
Definition sized (m : LiveDropMenu.t) : Prop :=
  LiveDropMenu.dd_height (LiveDropMenu._ddCanvas m)
  = JS.canvas_size 150
      (JS.mul_nat (LiveDropMenu._getMenuItemHeight m)
         (length (LiveDropMenu._menuItems m))).

(** * Properties *)

(** ** Rounding *)

Section Rounding.
Local Open Scope Q_scope.

Lemma Qfloor_unique (x : Q) (k : Z) :
  inject_Z k <= x → x < inject_Z (k + 1) → Qfloor x = k.
Proof.
  intros Hlo Hhi.
  pose proof (Qfloor_le x) as Hf.
  pose proof (Qlt_floor x) as Hc.
  assert (inject_Z (Qfloor x) < inject_Z (k + 1)) as H1 by lra.
  assert (inject_Z k < inject_Z (Qfloor x + 1)) as H2 by lra.
  rewrite <- Zlt_Qlt in H1, H2. lia.
Qed.

Lemma Qfloor_inject_half (k : Z) : Qfloor (inject_Z k + (1 # 2)) = k.
Proof.
  apply Qfloor_unique; [lra |].
  rewrite inject_Z_plus. change (inject_Z 1) with 1. lra.
Qed.

Lemma toFixed0_inject_Z (z : Z) : JS.toFixed0 (inject_Z z) = z.
Proof.
  unfold JS.toFixed0. destruct (Qlt_le_dec (inject_Z z) 0) as [Hneg | Hpos].
  - rewrite <- inject_Z_opp, Qfloor_inject_half. lia.
  - apply Qfloor_inject_half.
Qed.

Lemma toFixed0_mono (a b : Q) : a <= b → (JS.toFixed0 a ≤ JS.toFixed0 b)%Z.
Proof.
  intros Hab. unfold JS.toFixed0.
  destruct (Qlt_le_dec a 0) as [Ha | Ha], (Qlt_le_dec b 0) as [Hb | Hb].
  - assert (Qfloor (- b + (1 # 2)) ≤ Qfloor (- a + (1 # 2)))%Z
      by (apply Qfloor_resp_le; lra).
    lia.
  - assert (Qfloor 0 ≤ Qfloor (- a + (1 # 2)))%Z
      by (apply Qfloor_resp_le; lra).
    assert (Qfloor 0 ≤ Qfloor (b + (1 # 2)))%Z
      by (apply Qfloor_resp_le; lra).
    change (Qfloor 0) with 0%Z in *. lia.
  - lra.
  - apply Qfloor_resp_le. lra.
Qed.

(** The numeral [toFixed] returns spells the rounded integer. *)
Lemma ToNumber_toFixed (x : Q) :
  JS.ToNumber (JS.toFixed x) = inject_Z (JS.toFixed0 x).
Proof.
  unfold JS.toFixed, JS.ToNumber, JS.is_neg, JS.toFixed0.
  destruct (Qlt_le_dec x 0) as [Hneg | Hpos]; f_equal;
    rewrite N2Z.inj_abs_N.
  - assert (Qfloor 0 ≤ Qfloor (- x + (1 # 2)))%Z
      by (apply Qfloor_resp_le; lra).
    change (Qfloor 0) with 0%Z in *. lia.
  - assert (Qfloor 0 ≤ Qfloor (x + (1 # 2)))%Z
      by (apply Qfloor_resp_le; lra).
    change (Qfloor 0) with 0%Z in *. lia.
Qed.

(** The Slider's transform as a function on numbers. *)
Lemma round_mono (a b : Q) :
  a <= b → inject_Z (JS.toFixed0 a) <= inject_Z (JS.toFixed0 b).
Proof. intros. rewrite <- Zle_Qle. by apply toFixed0_mono. Qed.

Lemma round_idem (a : Q) :
  inject_Z (JS.toFixed0 (inject_Z (JS.toFixed0 a))) == inject_Z (JS.toFixed0 a).
Proof. by rewrite toFixed0_inject_Z. Qed.

End Rounding.

(** ** Constraint *)

Section ConstraintFacts.
Local Open Scope Q_scope.

(** Case analysis on the two comparisons [clamp] makes. *)
Ltac clamp_cases lo hi v :=
  let H1 := fresh "Hmin" in
  let H2 := fresh "Hmax" in
  destruct (Q.min_spec hi v) as [[? H1] | [? H1]];
  destruct (Q.max_spec lo (Qmin hi v)) as [[? H2] | [? H2]].

Lemma clamp_lower (c : Constraint.t) (v : Q) :
  Constraint.min c <= Constraint.clamp c v.
Proof.
  unfold Constraint.clamp.
  clamp_cases (Constraint.min c) (Constraint.max c) v; lra.
Qed.

Lemma clamp_upper (c : Constraint.t) (v : Q) :
  Constraint.min c <= Constraint.max c →
  Constraint.clamp c v <= Constraint.max c.
Proof.
  intros Hc. unfold Constraint.clamp.
  clamp_cases (Constraint.min c) (Constraint.max c) v; lra.
Qed.

Lemma clamp_fix (c : Constraint.t) (v : Q) :
  Constraint.min c <= v → v <= Constraint.max c → Constraint.clamp c v == v.
Proof.
  intros Hlo Hhi. unfold Constraint.clamp.
  clamp_cases (Constraint.min c) (Constraint.max c) v; lra.
Qed.

Lemma clamp_mono (c : Constraint.t) (v w : Q) :
  v <= w → Constraint.clamp c v <= Constraint.clamp c w.
Proof.
  intros Hvw. unfold Constraint.clamp.
  clamp_cases (Constraint.min c) (Constraint.max c) v;
    clamp_cases (Constraint.min c) (Constraint.max c) w; lra.
Qed.

Lemma clamp_inverted (c : Constraint.t) (v : Q) :
  Constraint.max c < Constraint.min c →
  Constraint.clamp c v == Constraint.min c.
Proof.
  intros Hc. unfold Constraint.clamp.
  clamp_cases (Constraint.min c) (Constraint.max c) v; lra.
Qed.

Lemma clamp_idem (c : Constraint.t) (v : Q) :
  Constraint.clamp c (Constraint.clamp c v) == Constraint.clamp c v.
Proof.
  destruct (Qlt_le_dec (Constraint.max c) (Constraint.min c)) as [Hc | Hc].
  - by rewrite !clamp_inverted.
  - apply clamp_fix; [apply clamp_lower | by apply clamp_upper].
Qed.

(** A monotone function maps equal numbers to equal numbers. *)
Lemma mono_proper (f : Q → Q) :
  (∀ a b, a <= b → f a <= f b) → ∀ a b, a == b → f a == f b.
Proof.
  intros Hf a b Hab. apply Qle_antisym; apply Hf; lra.
Qed.

(** Clamping followed by a monotone function that fixes its own results
    is idempotent. *)
Lemma transform_clamp_idem (c : Constraint.t) (f : Q → Q) (v : Q) :
  (∀ a b, a <= b → f a <= f b) →
  (∀ a, f (f a) == f a) →
  f (Constraint.clamp c (f (Constraint.clamp c v)))
  == f (Constraint.clamp c v).
Proof.
  intros Hmono Hidem.
  set (u := Constraint.clamp c v). set (r := f u).
  destruct (Qlt_le_dec (Constraint.max c) (Constraint.min c)) as [Hc | Hc].
  - apply (mono_proper f Hmono). subst u. by rewrite !clamp_inverted.
  - assert (Constraint.min c <= u) as Hlo by apply clamp_lower.
    assert (u <= Constraint.max c) as Hhi by (by apply clamp_upper).
    assert (Constraint.clamp c u == u) as Hfix by (by apply clamp_fix).
    pose proof (Hidem u) as Hr. fold r in Hr.
    destruct (Qlt_le_dec r u) as [Hru | Hur].
    + assert (r <= Constraint.clamp c r) as H1.
      { unfold Constraint.clamp.
        clamp_cases (Constraint.min c) (Constraint.max c) r; lra. }
      assert (Constraint.clamp c r <= u) as H2.
      { rewrite <- Hfix. apply clamp_mono. lra. }
      apply Hmono in H1, H2. fold r in H2. lra.
    + assert (Constraint.clamp c r <= r) as H1.
      { unfold Constraint.clamp.
        clamp_cases (Constraint.min c) (Constraint.max c) r; lra. }
      assert (u <= Constraint.clamp c r) as H2.
      { rewrite <- Hfix. by apply clamp_mono. }
      apply Hmono in H1, H2. fold r in H2. lra.
Qed.

Lemma clamp_proper (c : Constraint.t) (v w : Q) :
  v == w → Constraint.clamp c v == Constraint.clamp c w.
Proof. intros Hvw. apply Qle_antisym; apply clamp_mono; lra. Qed.

(** The value [apply] returns lies within the bounds, when they are
    ordered. *)
Lemma apply_in_range (c : Constraint.t) (v : Q) :
  Constraint.min c <= Constraint.max c →
  Constraint.min c <= Constraint.apply c v
  ∧ Constraint.apply c v <= Constraint.max c.
Proof.
  intros Hc. unfold Constraint.apply.
  destruct (Constraint.transform c) as [f |];
    (split; [apply clamp_lower | by apply clamp_upper]).
Qed.

End ConstraintFacts.

Lemma slider_constraint_lookup (p : bool) (nn : Constraint.t → option Q)
    (o : Slider.options) :
  ConstraintSpec.constraints (Slider._initStateConstraints p nn o) !! "val"
  = Some (slider_val_constraint o).
Proof. unfold Slider._initStateConstraints. simpl. by rewrite lookup_singleton_eq. Qed.

Lemma slider_constraint_well_behaved (o : Slider.options) :
  well_behaved (slider_val_constraint o).
Proof.
  unfold well_behaved, as_number, slider_val_constraint.
  cbn [Constraint.transform]. split.
  - intros a b Hab. rewrite !ToNumber_toFixed. by apply round_mono.
  - intros a. rewrite !ToNumber_toFixed. apply round_idem.
Qed.

Lemma apply_idem_well_behaved (c : Constraint.t) (v : Q) :
  well_behaved c →
  (Constraint.apply c (Constraint.apply c v) == Constraint.apply c v)%Q.
Proof.
  unfold well_behaved, Constraint.apply.
  destruct (Constraint.transform c) as [f |].
  - intros [Hmono Hidem]. fold (as_number f (Constraint.clamp c v)).
    set (r := as_number f (Constraint.clamp c v)).
    fold (as_number f (Constraint.clamp c (Constraint.clamp c r))).
    apply clamp_proper.
    assert (as_number f (Constraint.clamp c (Constraint.clamp c r))
            == as_number f (Constraint.clamp c r))%Q as ->
      by apply (mono_proper _ Hmono), clamp_idem.
    subst r. by apply transform_clamp_idem.
  - intros _. apply clamp_idem.
Qed.

(** C6, as stated, at a Constraint whose transform halves its argument:
    [{min: 0, max: 10, transform: n => n / 2}] maps 10 to 5 and 5 to 5/2. *)
Lemma apply_not_idempotent_halving :
  let c := {| Constraint.min := 0; Constraint.max := 10;
              Constraint.transform := Some (λ n, JS.Number (n / 2))%Q |} in
  (Constraint.apply c 10 == 5)%Q
  ∧ ¬ (Constraint.apply c (Constraint.apply c 10) == Constraint.apply c 10)%Q.
Proof. split; [reflexivity | vm_compute; discriminate]. Qed.

(** C6 (amended): for every numeric x, apply(apply(x)) == apply(x) for
    every Constraint that has no transform, or whose transform, its result
    read as a number, is monotone and maps every number it produces to
    itself.  The Constraint the Slider puts on [val] is one of these, for
    all minVal and maxVal: its transform toFixed(0) returns the numeral of
    the integer nearest to the clamped value, which [apply] clamps again
    as a number (the transform itself would throw on that numeral, which
    is a string, and is never handed one). *)
Theorem constraint_apply_idempotent :
  (∀ (c : Constraint.t) (x : Q),
     well_behaved c →
     (Constraint.apply c (Constraint.apply c x) == Constraint.apply c x)%Q)
  ∧ (∀ (p : bool) (nn : Constraint.t → option Q) (o : Slider.options),
       ConstraintSpec.constraints (Slider._initStateConstraints p nn o)
         !! "val"
       = Some (slider_val_constraint o)
       ∧ Constraint.transform (slider_val_constraint o)
         = Some (λ num, JS.toFixed num)
       ∧ (∀ num, JS.call_toFixed (JS.Number num) = JS.Normal (JS.toFixed num)
                 ∧ JS.call_toFixed (JS.toFixed num) = JS.Throw "TypeError"
                 ∧ JS.ToNumber (JS.toFixed num) = inject_Z (JS.toFixed0 num))
       ∧ well_behaved (slider_val_constraint o)
       ∧ ∀ x, (Constraint.apply (slider_val_constraint o)
                 (Constraint.apply (slider_val_constraint o) x)
               == Constraint.apply (slider_val_constraint o) x)%Q).
Proof.
  split.
  - intros c v Hc. by apply apply_idem_well_behaved.
  - intros p nn o.
    split; [apply slider_constraint_lookup |].
    split; [reflexivity |].
    split; [intros num; do 2 (split; [reflexivity |]); apply ToNumber_toFixed |].
    split; [apply slider_constraint_well_behaved |].
    intros v. apply apply_idem_well_behaved, slider_constraint_well_behaved.
Qed.

(** The Slider's own Constraint with the default bounds: 200 is
    validated to 127, and 127 to itself. *)
Lemma constraint_apply_idempotent_witness :
  let c := slider_val_constraint Slider.defaults in
  well_behaved c
  ∧ (Constraint.apply c (Constraint.apply c 200) == Constraint.apply c 200)%Q.
Proof.
  split; [apply slider_constraint_well_behaved |].
  apply (proj1 constraint_apply_idempotent).
  apply slider_constraint_well_behaved.
Defined.

(** ** The mutation protocol *)

Section WidgetFacts.
Context {O X : Type} `{Widget.Impl O X}.

Lemma ConstraintSpec_apply_lookup (cs : ConstraintSpec.t)
    (delta : gmap string Q) (k : string) :
  ConstraintSpec.apply cs delta !! k
  = delta !! k ≫= λ v,
      match ConstraintSpec.constraints cs !! k with
      | Some c => Some (Constraint.apply c v)
      | None => if ConstraintSpec.permissive cs then Some v else None
      end.
Proof. unfold ConstraintSpec.apply. by rewrite map_lookup_imap. Qed.

(** Validation of a delta that only names a constrained field. *)
Lemma ConstraintSpec_apply_singleton (cs : ConstraintSpec.t) (k : string)
    (c : Constraint.t) (v : Q) :
  ConstraintSpec.constraints cs !! k = Some c →
  ConstraintSpec.apply cs {[ k := v ]} = {[ k := Constraint.apply c v ]}.
Proof.
  intros Hc. apply map_eq. intros j.
  rewrite ConstraintSpec_apply_lookup.
  destruct (decide (k = j)) as [<- | Hne].
  - rewrite !lookup_singleton_eq. simpl. by rewrite Hc.
  - by rewrite !lookup_singleton_ne.
Qed.

Lemma setInternalState_state (delta : gmap string Q) (w : Widget.t O X) :
  Widget.state (Widget.setInternalState delta w)
  = ConstraintSpec.apply (Widget.stateConstraints w) delta ∪ Widget.state w.
Proof. reflexivity. Qed.

Lemma setInternalState_calls (delta : gmap string Q) (w : Widget.t O X) :
  Widget.calls (Widget.setInternalState delta w) = Widget.calls w.
Proof. reflexivity. Qed.

Lemma setState_calls (delta : gmap string Q) (w : Widget.t O X) :
  Widget.calls (Widget.setState delta w)
  = Widget.calls w
    ++ map (λ ob, (ob, Widget.getVal
                         (Widget.state (Widget.setInternalState delta w))))
         (Widget.observers w).
Proof. reflexivity. Qed.

Lemma setState_state (delta : gmap string Q) (w : Widget.t O X) :
  Widget.state (Widget.setState delta w)
  = Widget.state (Widget.setInternalState delta w).
Proof. reflexivity. Qed.

(** The value a field has after a mutation that names it. *)
Lemma setInternalState_validated (k : string) (c : Constraint.t) (v : Q)
    (w : Widget.t O X) :
  ConstraintSpec.constraints (Widget.stateConstraints w) !! k = Some c →
  Widget.state (Widget.setInternalState {[ k := v ]} w)
  = <[ k := Constraint.apply c v ]> (Widget.state w).
Proof.
  intros Hc. rewrite setInternalState_state.
  rewrite (ConstraintSpec_apply_singleton _ _ c) by done.
  by rewrite insert_union_singleton_l.
Qed.

End WidgetFacts.

(** C1: [setInternalState({val: v})] invokes no observer callback;
    [setState({val: v})] invokes the callback of every registered observer
    once, in registration order, with the validated value of [v] (for a
    subscribed observer registered once, exactly one call); the Slider's
    [setInternalVal] and [setVal] are these two paths. *)
Theorem notification_asymmetry :
  (∀ (O X : Type) (I : Widget.Impl O X) (w : Widget.t O X) (v : Q),
     Widget.calls (Widget.setInternalState {[ "val" := v ]} w)
     = Widget.calls w)
  ∧ (∀ (O X : Type) (I : Widget.Impl O X) (w : Widget.t O X) (v : Q)
       (c : Constraint.t),
       ConstraintSpec.constraints (Widget.stateConstraints w) !! "val"
       = Some c →
       Widget.state (Widget.setState {[ "val" := v ]} w)
       = <[ "val" := Constraint.apply c v ]> (Widget.state w)
       ∧ Widget.calls (Widget.setState {[ "val" := v ]} w)
         = Widget.calls w
           ++ map (λ ob, (ob, Widget.getVal
                                (<[ "val" := Constraint.apply c v ]>
                                   (Widget.state w))))
                (Widget.observers w))
  ∧ (∀ (w : Slider.t) (v : Q) (c : Constraint.t),
       ConstraintSpec.constraints (Widget.stateConstraints w) !! "val"
       = Some c →
       Slider.setInternalVal v w = Widget.setInternalState {[ "val" := v ]} w
       ∧ Slider.setVal v w = Widget.setState {[ "val" := v ]} w
       ∧ Widget.calls (Slider.setInternalVal v w) = Widget.calls w
       ∧ Slider.getVal (Slider.setVal v w) = Some (Constraint.apply c v)
       ∧ (∃ added,
            Widget.calls (Slider.setVal v w) = Widget.calls w ++ added
            ∧ added = map (λ ob, (ob, Some (Constraint.apply c v)))
                        (Widget.observers w)
            ∧ ∀ ob, ob ∈ Widget.observers w →
                    NoDup (Widget.observers w) →
                    calls_to ob added = [(ob, Some (Constraint.apply c v))])).
Proof.
  split; [| split].
  - intros. apply setInternalState_calls.
  - intros O X I w v c Hc. split.
    + rewrite setState_state. by apply setInternalState_validated.
    + rewrite setState_calls. by rewrite (setInternalState_validated _ c).
  - intros w v c Hc. unfold Slider.setInternalVal, Slider.setVal.
    do 3 (split; [reflexivity |]).
    split.
    { unfold Slider.getVal. rewrite setState_state.
      rewrite (setInternalState_validated _ c) by done.
      apply lookup_insert_eq. }
    eexists. split; [| split; [reflexivity |]].
    + rewrite setState_calls, (setInternalState_validated _ c) by done.
      simpl. by rewrite lookup_insert_eq.
    + intros ob Hin Hnd. unfold calls_to.
      induction (Widget.observers w) as [| a obs IH]; [by inversion Hin |].
      apply NoDup_cons in Hnd as [Hna Hnd]. simpl. rewrite filter_cons. simpl.
      destruct (decide (a = ob)) as [-> | Hne].
      * f_equal. clear IH Hin Hnd.
        induction obs as [| b obs IH]; [done |].
        simpl. rewrite filter_cons. simpl.
        apply not_elem_of_cons in Hna as [Hb Hna].
        rewrite decide_False by done. by apply IH.
      * apply IH; [| done]. by apply elem_of_cons in Hin as [-> | Hin].
Qed.

Lemma notification_asymmetry_witness :
  Widget.calls (Slider.setInternalVal 200 sample_slider) = []
  ∧ Widget.calls (Slider.setVal 200 sample_slider)
    = [(sample_observer, Some (inject_Z 127))].
Proof.
  destruct notification_asymmetry as (_ & _ & Hslider).
  destruct (Hslider sample_slider 200%Q
              (slider_val_constraint (Widget.o sample_slider)))
    as (_ & _ & Hint & _ & added & Hcalls & -> & _).
  - apply slider_constraint_lookup.
  - split; [exact Hint | exact Hcalls].
Defined.

(** ** The range of the Slider's value *)

Section RangeInvariant.
Local Open Scope Q_scope.
Variable p : bool.
Variable nn : Constraint.t → option Q.
Variable o : Slider.options.
Hypothesis Hle : Slider.minVal o <= Slider.maxVal o.

(** The validated value stays between the bounds. *)
Lemma validated_in_range (v : Q) :
  Slider.minVal o <= Constraint.apply (slider_val_constraint o) v
  ∧ Constraint.apply (slider_val_constraint o) v <= Slider.maxVal o.
Proof. by apply (apply_in_range (slider_val_constraint o)). Qed.

Lemma slider_inv_new (c : Slider.container) (s : Slider.supplied) :
  Slider._initOptions s = o → slider_inv p nn o (Slider.new p nn c s).
Proof.
  intros Ho. unfold Slider.new. rewrite Ho. split; [reflexivity |].
  exists (Slider.minVal o). simpl. unfold Slider._initState_state.
  rewrite lookup_singleton_eq.
  split; [done |]. split; [lra | exact Hle].
Qed.

Lemma slider_inv_setInternalState (delta : gmap string Q) (w : Slider.t) :
  slider_inv p nn o w → slider_inv p nn o (Widget.setInternalState delta w).
Proof.
  intros [Hcs (v & Hv & Hrange)]. split; [exact Hcs |].
  rewrite setInternalState_state, Hcs.
  destruct (delta !! "val") as [v' |] eqn:Hd.
  - exists (Constraint.apply (slider_val_constraint o) v').
    split; [| apply validated_in_range].
    apply lookup_union_Some_l.
    rewrite ConstraintSpec_apply_lookup, Hd. simpl.
    by rewrite lookup_singleton_eq.
  - exists v. split; [| exact Hrange].
    rewrite lookup_union_r; [exact Hv |].
    by rewrite ConstraintSpec_apply_lookup, Hd.
Qed.

Lemma slider_inv_do_call (c : Slider.call) (w : Slider.t) :
  slider_inv p nn o w → slider_inv p nn o (Slider.do_call w c).
Proof.
  intros Hw. destruct c as [delta | delta]; simpl.
  - apply (slider_inv_setInternalState delta) in Hw. exact Hw.
  - by apply slider_inv_setInternalState.
Qed.

Lemma slider_inv_calls (cs : list Slider.call) (w : Slider.t) :
  slider_inv p nn o w → slider_inv p nn o (foldl Slider.do_call w cs).
Proof.
  revert w. induction cs as [| c cs IH]; intros w Hw; [exact Hw |].
  simpl. by apply IH, slider_inv_do_call.
Qed.

End RangeInvariant.

(** C3: for every Slider constructed with minVal <= maxVal, under either
    policy for fields with no Constraint, after every finite sequence of
    setState and setInternalState calls with arbitrary numeric deltas
    (deltas that name other fields, or no field, included), getVal()
    returns a value within [minVal, maxVal]. *)
Theorem slider_value_in_range (p : bool) (nn : Constraint.t → option Q)
    (c : Slider.container) (s : Slider.supplied) (cs : list Slider.call) :
  (Slider.minVal (Slider._initOptions s)
   <= Slider.maxVal (Slider._initOptions s))%Q →
  ∃ v, Slider.getVal (foldl Slider.do_call (Slider.new p nn c s) cs) = Some v
       ∧ (Slider.minVal (Slider._initOptions s) <= v)%Q
       ∧ (v <= Slider.maxVal (Slider._initOptions s))%Q.
Proof.
  intros Hle.
  destruct (slider_inv_calls p nn _ Hle cs (Slider.new p nn c s))
    as [_ Hv]; [| exact Hv].
  by apply slider_inv_new.
Qed.

Lemma slider_value_in_range_witness :
  ∃ v, Slider.getVal
         (foldl Slider.do_call
            (Slider.new true rejecting sample_container
               {| Slider.given_minVal := None;
                  Slider.given_maxVal := Some (3 # 4)%Q;
                  Slider.given_sliderBodyColor := None;
                  Slider.given_sliderHandleColor := None;
                  Slider.given_mouseSensitivity := None |})
            [Slider.SetState {[ "val" := 200%Q ]};
             Slider.SetInternalState {[ "val" := (- 3)%Q ]};
             Slider.SetState {[ "val" := 1%Q ]}]) = Some v
       ∧ (0 <= v)%Q ∧ (v <= 3 # 4)%Q.
Proof.
  apply (slider_value_in_range true rejecting sample_container
           {| Slider.given_minVal := None;
              Slider.given_maxVal := Some (3 # 4)%Q;
              Slider.given_sliderBodyColor := None;
              Slider.given_sliderHandleColor := None;
              Slider.given_mouseSensitivity := None |}).
  by vm_compute.
Defined.

(** ** Geometry of the Slider *)

(** C5: the pixel of the handle for the value [v], mapped back through
    [_calcTouchVal], gives [v + minVal] and not [v]: the handle position
    divides [val] by the range without subtracting minVal, while
    [_calcTouchVal] adds minVal.  The round trip returns [v] exactly when
    minVal is 0. *)
Theorem touch_of_handle_pixel (w : Slider.t) (v y : Q) :
  Slider.dims (Widget.els w) = Slider._initState_dims →
  Widget.state w !! "val" = Some v →
  ¬ (body_height w == 0)%Q →
  ¬ (Slider.maxVal (Widget.o w) - Slider.minVal (Widget.o w) == 0)%Q →
  (Slider._getRelativeY (Slider.cont (Widget.els w)) y == handle_y0 w)%Q →
  (Slider.calcTouchVal_of w y == v + Slider.minVal (Widget.o w))%Q
  ∧ ((Slider.calcTouchVal_of w y == v)%Q
     ↔ (Slider.minVal (Widget.o w) == 0)%Q).
Proof.
  intros Hd Hv HH HR Hy.
  assert (Slider.calcTouchVal_of w y == v + Slider.minVal (Widget.o w))%Q
    as Hround.
  { unfold Slider.calcTouchVal_of, Slider._calcTouchVal.
    rewrite Hy. unfold handle_y0, body_height in *.
    unfold Slider._calcSliderHandlePoints, Slider._calcSliderBodyHeight,
      Slider.state_val in *.
    rewrite Hv, Hd in *. simpl in *. field. split; assumption. }
  split; [exact Hround |].
  rewrite Hround. split; intros Hm; lra.
Qed.

(** The freshly built Slider with [minVal = 10], [maxVal = 20] holds the
    value 10; its handle is drawn at pixel 5, the top of the track, and
    that pixel reads back as 20. *)
Lemma touch_of_handle_pixel_witness :
  Slider.getVal slider_10_20 = Some 10%Q
  ∧ (handle_y0 slider_10_20 == 5)%Q
  ∧ (Slider.calcTouchVal_of slider_10_20 5 == 10 + 10)%Q
  ∧ ¬ (Slider.calcTouchVal_of slider_10_20 5 == 10)%Q.
Proof.
  assert (Slider.calcTouchVal_of slider_10_20 5
          == 10 + Slider.minVal (Widget.o slider_10_20))%Q as Hround.
  { apply (touch_of_handle_pixel slider_10_20 10 5).
    - reflexivity.
    - reflexivity.
    - vm_compute. discriminate.
    - vm_compute. discriminate.
    - reflexivity. }
  split; [reflexivity |].
  split; [reflexivity |].
  split; [exact Hround |].
  vm_compute. discriminate.
Defined.

(** ** Listeners of the Slider on [document.body] *)

Section SliderListeners.

Ltac expose_slider w :=
  destruct w as [o cs st obs calls [cont dims svg ov ha bo]];
  simpl in *; subst.

Lemma slider_new_wired (p : bool) (nn : Constraint.t → option Q)
    (c : Slider.container) (s : Slider.supplied) :
  slider_wired (Slider.new p nn c s)
  ∧ Slider.body_listeners (Widget.els (Slider.new p nn c s)) = [].
Proof. split; [split |]; reflexivity. Qed.

(** An event targeted outside [document.body] reaches no listener of
    the Slider. *)
Lemma slider_dispatch_outside (w : Slider.t) (ev : Slider.event) :
  Slider.ev_target ev = Slider.Outside → Slider.dispatch ev w = w.
Proof. intros Htg. unfold Slider.dispatch. by rewrite Htg. Qed.

Lemma slider_down_attaches (w : Slider.t) (ev : Slider.event) :
  slider_wired w → Slider.body_listeners (Widget.els w) = [] →
  Slider.is_down ev →
  slider_wired (Slider.dispatch ev w)
  ∧ Slider.body_listeners (Widget.els (Slider.dispatch ev w))
    = dragging_listeners.
Proof.
  intros [Hov Hha] Hb [Hty Htg].
  destruct ev as [ph tg y | ph tg]; expose_slider w; unfold slider_wired;
    destruct ph; try (by destruct Hty);
    destruct Htg as [-> | ->]; lazy; auto.
Qed.

Lemma slider_move_keeps (w : Slider.t) (ev : Slider.event) :
  slider_wired w →
  Slider.body_listeners (Widget.els w) = dragging_listeners →
  Slider.is_move ev →
  slider_wired (Slider.dispatch ev w)
  ∧ Slider.body_listeners (Widget.els (Slider.dispatch ev w))
    = dragging_listeners.
Proof.
  intros [Hov Hha] Hb Hty. unfold Slider.is_move in Hty.
  destruct ev as [ph tg y | ph tg]; expose_slider w; unfold slider_wired;
    destruct ph; try (by destruct Hty); destruct tg; lazy; auto.
Qed.

Lemma slider_up_detaches (w : Slider.t) (ev : Slider.event) :
  slider_wired w →
  Slider.body_listeners (Widget.els w) = dragging_listeners →
  Slider.is_up ev → Slider.reaches_body ev →
  slider_wired (Slider.dispatch ev w)
  ∧ Slider.body_listeners (Widget.els (Slider.dispatch ev w)) = [].
Proof.
  intros [Hov Hha] Hb Hty Htg.
  unfold Slider.is_up, Slider.reaches_body in *.
  destruct ev as [ph tg y | ph tg]; expose_slider w; unfold slider_wired;
    destruct ph; try (by destruct Hty); destruct tg; try done; lazy; auto.
Qed.

Lemma slider_moves_keep (moves : list Slider.event) (w : Slider.t) :
  slider_wired w →
  Slider.body_listeners (Widget.els w) = dragging_listeners →
  Forall Slider.is_move moves →
  slider_wired (foldl (λ w ev, Slider.dispatch ev w) w moves)
  ∧ Slider.body_listeners
      (Widget.els (foldl (λ w ev, Slider.dispatch ev w) w moves))
    = dragging_listeners.
Proof.
  revert w. induction moves as [| ev moves IH]; intros w Hw Hb Hmoves; [done |].
  apply Forall_cons in Hmoves as [Hev Hmoves]. simpl.
  destruct (slider_move_keeps w ev Hw Hb Hev) as [Hw' Hb'].
  by apply IH.
Qed.

(** The Slider half of the listener balance: a drag whose pointer-up
    passes [document.body] leaves [document.body] with the listeners it had
    before the pointer-down, and the four drag listeners are attached,
    once each, in between. *)
Lemma slider_drag_cycle_balanced (w : Slider.t) (down up : Slider.event)
    (moves : list Slider.event) :
  slider_wired w → Slider.body_listeners (Widget.els w) = [] →
  Slider.is_down down → Forall Slider.is_move moves →
  Slider.is_up up → Slider.reaches_body up →
  slider_wired (Slider.drag_cycle down moves up w)
  ∧ Slider.body_listeners (Widget.els (Slider.drag_cycle down moves up w))
    = Slider.body_listeners (Widget.els w).
Proof.
  intros Hw Hb Hdown Hmoves Hup Hbody. rewrite Hb. unfold Slider.drag_cycle.
  destruct (slider_down_attaches w down Hw Hb Hdown) as [Hw1 Hb1].
  destruct (slider_moves_keep moves _ Hw1 Hb1 Hmoves) as [Hw2 Hb2].
  by apply slider_up_detaches.
Qed.

(** A drag whose pointer-up is targeted outside [document.body] never
    reaches [releaseHandle]: the four drag listeners stay attached. *)
Lemma slider_drag_released_outside (w : Slider.t) (down up : Slider.event)
    (moves : list Slider.event) :
  slider_wired w → Slider.body_listeners (Widget.els w) = [] →
  Slider.is_down down → Forall Slider.is_move moves →
  Slider.ev_target up = Slider.Outside →
  Slider.body_listeners (Widget.els (Slider.drag_cycle down moves up w))
  = dragging_listeners.
Proof.
  intros Hw Hb Hdown Hmoves Hup. unfold Slider.drag_cycle.
  destruct (slider_down_attaches w down Hw Hb Hdown) as [Hw1 Hb1].
  destruct (slider_moves_keep moves _ Hw1 Hb1 Hmoves) as [Hw2 Hb2].
  by rewrite slider_dispatch_outside.
Qed.

End SliderListeners.

(** ** Listeners of the LiveDropMenu *)

Section MenuListeners.
Import LiveDropMenu.

Ltac expose m :=
  destruct m as [obs items sel hov sty dd cl dl docl pt cls];
  simpl in *; subst.

Ltac pick_config :=
  first [ left; done | right; left; done | right; right; done
        | right; done | done ].

Lemma new_fresh (o : option options) (pg : page) : fresh (new o pg).
Proof. done. Qed.

(** What a dispatch amounts to in each listener configuration. *)
Lemma dispatch_mousedown_canvas (pg : page) (e : event) (m : t) :
  fresh m ∨ opened m ∨ armed m →
  ev_type e = mousedown → target e = Canvas →
  dispatch pg e m = run_mouseDownListener m.
Proof.
  intros [(Hc & Hd & Hdoc) | [(Hc & Hd & Hdoc) | (Hc & Hd & Hdoc)]] Hty Htg;
    destruct e as [ty tg y]; expose m; reflexivity.
Qed.

Lemma dispatch_mousedown_outside (pg : page) (e : event) (m : t) :
  opened m ∨ armed m → ev_type e = mousedown → target e ≠ Canvas →
  dispatch pg e m = run_secondMouseDownListener e m.
Proof.
  intros [(Hc & Hd & Hdoc) | (Hc & Hd & Hdoc)] Hty Htg;
    destruct e as [ty tg y]; expose m; destruct tg; try done; reflexivity.
Qed.

Lemma dispatch_mousemove_overlay (pg : page) (e : event) (m : t) :
  opened m ∨ armed m → ev_type e = mousemove → target e = DdCanvas →
  dispatch pg e m = run_mouseMoveListener pg e m.
Proof.
  intros [(Hc & Hd & Hdoc) | (Hc & Hd & Hdoc)] Hty Htg;
    destruct e as [ty tg y]; expose m; reflexivity.
Qed.

Lemma dispatch_mouseup_armed (pg : page) (e : event) (m : t) :
  armed m → ev_type e = mouseup → dispatch pg e m = run_mouseUpListener e m.
Proof.
  intros (Hc & Hd & Hdoc) Hty. destruct e as [ty tg y]. expose m.
  destruct tg; reflexivity.
Qed.

(** Without the mouseup listener a pointer-up changes nothing. *)
Lemma dispatch_mouseup_unarmed (pg : page) (e : event) (m : t) :
  fresh m ∨ opened m → ev_type e = mouseup → dispatch pg e m = m.
Proof.
  intros [(Hc & Hd & Hdoc) | (Hc & Hd & Hdoc)] Hty;
    destruct e as [ty tg y]; expose m; destruct tg; reflexivity.
Qed.

Lemma run_mouseUpListener_listeners (e : event) (m : t) :
  canvas_listeners (run_mouseUpListener e m) = canvas_listeners m
  ∧ ddCanvas_listeners (run_mouseUpListener e m) = ddCanvas_listeners m
  ∧ document_listeners (run_mouseUpListener e m)
    = EventTarget.removeEventListener mouseup mouseUpListener
        (document_listeners m).
Proof. unfold run_mouseUpListener. simpl. by case_decide. Qed.

Lemma run_mouseUpListener_overlay (e : event) (m : t) :
  _ddCanvas (run_mouseUpListener e m)
  = set_dd_visibility hidden (_ddCanvas m).
Proof. unfold run_mouseUpListener. simpl. by case_decide. Qed.

(** The listener configuration after a dispatch. *)
Lemma dispatch_config (pg : page) (e : event) (m : t) :
  (fresh m → fresh (dispatch pg e m) ∨ opened (dispatch pg e m))
  ∧ (opened m → opened (dispatch pg e m) ∨ armed (dispatch pg e m))
  ∧ (armed m → opened (dispatch pg e m) ∨ armed (dispatch pg e m)).
Proof.
  split; [| split].
  - unfold fresh, opened. intros (Hc & Hd & Hdoc).
    destruct e as [ty tg y]; expose m; destruct ty, tg; lazy; pick_config.
  - unfold opened, armed. intros (Hc & Hd & Hdoc).
    destruct e as [ty tg y]; expose m; destruct ty, tg; lazy; pick_config.
  - intros Ha. destruct (ev_type e) eqn:Hty.
    + unfold opened, armed in *. destruct Ha as (Hc & Hd & Hdoc).
      destruct e as [ty tg y]; expose m; destruct tg; lazy; pick_config.
    + unfold opened, armed in *. destruct Ha as (Hc & Hd & Hdoc).
      destruct e as [ty tg y]; expose m; destruct tg; lazy; pick_config.
    + rewrite dispatch_mouseup_armed by done. left. unfold opened.
      destruct (run_mouseUpListener_listeners e m) as (-> & -> & ->).
      destruct Ha as (-> & -> & ->). done.
Qed.

Lemma step_config (a : action) (m : t) :
  (fresh m → fresh (step m a) ∨ opened (step m a))
  ∧ (opened m → opened (step m a) ∨ armed (step m a))
  ∧ (armed m → opened (step m a) ∨ armed (step m a)).
Proof.
  destruct a as [pg e | ctx f | ctx f | pg newItems | newItems |];
    [apply dispatch_config | | | | |];
    unfold fresh, opened, armed;
    (split; [| split]); intros (Hc & Hd & Hdoc); expose m; pick_config.
Qed.

(** Every reachable menu is in one of the three configurations. *)
Lemma reachable_config (o : option options) (pg : page) (m : t) :
  reachable o pg m → fresh m ∨ opened m ∨ armed m.
Proof.
  induction 1 as [| m a _ IH]; [left; apply new_fresh |].
  destruct (step_config a m) as (Hf & Ho & Ha).
  destruct IH as [H | [H | H]]; [ apply Hf in H | apply Ho in H | apply Ha in H];
    tauto.
Qed.

(** Once the menu has been opened, [document] keeps a listener for ever. *)
Lemma opened_for_ever (l : list action) (m : t) :
  opened m ∨ armed m → opened (run_actions m l) ∨ armed (run_actions m l).
Proof.
  revert m. induction l as [| a l IH]; intros m Hm; [exact Hm |].
  simpl. apply IH. destruct (step_config a m) as (_ & Ho & Ha).
  destruct Hm as [H | H]; [by apply Ho | by apply Ha].
Qed.

Lemma moves_keep_opened (moves : list (page * Q)) (m : t) :
  opened m →
  opened (foldl (λ m mv, dispatch mv.1 (mouse mousemove DdCanvas mv.2) m)
            m moves).
Proof.
  revert m. induction moves as [| mv moves IH]; intros m Hm; [exact Hm |].
  simpl. apply IH.
  rewrite dispatch_mousemove_overlay by (try done; by left).
  destruct Hm as (Hc & Hd & Hdoc). by expose m.
Qed.

End MenuListeners.

(** C2: the listener balance holds for the Slider and fails for the
    LiveDropMenu.  A menu starts with no listener on [document]; after a
    complete open/close cycle (pointer-down on the closed box, moves over
    the overlay, pointer-down on the overlay or elsewhere in the page,
    pointer-up anywhere) the overlay is hidden again and [document] holds
    [secondMouseDownListener], which no path removes: the count is 1, not
    the baseline 0, and it never returns to 0. *)
Theorem dropmenu_document_listener_leak (o : option LiveDropMenu.options)
    (pg pg1 pg3 pg4 : LiveDropMenu.page) (y1 y3 y4 : Q)
    (moves : list (LiveDropMenu.page * Q))
    (press_on_overlay : bool) (release_target : LiveDropMenu.node) :
  let press_target :=
    if press_on_overlay then LiveDropMenu.DdCanvas
    else LiveDropMenu.Elsewhere in
  let m0 := LiveDropMenu.new o pg in
  let m1 :=
    LiveDropMenu.dispatch pg1
      (mouse LiveDropMenu.mousedown LiveDropMenu.Canvas y1) m0 in
  let m2 :=
    foldl (λ m mv,
             LiveDropMenu.dispatch mv.1
               (mouse LiveDropMenu.mousemove LiveDropMenu.DdCanvas mv.2) m)
          m1 moves in
  let m3 :=
    LiveDropMenu.dispatch pg3
      (mouse LiveDropMenu.mousedown press_target y3) m2 in
  let m4 :=
    LiveDropMenu.dispatch pg4
      (mouse LiveDropMenu.mouseup release_target y4) m3 in
  length (LiveDropMenu.document_listeners m0) = 0%nat
  ∧ LiveDropMenu.dd_visibility (LiveDropMenu._ddCanvas m1)
    = LiveDropMenu.visible
  ∧ LiveDropMenu.dd_visibility (LiveDropMenu._ddCanvas m4)
    = LiveDropMenu.hidden
  ∧ LiveDropMenu.document_listeners m4
    = [(LiveDropMenu.mousedown, LiveDropMenu.secondMouseDownListener)]
  ∧ ∀ l, (1 ≤ length (LiveDropMenu.document_listeners
                        (LiveDropMenu.run_actions m4 l)))%nat.
Proof.
  intros tg m0 m1 m2 m3 m4.
  assert (opened m1) as H1.
  { subst m1. rewrite dispatch_mousedown_canvas; try done.
    left. apply new_fresh. }
  assert (opened m2) as H2 by (by apply moves_keep_opened).
  assert (armed m3) as H3.
  { subst m3. rewrite dispatch_mousedown_outside; try done.
    - destruct H2 as (Hc & Hd & Hdoc). unfold armed.
      unfold LiveDropMenu.run_secondMouseDownListener.
      destruct press_on_overlay; simpl; by rewrite Hc, Hd, Hdoc.
    - by left.
    - subst tg. by destruct press_on_overlay. }
  assert (m4 = LiveDropMenu.run_mouseUpListener
                 (mouse LiveDropMenu.mouseup release_target y4) m3)
    as H4 by (by apply dispatch_mouseup_armed).
  assert (opened m4) as Hopen.
  { rewrite H4. destruct H3 as (Hc & Hd & Hdoc). unfold opened.
    destruct (run_mouseUpListener_listeners
                (mouse LiveDropMenu.mouseup release_target y4) m3)
      as (-> & -> & ->).
    by rewrite Hc, Hd, Hdoc. }
  split; [done |]. split.
  { subst m1. rewrite dispatch_mousedown_canvas; try done.
    left. apply new_fresh. }
  split; [by rewrite H4, run_mouseUpListener_overlay |].
  split; [apply Hopen |].
  intros l. destruct (opened_for_ever l m4) as [(_ & _ & ->) | (_ & _ & ->)];
    [by left | simpl; lia | simpl; lia].
Qed.

(** ** Pointer-up on the LiveDropMenu *)

Lemma mouseup_attached_armed (o : option LiveDropMenu.options)
    (pg : LiveDropMenu.page) (m : LiveDropMenu.t) :
  LiveDropMenu.reachable o pg m →
  (LiveDropMenu.mouseup, LiveDropMenu.mouseUpListener)
    ∈ LiveDropMenu.document_listeners m →
  armed m.
Proof.
  intros Hr Hin.
  destruct (reachable_config o pg m Hr)
    as [(_ & _ & Hdoc) | [(_ & _ & Hdoc) | Ha]].
  - rewrite Hdoc in Hin. by apply elem_of_nil in Hin.
  - rewrite Hdoc in Hin. apply elem_of_cons in Hin as [Hin | Hin];
      [discriminate | by apply elem_of_nil in Hin].
  - exact Ha.
Qed.

Lemma mouseup_detached_unarmed (o : option LiveDropMenu.options)
    (pg : LiveDropMenu.page) (m : LiveDropMenu.t) :
  LiveDropMenu.reachable o pg m →
  (LiveDropMenu.mouseup, LiveDropMenu.mouseUpListener)
    ∉ LiveDropMenu.document_listeners m →
  fresh m ∨ opened m.
Proof.
  intros Hr Hin.
  destruct (reachable_config o pg m Hr) as [Hf | [Ho | (_ & _ & Hdoc)]];
    [by left | by right |].
  rewrite Hdoc in Hin. exfalso. apply Hin.
  apply elem_of_cons. right. apply elem_of_cons. by left.
Qed.

(** What [mouseUpListener] does when the pointer went up over the
    overlay and an item is hovered. *)
Lemma run_mouseUpListener_commit (e : LiveDropMenu.event)
    (m : LiveDropMenu.t) :
  LiveDropMenu._hoverItemNum m ≠ JS.Int (-1) →
  LiveDropMenu.target e = LiveDropMenu.DdCanvas →
  let m' := LiveDropMenu.run_mouseUpListener e m in
  LiveDropMenu._selectedItemNum m' = LiveDropMenu._hoverItemNum m
  ∧ LiveDropMenu.calls m'
    = LiveDropMenu.calls m
      ++ map (λ ob, (ob, LiveDropMenu._hoverItemNum m))
           (LiveDropMenu._observers m)
  ∧ LiveDropMenu.dd_visibility (LiveDropMenu._ddCanvas m')
    = LiveDropMenu.hidden
  ∧ LiveDropMenu._hoverItemNum m' = JS.Int (-1).
Proof.
  intros Hh Ht. unfold LiveDropMenu.run_mouseUpListener. simpl.
  by rewrite decide_True.
Qed.

(** What [mouseUpListener] does when the pointer went up elsewhere. *)
Lemma run_mouseUpListener_cancel (e : LiveDropMenu.event)
    (m : LiveDropMenu.t) :
  LiveDropMenu.target e ≠ LiveDropMenu.DdCanvas →
  let m' := LiveDropMenu.run_mouseUpListener e m in
  LiveDropMenu._selectedItemNum m' = LiveDropMenu._selectedItemNum m
  ∧ LiveDropMenu.calls m' = LiveDropMenu.calls m
  ∧ LiveDropMenu.dd_visibility (LiveDropMenu._ddCanvas m')
    = LiveDropMenu.hidden
  ∧ LiveDropMenu._hoverItemNum m' = JS.Int (-1).
Proof.
  intros Ht. unfold LiveDropMenu.run_mouseUpListener. simpl.
  rewrite decide_False; [done |]. by intros [_ ?].
Qed.

(** C4, as stated, on the menu opened by a press that is held: the
    overlay is open and row 1 is hovered, yet a pointer-up over the overlay
    selects nothing and hides nothing, and a pointer-up elsewhere leaves
    the overlay open; the mouseup listener is not attached. *)
Lemma pointer_up_ignored_when_not_armed :
  let m := pressed_and_dragged in
  let on_overlay :=
    LiveDropMenu.dispatch sample_page
      (mouse LiveDropMenu.mouseup LiveDropMenu.DdCanvas 60) m in
  let elsewhere :=
    LiveDropMenu.dispatch sample_page
      (mouse LiveDropMenu.mouseup LiveDropMenu.Elsewhere 200) m in
  LiveDropMenu.dd_visibility (LiveDropMenu._ddCanvas m) = LiveDropMenu.visible
  ∧ LiveDropMenu._hoverItemNum m = JS.Int 1
  ∧ LiveDropMenu._selectedItemNum m = JS.Int 0
  ∧ LiveDropMenu._selectedItemNum on_overlay = JS.Int 0
  ∧ LiveDropMenu.calls on_overlay = []
  ∧ LiveDropMenu.dd_visibility (LiveDropMenu._ddCanvas on_overlay)
    = LiveDropMenu.visible
  ∧ LiveDropMenu._hoverItemNum on_overlay = JS.Int 1
  ∧ LiveDropMenu.dd_visibility (LiveDropMenu._ddCanvas elsewhere)
    = LiveDropMenu.visible
  ∧ LiveDropMenu._hoverItemNum elsewhere = JS.Int 1
  ∧ LiveDropMenu._selectedItemNum on_overlay ≠ LiveDropMenu._hoverItemNum m
  ∧ LiveDropMenu.dd_visibility (LiveDropMenu._ddCanvas on_overlay)
    ≠ LiveDropMenu.hidden
  ∧ LiveDropMenu._hoverItemNum on_overlay ≠ JS.Int (-1)
  ∧ LiveDropMenu.dd_visibility (LiveDropMenu._ddCanvas elsewhere)
    ≠ LiveDropMenu.hidden
  ∧ LiveDropMenu._hoverItemNum elsewhere ≠ JS.Int (-1).
Proof. vm_compute. repeat split; try reflexivity; discriminate. Qed.

(** C4 (amended): for a LiveDropMenu with hoverItemNum = i >= 0 whose
    mouseup listener is attached to the document (a pointer-down outside
    the closed box has been seen since the menu was opened), a pointer-up
    whose target is the overlay canvas sets selectedItemNum to i, notifies
    each observer exactly once with i, hides the overlay and resets
    hoverItemNum to -1; a pointer-up whose target is not the overlay hides
    the overlay, leaves selectedItemNum unchanged, resets hoverItemNum to
    -1 and notifies no observer.  Without that listener a pointer-up
    changes nothing. *)
Theorem pointer_up_when_armed (o : option LiveDropMenu.options)
    (pg pg' : LiveDropMenu.page) (m : LiveDropMenu.t)
    (e : LiveDropMenu.event) :
  LiveDropMenu.reachable o pg m →
  LiveDropMenu.ev_type e = LiveDropMenu.mouseup →
  let m' := LiveDropMenu.dispatch pg' e m in
  ((LiveDropMenu.mouseup, LiveDropMenu.mouseUpListener)
     ∈ LiveDropMenu.document_listeners m →
   ∀ i : Z,
     LiveDropMenu._hoverItemNum m = JS.Int i → (0 ≤ i)%Z →
     (LiveDropMenu.target e = LiveDropMenu.DdCanvas →
        LiveDropMenu._selectedItemNum m' = JS.Int i
        ∧ LiveDropMenu.calls m'
          = LiveDropMenu.calls m
            ++ map (λ ob, (ob, JS.Int i)) (LiveDropMenu._observers m)
        ∧ LiveDropMenu.dd_visibility (LiveDropMenu._ddCanvas m')
          = LiveDropMenu.hidden
        ∧ LiveDropMenu._hoverItemNum m' = JS.Int (-1))
     ∧ (LiveDropMenu.target e ≠ LiveDropMenu.DdCanvas →
          LiveDropMenu._selectedItemNum m' = LiveDropMenu._selectedItemNum m
          ∧ LiveDropMenu.calls m' = LiveDropMenu.calls m
          ∧ LiveDropMenu.dd_visibility (LiveDropMenu._ddCanvas m')
            = LiveDropMenu.hidden
          ∧ LiveDropMenu._hoverItemNum m' = JS.Int (-1)))
  ∧ ((LiveDropMenu.mouseup, LiveDropMenu.mouseUpListener)
       ∉ LiveDropMenu.document_listeners m →
     m' = m).
Proof.
  intros Hr Hty m'. split.
  - intros Hin i Hh Hi.
    assert (m' = LiveDropMenu.run_mouseUpListener e m) as ->.
    { apply dispatch_mouseup_armed; [| done].
      by eapply mouseup_attached_armed. }
    split; intros Ht.
    + rewrite <- Hh. apply run_mouseUpListener_commit; [| done].
      rewrite Hh. intros [= ->]. lia.
    + by apply run_mouseUpListener_cancel.
  - intros Hout. apply dispatch_mouseup_unarmed; [| done].
    by eapply mouseup_detached_unarmed.
Qed.

Lemma run_actions_reachable (o : option LiveDropMenu.options)
    (pg : LiveDropMenu.page) (l : list LiveDropMenu.action)
    (m : LiveDropMenu.t) :
  LiveDropMenu.reachable o pg m →
  LiveDropMenu.reachable o pg (LiveDropMenu.run_actions m l).
Proof.
  revert m. induction l as [| a l IH]; intros m Hm; [exact Hm |].
  simpl. apply IH. by constructor.
Qed.

Lemma abc_menu_reachable (l : list LiveDropMenu.action) :
  LiveDropMenu.reachable (Some abc_options) sample_page
    (LiveDropMenu.run_actions abc_menu l).
Proof.
  apply run_actions_reachable.
  apply (LiveDropMenu.reachable_step _ _ _ (LiveDropMenu.Subscribe 1 2)).
  constructor.
Qed.

Lemma pointer_up_when_armed_witness :
  let m' :=
    LiveDropMenu.dispatch sample_page
      (mouse LiveDropMenu.mouseup LiveDropMenu.DdCanvas 80)
      hovering_third_row in
  LiveDropMenu._selectedItemNum m' = JS.Int 2
  ∧ LiveDropMenu.calls m' = [(menu_observer, JS.Int 2)]
  ∧ LiveDropMenu.dd_visibility (LiveDropMenu._ddCanvas m')
    = LiveDropMenu.hidden
  ∧ LiveDropMenu._hoverItemNum m' = JS.Int (-1).
Proof.
  apply (proj1 (pointer_up_when_armed (Some abc_options) sample_page
                  sample_page hovering_third_row
                  (mouse LiveDropMenu.mouseup LiveDropMenu.DdCanvas 80)
                  (abc_menu_reachable _) eq_refl)).
  - vm_compute. apply elem_of_cons. right. apply elem_of_cons. by left.
  - reflexivity.
  - lia.
  - reflexivity.
Defined.

(** ** Observer registry of the LiveDropMenu *)

Lemma subscribe_appends (ctx f : nat) (m : LiveDropMenu.t) :
  LiveDropMenu._observers (LiveDropMenu.subscribe ctx f m)
  = LiveDropMenu._observers m
    ++ [{| LiveDropMenu.context := ctx; LiveDropMenu.func := f |}].
Proof. reflexivity. Qed.

(** C7: [subscribe] appends the pair, but [unsubscribe] removes nothing:
    it reads [this.observers], a property the class never defines, and
    the call of [filter] on [undefined] throws a TypeError before
    [_observers] is assigned.  The registry is the same after the call,
    the entry to remove included. *)
Theorem unsubscribe_throws (ctx f : nat) (m : LiveDropMenu.t) :
  LiveDropMenu.get m "observers" = LiveDropMenu.Undefined
  ∧ LiveDropMenu.unsubscribe ctx f m = JS.Throw "TypeError"
  ∧ LiveDropMenu._observers
      (LiveDropMenu.step (LiveDropMenu.subscribe ctx f m)
         (LiveDropMenu.Unsubscribe ctx f))
    = LiveDropMenu._observers m
      ++ [{| LiveDropMenu.context := ctx; LiveDropMenu.func := f |}].
Proof. split; [| split]; reflexivity. Qed.

(** ** Position of the overlay *)

Section OverlayPosition.
Import LiveDropMenu.

Lemma invoke_preserves {T L S : Type} `{EqDecision T, EqDecision L}
    (P : S → Prop) (current : S → list (T * L)) (run : L → S → S) (ty : T)
    (s : S) :
  (∀ f s, P s → P (run f s)) → P s → P (EventTarget.invoke current run ty s).
Proof.
  intros Hrun. unfold EventTarget.invoke.
  generalize (current s) as l. intros l. revert s.
  induction l as [| p l IH]; intros s Hs; [exact Hs |].
  simpl. apply IH. case_decide; [by apply Hrun | exact Hs].
Qed.

Lemma run_overlay_at (a b : Q) (pg : page) (e : event) (f : listener)
    (m : t) :
  overlay_at a b m → overlay_at a b (run pg e f m).
Proof.
  intros Hm. destruct f; simpl.
  - exact Hm.
  - unfold run_secondMouseDownListener. by case_decide.
  - exact Hm.
  - unfold overlay_at. rewrite run_mouseUpListener_overlay. exact Hm.
Qed.

Lemma step_overlay_at (a b : Q) (act : action) (m : t) :
  overlay_at a b m → overlay_at a b (step m act).
Proof.
  intros Hm.
  destruct act as [pg e | ctx f | ctx f | pg newItems | newItems |]; simpl.
  - unfold dispatch.
    apply invoke_preserves; [intros; by apply run_overlay_at |].
    apply invoke_preserves; [intros; by apply run_overlay_at | exact Hm].
  - exact Hm.
  - exact Hm.
  - exact Hm.
  - exact Hm.
  - exact Hm.
Qed.

Lemma reachable_overlay_at (o : option options) (pg : page) (m : t) :
  reachable o pg m → overlay_at (box_left pg) (box_bottom pg) m.
Proof.
  induction 1 as [| m a _ IH]; [done | by apply step_overlay_at].
Qed.

End OverlayPosition.

(** C8, as stated, on a menu built while the closed box ends at (10, 30)
    and opened after the box has moved to (50, 90): the overlay becomes
    visible at (10, 30), not at the box's current (50, 90). *)
Lemma overlay_not_repositioned_on_open :
  let m :=
    LiveDropMenu.dispatch moved_page
      (mouse LiveDropMenu.mousedown LiveDropMenu.Canvas 100)
      (LiveDropMenu.new None sample_page) in
  LiveDropMenu.dd_visibility (LiveDropMenu._ddCanvas m) = LiveDropMenu.visible
  ∧ LiveDropMenu.dd_left (LiveDropMenu._ddCanvas m) = 10%Q
  ∧ LiveDropMenu.dd_top (LiveDropMenu._ddCanvas m) = 30%Q
  ∧ ¬ (LiveDropMenu.dd_left (LiveDropMenu._ddCanvas m)
       == LiveDropMenu.box_left moved_page)%Q
  ∧ ¬ (LiveDropMenu.dd_top (LiveDropMenu._ddCanvas m)
       == LiveDropMenu.box_bottom moved_page)%Q.
Proof. vm_compute. repeat split; try reflexivity; discriminate. Qed.

(** C8 (amended): the overlay's position is computed once, by the
    constructor, from the closed box's bounding rectangle at that time
    (overlay left = box left, overlay top = box bottom); a pointer-down on
    the closed box makes the overlay visible at that position, whatever the
    bounding rectangle of the box is by then. *)
Theorem overlay_position_fixed_at_construction
    (o : option LiveDropMenu.options) (pg pg' : LiveDropMenu.page)
    (m : LiveDropMenu.t) (e : LiveDropMenu.event) :
  LiveDropMenu.reachable o pg m →
  LiveDropMenu.ev_type e = LiveDropMenu.mousedown →
  LiveDropMenu.target e = LiveDropMenu.Canvas →
  let m' := LiveDropMenu.dispatch pg' e m in
  LiveDropMenu.dd_left (LiveDropMenu._ddCanvas (LiveDropMenu.new o pg))
  = LiveDropMenu.box_left pg
  ∧ LiveDropMenu.dd_top (LiveDropMenu._ddCanvas (LiveDropMenu.new o pg))
    = LiveDropMenu.box_bottom pg
  ∧ LiveDropMenu.dd_visibility (LiveDropMenu._ddCanvas m')
    = LiveDropMenu.visible
  ∧ LiveDropMenu.dd_left (LiveDropMenu._ddCanvas m')
    = LiveDropMenu.box_left pg
  ∧ LiveDropMenu.dd_top (LiveDropMenu._ddCanvas m')
    = LiveDropMenu.box_bottom pg.
Proof.
  intros Hr Hty Htg m'.
  do 2 (split; [reflexivity |]).
  assert (LiveDropMenu.reachable o pg m') as Hr'
    by apply (LiveDropMenu.reachable_step _ _ _
                (LiveDropMenu.Dispatch pg' e) Hr).
  destruct (reachable_overlay_at o pg m' Hr') as [Hl Ht].
  split; [| by split].
  subst m'. rewrite dispatch_mousedown_canvas; [done | | done | done].
  by eapply reachable_config.
Qed.

Lemma overlay_position_fixed_at_construction_witness :
  let m' :=
    LiveDropMenu.dispatch moved_page
      (mouse LiveDropMenu.mousedown LiveDropMenu.Canvas 100)
      (LiveDropMenu.new None sample_page) in
  LiveDropMenu.dd_left
    (LiveDropMenu._ddCanvas (LiveDropMenu.new None sample_page)) = 10%Q
  ∧ LiveDropMenu.dd_top
      (LiveDropMenu._ddCanvas (LiveDropMenu.new None sample_page)) = 30%Q
  ∧ LiveDropMenu.dd_visibility (LiveDropMenu._ddCanvas m')
    = LiveDropMenu.visible
  ∧ LiveDropMenu.dd_left (LiveDropMenu._ddCanvas m') = 10%Q
  ∧ LiveDropMenu.dd_top (LiveDropMenu._ddCanvas m') = 30%Q.
Proof.
  apply (overlay_position_fixed_at_construction None sample_page moved_page
           (LiveDropMenu.new None sample_page)
           (mouse LiveDropMenu.mousedown LiveDropMenu.Canvas 100)).
  - constructor.
  - reflexivity.
  - reflexivity.
Defined.

(** ** Construction options *)

Lemma settles_or (primary alias : option string) (d : string) :
  settles primary alias d (JS.or_default (JS.or primary alias) d).
Proof.
  split.
  - intros v -> Hv. unfold JS.or, JS.or_default. simpl.
    destruct (String.eqb_spec v "") as [-> | _]; [done | simpl].
    by destruct (String.eqb_spec v "") as [-> | _].
  - intros Hp Ha. unfold JS.or. rewrite Hp.
    destruct alias as [a |]; [| done]. simpl in *.
    by destruct (String.eqb a "").
Qed.

(** C9, as stated, at [{backgroundColor: ""}]: the empty string is
    supplied, and the field is the default ["#555"]. *)
Lemma empty_string_option_not_kept :
  let m := LiveDropMenu.new (Some (only_backgroundColor "")) sample_page in
  LiveDropMenu.backgroundColor (only_backgroundColor "") = Some ""%string
  ∧ LiveDropMenu._UIbackgroundColor (LiveDropMenu.ui m) = "#555"%string
  ∧ LiveDropMenu._UIbackgroundColor (LiveDropMenu.ui m) ≠ ""%string.
Proof. split; [| split]; [reflexivity | reflexivity | discriminate]. Qed.

(** The constructor reads [o.UIselectedItemBackgroundColor] where the
    other fields read the UI-prefixed property of their own name: a menu
    built from [{UIselectedItemBackgroundColor: c}] draws the hovered row's
    text in the colour of its background. *)
Lemma selected_font_follows_UI_background (c : string) (pg : LiveDropMenu.page) :
  c ≠ ""%string →
  let m :=
    LiveDropMenu.new (Some (only_UIselectedItemBackgroundColor c)) pg in
  LiveDropMenu._UIselectedItemFontColor (LiveDropMenu.ui m) = c
  ∧ LiveDropMenu._UIselectedItemBackgroundColor (LiveDropMenu.ui m) = c.
Proof.
  intros Hc. simpl. unfold JS.or_default. simpl.
  by destruct (String.eqb_spec c "").
Qed.

(** C9 (amended): every option field of the Slider is the supplied value
    when one is supplied and its default otherwise.  For the LiveDropMenu,
    menuItems is the supplied list, or [] when there is none; every
    styling field is the value supplied under its name when that value is a
    non-empty string, and its default when neither its name nor the second
    property the constructor consults for it holds a non-empty string.  In
    particular a menu built from selectedItemBackgroundColor alone uses
    that colour for the selected item's background and '#fff' for its
    font. *)
Theorem options_override_defaults :
  (∀ s : Slider.supplied,
     let o := Slider._initOptions s in
     Slider.minVal o = default 0%Q (Slider.given_minVal s)
     ∧ Slider.maxVal o = default 127%Q (Slider.given_maxVal s)
     ∧ Slider.sliderBodyColor o
       = default "#484848"%string (Slider.given_sliderBodyColor s)
     ∧ Slider.sliderHandleColor o
       = default "#484848"%string (Slider.given_sliderHandleColor s)
     ∧ Slider.mouseSensitivity o
       = default (12 # 10)%Q (Slider.given_mouseSensitivity s))
  ∧ (∀ (o : LiveDropMenu.options) (pg : LiveDropMenu.page),
       let m := LiveDropMenu.new (Some o) pg in
       let u := LiveDropMenu.ui m in
       LiveDropMenu._menuItems m = default [] (LiveDropMenu.menuItems o)
       ∧ settles (LiveDropMenu.backgroundColor o)
           (LiveDropMenu.UIbackgroundColor o) "#555"
           (LiveDropMenu._UIbackgroundColor u)
       ∧ settles (LiveDropMenu.fontColor o) (LiveDropMenu.UIfontColor o)
           "#bbb" (LiveDropMenu._UIfontColor u)
       ∧ settles (LiveDropMenu.fontSize o) (LiveDropMenu.UIfontSize o)
           "12px" (LiveDropMenu._UIfontSize u)
       ∧ settles (LiveDropMenu.fontFamily o) (LiveDropMenu.UIfontFamily o)
           "Arial" (LiveDropMenu._UIfontFamily u)
       ∧ settles (LiveDropMenu.menuItemFontSize o)
           (LiveDropMenu.UImenuItemFontSize o) "12px"
           (LiveDropMenu._UImenuItemFontSize u)
       ∧ settles (LiveDropMenu.menuItemFontFamily o)
           (LiveDropMenu.UImenuItemFontFamily o) "Arial"
           (LiveDropMenu._UImenuItemFntFamily u)
       ∧ settles (LiveDropMenu.selectedItemBackgroundColor o)
           (LiveDropMenu.UIselectedItemBackgroundColor o) "#ccc"
           (LiveDropMenu._UIselectedItemBackgroundColor u)
       ∧ settles (LiveDropMenu.selectedItemFontColor o)
           (LiveDropMenu.UIselectedItemBackgroundColor o) "#fff"
           (LiveDropMenu._UIselectedItemFontColor u))
  ∧ (∀ (c : string) (pg : LiveDropMenu.page),
       c ≠ ""%string →
       let m :=
         LiveDropMenu.new (Some (only_selectedItemBackgroundColor c)) pg in
       LiveDropMenu._UIselectedItemBackgroundColor (LiveDropMenu.ui m) = c
       ∧ LiveDropMenu._UIselectedItemFontColor (LiveDropMenu.ui m)
         = "#fff"%string).
Proof.
  split; [| split].
  - intros s. repeat split.
  - intros o pg. split; [reflexivity |]. repeat split; apply settles_or.
  - intros c pg Hc. split.
    + by apply (settles_or (Some c) None "#ccc").
    + by apply (settles_or None None "#fff").
Qed.

Lemma options_override_defaults_witness :
  let m :=
    LiveDropMenu.new (Some (only_selectedItemBackgroundColor "#123"))
      sample_page in
  LiveDropMenu._UIselectedItemBackgroundColor (LiveDropMenu.ui m)
  = "#123"%string
  ∧ LiveDropMenu._UIselectedItemFontColor (LiveDropMenu.ui m) = "#fff"%string.
Proof.
  apply (proj2 (proj2 options_override_defaults) "#123"%string sample_page).
  discriminate.
Defined.

(** ** The hovered row *)

Lemma trunc_div_Int (y : Q) (h : Z) :
  (0 < h)%Z → (0 <= y)%Q →
  JS.trunc_div y (JS.Int h) = JS.Int (JS.trunc (y / inject_Z h)).
Proof.
  intros Hh Hy. unfold JS.trunc_div, JS.is_neg.
  destruct h as [| h | h]; try lia.
  destruct (Qlt_le_dec y 0) as [Hneg | _]; [lra |].
  simpl. by rewrite andb_false_r.
Qed.

(** Whatever the signs, the integer stored is the truncated quotient;
    it is stored as [-0] when the quotient is negative and above -1. *)
Lemma trunc_div_value (y : Q) (h : Z) :
  h ≠ 0%Z →
  JS.int_value (JS.trunc_div y (JS.Int h))
  = Some (JS.trunc (y / inject_Z h)).
Proof.
  intros Hh. unfold JS.trunc_div.
  destruct h as [| h | h]; [done | |];
    match goal with
    | |- context [if ?b then _ else _] => destruct b eqn:Hb
    end; simpl; try done;
    apply andb_true_iff in Hb as [Ht%Z.eqb_eq _]; by rewrite Ht.
Qed.

Lemma run_mouseMoveListener_hover (pg : LiveDropMenu.page)
    (e : LiveDropMenu.event) (m : LiveDropMenu.t) :
  LiveDropMenu._hoverItemNum (LiveDropMenu.run_mouseMoveListener pg e m)
  = JS.trunc_div (LiveDropMenu.clientY e - LiveDropMenu.overlay_top pg)
      (JS.mul_nat
         (JS.parseInt (LiveDropMenu._UImenuItemFontSize (LiveDropMenu.ui m)))
         2)
  ∧ LiveDropMenu._menuItems (LiveDropMenu.run_mouseMoveListener pg e m)
    = LiveDropMenu._menuItems m
  ∧ LiveDropMenu._selectedItemNum (LiveDropMenu.run_mouseMoveListener pg e m)
    = LiveDropMenu._selectedItemNum m.
Proof. split; [| split]; reflexivity. Qed.

Section OpenOverlay.
Import LiveDropMenu.

Ltac expose m :=
  destruct m as [obs items sel hov sty dd cl dl docl pt cls];
  simpl in *; subst.

(** A menu that was never opened ignores every event but a pointer-down
    on the closed box. *)
Lemma dispatch_fresh (pg : page) (e : event) (m : t) :
  fresh m → ¬ (ev_type e = mousedown ∧ target e = Canvas) →
  dispatch pg e m = m.
Proof.
  intros (Hc & Hd & Hdoc) He. destruct e as [ty tg y]. expose m.
  destruct ty, tg; try reflexivity. by destruct He.
Qed.

Lemma fresh_not_opened (m : t) : fresh m → ¬ (opened m ∨ armed m).
Proof.
  intros (_ & Hd & _) [(_ & Hd' & _) | (_ & Hd' & _)];
    rewrite Hd in Hd'; discriminate.
Qed.

(** The overlay of a menu that was never opened is hidden. *)
Lemma fresh_hidden (o : option options) (pg : page) (m : t) :
  reachable o pg m → fresh m → dd_visibility (_ddCanvas m) = hidden.
Proof.
  induction 1 as [| m a Hr IH]; [done |].
  intros Hfresh.
  destruct (step_config a m) as (_ & Ho & Ha).
  destruct (reachable_config o pg m Hr) as [Hf | [Hm | Hm]];
    [| apply Ho in Hm; by apply fresh_not_opened in Hfresh
     | apply Ha in Hm; by apply fresh_not_opened in Hfresh].
  specialize (IH Hf).
  destruct a as [pg' e | ctx f | ctx f | pg' newItems | newItems |];
    simpl in *; try exact IH.
  destruct (decide (ev_type e = mousedown ∧ target e = Canvas))
    as [[Hty Htg] | He].
  - rewrite dispatch_mousedown_canvas in Hfresh by (try done; by left).
    exfalso. destruct Hf as (Hc & Hd & Hdoc), Hfresh as (_ & Hd' & _).
    expose m. discriminate.
  - by rewrite dispatch_fresh.
Qed.

(** While the overlay is visible its mousemove listener is attached. *)
Lemma visible_opened (o : option options) (pg : page) (m : t) :
  reachable o pg m → dd_visibility (_ddCanvas m) = visible →
  opened m ∨ armed m.
Proof.
  intros Hr Hv.
  destruct (reachable_config o pg m Hr) as [Hf | Hm]; [| exact Hm].
  rewrite (fresh_hidden o pg m Hr Hf) in Hv. discriminate.
Qed.

End OpenOverlay.

(** C10, as stated, on the menu opened by a press that is held: the
    overlay is open, a mousemove has set hoverItemNum to 1, and the
    pointer-up on the overlay that follows commits nothing: selectedItemNum
    is still 0 and no observer has been called. *)
Lemma hovered_row_not_committed :
  let m := pressed_and_dragged in
  let m' :=
    LiveDropMenu.dispatch sample_page
      (mouse LiveDropMenu.mouseup LiveDropMenu.DdCanvas 60) m in
  LiveDropMenu.dd_visibility (LiveDropMenu._ddCanvas m) = LiveDropMenu.visible
  ∧ LiveDropMenu._hoverItemNum m = JS.Int 1
  ∧ LiveDropMenu._hoverItemNum m ≠ JS.Int (-1)
  ∧ LiveDropMenu._selectedItemNum m' = JS.Int 0
  ∧ LiveDropMenu._selectedItemNum m' ≠ LiveDropMenu._hoverItemNum m
  ∧ LiveDropMenu.calls m' = [].
Proof. vm_compute. repeat split; try reflexivity; discriminate. Qed.

(** C10 (amended): a mousemove over the open overlay sets hoverItemNum to
    trunc(y / (parseInt(menuItemFontSize) * 2)), y being the offset of the
    pointer below the top of the overlay, whatever the number of menu
    items; a pointer-up on the overlay, once the document's mouseup
    listener is attached (a pointer-down outside the closed box has been
    seen since the menu was opened), commits any hoverItemNum other than
    -1 into selectedItemNum and hands it to every observer, and without
    that listener the pointer-up changes nothing; and there are pointer
    positions for which the committed index is not below menuItems.length,
    so that no menu item corresponds to it: on an overlay three rows high
    whose label array the host has shortened to one label, a click on the
    third row commits the index 2 and hands it to the observer. *)
Theorem hover_index_not_bounded :
  (∀ (o : option LiveDropMenu.options) (pg0 pg : LiveDropMenu.page)
     (e : LiveDropMenu.event) (m : LiveDropMenu.t),
     LiveDropMenu.reachable o pg0 m →
     LiveDropMenu.dd_visibility (LiveDropMenu._ddCanvas m)
     = LiveDropMenu.visible →
     LiveDropMenu.ev_type e = LiveDropMenu.mousemove →
     LiveDropMenu.target e = LiveDropMenu.DdCanvas →
     LiveDropMenu._hoverItemNum (LiveDropMenu.dispatch pg e m)
     = JS.trunc_div (LiveDropMenu.clientY e - LiveDropMenu.overlay_top pg)
         (JS.mul_nat
            (JS.parseInt
               (LiveDropMenu._UImenuItemFontSize (LiveDropMenu.ui m))) 2)
     ∧ ∀ k : Z,
         JS.parseInt (LiveDropMenu._UImenuItemFontSize (LiveDropMenu.ui m))
         = JS.Int k →
         k ≠ 0%Z →
         JS.int_value
           (LiveDropMenu._hoverItemNum (LiveDropMenu.dispatch pg e m))
         = Some (JS.trunc
                   ((LiveDropMenu.clientY e - LiveDropMenu.overlay_top pg)
                    / inject_Z (k * 2))))
  ∧ (∀ (o : option LiveDropMenu.options) (pg0 pg : LiveDropMenu.page)
       (e : LiveDropMenu.event) (m : LiveDropMenu.t),
       LiveDropMenu.reachable o pg0 m →
       LiveDropMenu.ev_type e = LiveDropMenu.mouseup →
       LiveDropMenu.target e = LiveDropMenu.DdCanvas →
       LiveDropMenu._hoverItemNum m ≠ JS.Int (-1) →
       ((LiveDropMenu.mouseup, LiveDropMenu.mouseUpListener)
          ∈ LiveDropMenu.document_listeners m →
        LiveDropMenu._selectedItemNum (LiveDropMenu.dispatch pg e m)
        = LiveDropMenu._hoverItemNum m
        ∧ LiveDropMenu.calls (LiveDropMenu.dispatch pg e m)
          = LiveDropMenu.calls m
            ++ map (λ ob, (ob, LiveDropMenu._hoverItemNum m))
                 (LiveDropMenu._observers m))
       ∧ ((LiveDropMenu.mouseup, LiveDropMenu.mouseUpListener)
            ∉ LiveDropMenu.document_listeners m →
          LiveDropMenu.dispatch pg e m = m))
  ∧ (∃ (m1 : LiveDropMenu.t) (y : Q) (h i : Z),
       LiveDropMenu.reachable (Some abc_options) sample_page m1
       ∧ LiveDropMenu.dd_visibility (LiveDropMenu._ddCanvas m1)
         = LiveDropMenu.visible
       ∧ LiveDropMenu.dd_height (LiveDropMenu._ddCanvas m1) = h
       ∧ (0 <= y - LiveDropMenu.overlay_top sample_page)%Q
       ∧ (y - LiveDropMenu.overlay_top sample_page < inject_Z h)%Q
       ∧ let m := LiveDropMenu.run_actions m1 (click_overlay_at y) in
         LiveDropMenu._selectedItemNum m = JS.Int i
         ∧ (Z.of_nat (length (LiveDropMenu._menuItems m)) ≤ i)%Z
         ∧ JS.index (LiveDropMenu._menuItems m) (JS.Int i) = None
         ∧ LiveDropMenu.box_text (LiveDropMenu.painted m) = None
         ∧ LiveDropMenu.calls m = [(menu_observer, JS.Int i)]).
Proof.
  split; [| split].
  - intros o pg0 pg e m Hr Hv Hty Htg.
    rewrite dispatch_mousemove_overlay;
      [| by eapply visible_opened | done | done].
    destruct (run_mouseMoveListener_hover pg e m) as (Hh & _).
    split; [exact Hh |].
    intros k Hk Hk0. rewrite Hh, Hk. simpl.
    apply trunc_div_value. lia.
  - intros o pg0 pg e m Hr Hty Htg Hh. split.
    + intros Hin.
      rewrite dispatch_mouseup_armed;
        [| by eapply mouseup_attached_armed | done].
      destruct (run_mouseUpListener_commit e m Hh Htg) as (Hs & Hc & _).
      by split.
    + intros Hout. apply dispatch_mouseup_unarmed; [| done].
      by eapply mouseup_detached_unarmed.
  - exists (LiveDropMenu.run_actions abc_menu shortened_then_opened),
      90%Q, 72%Z, 2%Z.
    split; [apply abc_menu_reachable |].
    vm_compute. repeat split; try reflexivity; discriminate.
Qed.

(** When the event is trusted as it comes, a pointer position below the
    last row does the same on the untouched menu of three items. *)
Lemma commit_below_last_row :
  let m := LiveDropMenu.run_actions abc_menu click_below_last_row in
  LiveDropMenu._selectedItemNum m = JS.Int 4
  ∧ length (LiveDropMenu._menuItems m) = 3%nat
  ∧ JS.index (LiveDropMenu._menuItems m) (JS.Int 4) = None
  ∧ LiveDropMenu.calls m = [(menu_observer, JS.Int 4)].
Proof. vm_compute. repeat split; reflexivity. Qed.

Lemma hover_index_not_bounded_witness :
  JS.int_value
    (LiveDropMenu._hoverItemNum
       (LiveDropMenu.dispatch sample_page
          (mouse LiveDropMenu.mousemove LiveDropMenu.DdCanvas 130)
          clicked_open))
  = Some 4%Z
  ∧ length (LiveDropMenu._menuItems clicked_open) = 3%nat.
Proof.
  split; [| reflexivity].
  apply (proj2 (proj1 hover_index_not_bounded (Some abc_options) sample_page
                  sample_page
                  (mouse LiveDropMenu.mousemove LiveDropMenu.DdCanvas 130)
                  clicked_open (abc_menu_reachable _) eq_refl eq_refl eq_refl)
           12%Z).
  - reflexivity.
  - lia.
Defined.

(** ** Scenarios *)

Example parseInt_12px : JS.parseInt "12px" = JS.Int 12.
Proof. reflexivity. Qed.

Example parseInt_hex : JS.parseInt " 0x1f" = JS.Int 31.
Proof. reflexivity. Qed.

Example parseInt_large : JS.parseInt "large" = JS.NaN.
Proof. reflexivity. Qed.

Example toFixed0_half : JS.toFixed0 (1 # 2) = 1%Z.
Proof. reflexivity. Qed.

Example toFixed0_negative : JS.toFixed0 (- (5 # 2)) = (-3)%Z.
Proof. reflexivity. Qed.

Example trunc_negative : JS.trunc (- (5 # 2)) = (-2)%Z.
Proof. reflexivity. Qed.

Example trunc_div_negative_zero :
  JS.trunc_div 5 (JS.Int (-24)) = JS.NegZero
  ∧ JS.trunc_div (- (5)) (JS.Int 24) = JS.NegZero
  ∧ JS.trunc_div 0 (JS.Int 24) = JS.Int 0
  ∧ JS.trunc_div (- (30)) (JS.Int 24) = JS.Int (-1).
Proof. repeat split; reflexivity. Qed.

Example toFixed_negative_fraction :
  JS.toFixed (- (4 # 10)) = JS.Numeral true 0
  ∧ JS.ToNumber (JS.toFixed (- (4 # 10))) = 0%Q.
Proof. split; reflexivity. Qed.

(** The overlay of a menu of three labels is 72 pixels high for the
    font size "12px"; it has the default height of a canvas for "-12px"
    and the height 0 for "large". *)
Example overlay_height_of_font_sizes :
  LiveDropMenu.dd_height
    (LiveDropMenu._ddCanvas
       (LiveDropMenu.new (Some (abc_sized_options "12px")) sample_page))
  = 72%Z
  ∧ LiveDropMenu.dd_height
      (LiveDropMenu._ddCanvas
         (LiveDropMenu.new (Some (abc_sized_options "-12px")) sample_page))
    = 150%Z
  ∧ LiveDropMenu.dd_height
      (LiveDropMenu._ddCanvas
         (LiveDropMenu.new (Some (abc_sized_options "large")) sample_page))
    = 0%Z.
Proof. repeat split; reflexivity. Qed.

Example canvas_size_of_height :
  JS.canvas_size 150 (JS.Int 72) = 72%Z
  ∧ JS.canvas_size 150 (JS.Int (-72)) = 150%Z
  ∧ JS.canvas_size 150 JS.NaN = 0%Z.
Proof. repeat split; reflexivity. Qed.

(** Slider jump: a pointer-down on the overlay at the vertical midpoint of
    the body of a Slider with the default bounds commits 64 (63.5 rounded),
    hands it to the observer once, and starts the drag. *)
Example slider_jump_to_midpoint :
  let w :=
    Slider.dispatch (Slider.MouseEvent Slider.Press Slider.Overlay 55)
      sample_slider in
  Slider.getVal w = Some (inject_Z 64)
  ∧ Widget.calls w = [(sample_observer, Some (inject_Z 64))]
  ∧ Slider.body_listeners (Widget.els w) = dragging_listeners.
Proof. vm_compute. repeat split; reflexivity. Qed.

(** DropMenu commit: on the menu of three items, open, hover the third
    row and click it: the selection is 2 and the observer has been called
    once with 2.  Open again and click outside the overlay: the selection
    is still 2 and the observer has not been called again. *)
Example dropmenu_commit_then_cancel :
  let committed :=
    LiveDropMenu.dispatch sample_page
      (mouse LiveDropMenu.mouseup LiveDropMenu.DdCanvas 80)
      hovering_third_row in
  let cancelled :=
    LiveDropMenu.run_actions committed
      [LiveDropMenu.Dispatch sample_page
         (mouse LiveDropMenu.mousedown LiveDropMenu.Canvas 20);
       LiveDropMenu.Dispatch sample_page
         (mouse LiveDropMenu.mouseup LiveDropMenu.Canvas 20);
       LiveDropMenu.Dispatch sample_page
         (mouse LiveDropMenu.mousedown LiveDropMenu.Elsewhere 300);
       LiveDropMenu.Dispatch sample_page
         (mouse LiveDropMenu.mouseup LiveDropMenu.Elsewhere 300)] in
  LiveDropMenu._selectedItemNum committed = JS.Int 2
  ∧ LiveDropMenu.calls committed = [(menu_observer, JS.Int 2)]
  ∧ LiveDropMenu.box_text (LiveDropMenu.painted committed) = Some "C"%string
  ∧ LiveDropMenu._selectedItemNum cancelled = JS.Int 2
  ∧ LiveDropMenu.calls cancelled = [(menu_observer, JS.Int 2)]
  ∧ LiveDropMenu.dd_visibility (LiveDropMenu._ddCanvas cancelled)
    = LiveDropMenu.hidden.
Proof. vm_compute. repeat split; reflexivity. Qed.

(** * Further properties *)

(** ** The drag of the Slider *)

Section SliderDrag.

Ltac expose_slider w :=
  destruct w as [o cs st obs calls [cont dims svg ov ha bo]];
  simpl in *; subst.

Lemma do_call_listeners (c : Slider.call) (w : Slider.t) :
  Slider.overlay_listeners (Widget.els (Slider.do_call w c))
  = Slider.overlay_listeners (Widget.els w)
  ∧ Slider.handle_listeners (Widget.els (Slider.do_call w c))
    = Slider.handle_listeners (Widget.els w)
  ∧ Slider.body_listeners (Widget.els (Slider.do_call w c))
    = Slider.body_listeners (Widget.els w).
Proof. by destruct c. Qed.

Lemma run_session_idle (s : session) (w : Slider.t) :
  well_formed s → slider_wired w →
  Slider.body_listeners (Widget.els w) = [] →
  slider_wired (run_session w s)
  ∧ Slider.body_listeners (Widget.els (run_session w s)) = [].
Proof.
  intros Hs Hw Hb. destruct s as [down moves up | c]; simpl.
  - destruct Hs as (Hdown & Hmoves & Hup & Hbody).
    destruct (slider_drag_cycle_balanced w down up moves Hw Hb Hdown Hmoves
                Hup Hbody) as [Hw' Hb'].
    split; [exact Hw' | by rewrite Hb'].
  - destruct (do_call_listeners c w) as (Ho & Hh & Hbody).
    unfold slider_wired. rewrite Ho, Hh, Hbody. by destruct Hw.
Qed.

Lemma run_sessions_idle (ss : list session) (w : Slider.t) :
  Forall well_formed ss → slider_wired w →
  Slider.body_listeners (Widget.els w) = [] →
  slider_wired (foldl run_session w ss)
  ∧ Slider.body_listeners (Widget.els (foldl run_session w ss)) = [].
Proof.
  revert w. induction ss as [| s ss IH]; intros w Hss Hw Hb; [done |].
  apply Forall_cons in Hss as [Hs Hss]. simpl.
  destruct (run_session_idle s w Hs Hw Hb) as [Hw' Hb'].
  by apply IH.
Qed.

(** X1: after any mutation calls and any drags that each ended with a
    pointer-up dispatched below [document.body], a Slider holds no listener
    on [document.body]; the next pointer-down on its overlay or handle
    attaches the four drag listeners, once each; a pointer-up below
    [document.body] detaches them again, whereas a pointer-up targeted
    outside [document.body] never reaches [releaseHandle] and leaves the
    four attached. *)
Theorem slider_idle_between_drags (p : bool) (nn : Constraint.t → option Q)
    (c : Slider.container) (s : Slider.supplied) (ss : list session)
    (down up : Slider.event) (moves : list Slider.event) :
  Forall well_formed ss → Slider.is_down down →
  Forall Slider.is_move moves →
  let w := foldl run_session (Slider.new p nn c s) ss in
  Slider.body_listeners (Widget.els w) = []
  ∧ Slider.body_listeners (Widget.els (Slider.dispatch down w))
    = dragging_listeners
  ∧ NoDup (Slider.body_listeners (Widget.els (Slider.dispatch down w)))
  ∧ (Slider.is_up up → Slider.reaches_body up →
     Slider.body_listeners (Widget.els (Slider.drag_cycle down moves up w))
     = [])
  ∧ (Slider.ev_target up = Slider.Outside →
     Slider.body_listeners (Widget.els (Slider.drag_cycle down moves up w))
     = dragging_listeners).
Proof.
  intros Hss Hdown Hmoves w.
  destruct (slider_new_wired p nn c s) as [Hw0 Hb0].
  destruct (run_sessions_idle ss _ Hss Hw0 Hb0) as [Hw Hb].
  split; [exact Hb |].
  destruct (slider_down_attaches w down Hw Hb Hdown) as [_ Hd].
  split; [exact Hd |].
  split; [rewrite Hd; apply (bool_decide_unpack _); by vm_compute |].
  split.
  - intros Hup Hbody.
    destruct (slider_drag_cycle_balanced w down up moves Hw Hb Hdown Hmoves
                Hup Hbody) as [_ ->].
    exact Hb.
  - intros Hout. by apply slider_drag_released_outside.
Qed.

Lemma slider_idle_between_drags_witness :
  let w :=
    foldl run_session (Slider.new true rejecting sample_container no_supplied)
      [Drag (Slider.TouchEvent Slider.Press Slider.Handle)
            [Slider.TouchEvent Slider.Move Slider.Elsewhere]
            (Slider.MouseEvent Slider.Release Slider.Elsewhere 300);
       Call (Slider.SetInternalState {[ "val" := 3%Q ]})] in
  let down := Slider.MouseEvent Slider.Press Slider.Overlay 55 in
  let moves := [Slider.MouseEvent Slider.Move Slider.Elsewhere 70] in
  Slider.body_listeners (Widget.els w) = []
  ∧ Slider.body_listeners (Widget.els (Slider.dispatch down w))
    = dragging_listeners
  ∧ Slider.body_listeners
      (Widget.els
         (Slider.drag_cycle down moves
            (Slider.MouseEvent Slider.Release Slider.Outside 300) w))
    = dragging_listeners.
Proof.
  destruct (slider_idle_between_drags true rejecting sample_container
              no_supplied
              [Drag (Slider.TouchEvent Slider.Press Slider.Handle)
                    [Slider.TouchEvent Slider.Move Slider.Elsewhere]
                    (Slider.MouseEvent Slider.Release Slider.Elsewhere 300);
               Call (Slider.SetInternalState {[ "val" := 3%Q ]})]
              (Slider.MouseEvent Slider.Press Slider.Overlay 55)
              (Slider.MouseEvent Slider.Release Slider.Outside 300)
              [Slider.MouseEvent Slider.Move Slider.Elsewhere 70])
    as (Hidle & Hdown & _ & _ & Hout).
  - apply Forall_cons. split.
    + split; [| split; [| split]].
      * split; [right | right]; reflexivity.
      * apply Forall_cons. split; [right; reflexivity | apply Forall_nil_2].
      * left. reflexivity.
      * discriminate.
    + apply Forall_cons. split; [exact I | apply Forall_nil_2].
  - split; [left | left]; reflexivity.
  - apply Forall_cons. split; [left; reflexivity | apply Forall_nil_2].
  - split; [exact Hidle |]. split; [exact Hdown |]. by apply Hout.
Defined.

(** X2: an idle Slider (no drag under way) ignores the pointer: moves,
    pointer-ups, and pointer-downs that land neither on its overlay nor on
    its handle leave it exactly as it was. *)
Theorem idle_slider_ignores_pointer (w : Slider.t) (ev : Slider.event) :
  slider_wired w → Slider.body_listeners (Widget.els w) = [] →
  Slider.is_move ev ∨ Slider.is_up ev
  ∨ Slider.ev_target ev = Slider.Elsewhere
  ∨ Slider.ev_target ev = Slider.Outside →
  Slider.dispatch ev w = w.
Proof.
  intros [Hov Hha] Hb Hev.
  unfold Slider.is_move, Slider.is_up in Hev.
  destruct ev as [ph tg y | ph tg]; expose_slider w;
    destruct Hev as [[Hty | Hty] | [[Hty | Hty] | [-> | ->]]];
    destruct ph; try discriminate; try (destruct tg; reflexivity);
    reflexivity.
Qed.

Lemma idle_slider_ignores_pointer_witness :
  Slider.dispatch (Slider.MouseEvent Slider.Move Slider.Overlay 55)
    sample_slider = sample_slider.
Proof.
  apply idle_slider_ignores_pointer.
  - split; reflexivity.
  - reflexivity.
  - left. left. reflexivity.
Defined.

(** X3: how a drag moves the value.  A pointer-down on the handle attaches
    the drag listeners and changes neither the state nor the call log; on
    a body of a height other than zero, a mouse-down on the overlay is
    [setVal] of the touched value followed by the same attachment, and
    while the drag lasts every mousemove that passes [document.body] is
    [setVal] of the touched value.  A touch event has no [clientY]: a
    touchstart on the overlay and a touchmove commit a value that is not a
    number.  An event targeted outside [document.body] changes nothing,
    and a pointer-up changes neither the state nor the call log. *)
Theorem drag_is_setVal (w : Slider.t) (ev : Slider.event) :
  slider_wired w →
  (Slider.body_listeners (Widget.els w) = [] →
   Slider.ev_type ev = Slider.mousedown ∨ Slider.ev_type ev = Slider.touchstart →
   (Slider.ev_target ev = Slider.Handle →
      Slider.dispatch ev w = Slider.run_touchHandle ev w
      ∧ Widget.state (Slider.dispatch ev w) = Widget.state w
      ∧ Widget.calls (Slider.dispatch ev w) = Widget.calls w)
   ∧ (Slider.ev_target ev = Slider.Overlay →
        (∀ y, Slider.clientY ev = Some y → ¬ (body_height w == 0)%Q →
              Slider.dispatch ev w
              = Slider.run_touchHandle ev
                  (Slider.setVal (Slider.calcTouchVal_of w y) w))
        ∧ (Slider.clientY ev = None →
             Slider.dispatch ev w
             = Slider.run_touchHandle ev
                 (Widget.setState_non_numeric "val" w))))
  ∧ (Slider.body_listeners (Widget.els w) = dragging_listeners →
     (Slider.is_move ev → Slider.reaches_body ev →
        (∀ y, Slider.clientY ev = Some y → ¬ (body_height w == 0)%Q →
              Slider.dispatch ev w
              = Slider.setVal (Slider.calcTouchVal_of w y) w)
        ∧ (Slider.clientY ev = None →
             Slider.dispatch ev w = Widget.setState_non_numeric "val" w))
     ∧ (Slider.ev_target ev = Slider.Outside → Slider.dispatch ev w = w)
     ∧ (Slider.is_up ev →
          Widget.state (Slider.dispatch ev w) = Widget.state w
          ∧ Widget.calls (Slider.dispatch ev w) = Widget.calls w)).
Proof.
  intros [Hov Hha].
  unfold Slider.is_move, Slider.is_up, Slider.reaches_body. split.
  - intros Hb Hty.
    destruct ev as [ph tg y | ph tg]; expose_slider w;
      destruct ph; try (by destruct Hty);
      (split; intros ->; repeat split; try reflexivity; try done;
       by intros ? [= <-] _).
  - intros Hb. split; [| split].
    + intros Hty Htg.
      destruct ev as [ph tg y | ph tg]; expose_slider w;
        destruct ph; try (by destruct Hty); destruct tg; try done;
        (split; [by intros ? [= <-] _ | done]).
    + intros Htg. by apply slider_dispatch_outside.
    + intros Hty.
      destruct ev as [ph tg y | ph tg]; expose_slider w;
        destruct ph; try (by destruct Hty); destruct tg; split; reflexivity.
Qed.

Lemma drag_is_setVal_witness :
  Slider.dispatch (Slider.MouseEvent Slider.Press Slider.Overlay 55)
    sample_slider
  = Slider.run_touchHandle (Slider.MouseEvent Slider.Press Slider.Overlay 55)
      (Slider.setVal (Slider.calcTouchVal_of sample_slider 55) sample_slider).
Proof.
  apply (proj1 (proj2 (proj1 (drag_is_setVal sample_slider
                  (Slider.MouseEvent Slider.Press Slider.Overlay 55)
                  (conj eq_refl eq_refl)) eq_refl (or_introl eq_refl))
                  eq_refl)).
  - reflexivity.
  - by vm_compute.
Defined.

End SliderDrag.

(** ** Geometry of the Slider, pixel to value and back *)

Section SliderGeometry.
Local Open Scope Q_scope.

Lemma unit_fraction (b h : Q) :
  0 < h → 0 <= b → b <= h → 0 <= b / h ∧ b / h <= 1.
Proof.
  intros Hh Hb0 Hbh. split.
  - apply Qle_shift_div_l; [done | lra].
  - apply Qle_shift_div_r; [done | lra].
Qed.

Lemma scale_unit (t r : Q) :
  0 <= t → t <= 1 → 0 <= r → 0 <= t * r ∧ t * r <= r.
Proof. intros. split; nra. Qed.

Lemma div_lt (a b h : Q) : 0 < h → a < b → a / h < b / h.
Proof.
  intros Hh Hab. apply Qlt_shift_div_l; [done |].
  assert (a / h * h == a) as -> by (field; lra). done.
Qed.

(** X4: [_calcTouchVal] on a body of positive height.  The bottom end of
    the body reads as minVal and its top end as maxVal; with
    minVal <= maxVal every pixel of the body reads as a value within
    [minVal, maxVal]; and with minVal < maxVal a pixel further down reads
    as a strictly smaller value. *)
Theorem touch_value_geometry (c : Slider.container) (d : Slider.dims_t)
    (o : Slider.options) (y y' : Q) :
  0 < Slider._calcSliderBodyHeight c d →
  (Slider._getRelativeY c y == Slider._getHeight c - Slider.offsetBottom d →
   Slider._calcTouchVal c d o y == Slider.minVal o)
  ∧ (Slider._getRelativeY c y == Slider.offsetTop d →
     Slider._calcTouchVal c d o y == Slider.maxVal o)
  ∧ (Slider.minVal o <= Slider.maxVal o →
     Slider.offsetTop d <= Slider._getRelativeY c y →
     Slider._getRelativeY c y <= Slider._getHeight c - Slider.offsetBottom d →
     Slider.minVal o <= Slider._calcTouchVal c d o y
     ∧ Slider._calcTouchVal c d o y <= Slider.maxVal o)
  ∧ (Slider.minVal o < Slider.maxVal o →
     Slider._getRelativeY c y < Slider._getRelativeY c y' →
     Slider._calcTouchVal c d o y' < Slider._calcTouchVal c d o y).
Proof.
  unfold Slider._calcTouchVal, Slider._calcSliderBodyHeight.
  set (h := Slider._getHeight c - Slider.offsetTop d - Slider.offsetBottom d).
  set (r := Slider._getRelativeY c y). set (r' := Slider._getRelativeY c y').
  intros Hh. split; [| split; [| split]].
  - intros Hr. rewrite Hr. clearbody h. field. lra.
  - intros Hr. rewrite Hr. subst h. field. lra.
  - intros HR Hlo Hhi.
    destruct (unit_fraction (Slider._getHeight c - r - Slider.offsetBottom d) h)
      as [Ht0 Ht1]; [done | unfold h; lra | unfold h; lra |].
    destruct (scale_unit _ (Slider.maxVal o - Slider.minVal o) Ht0 Ht1);
      [lra |]. lra.
  - intros HR Hrr.
    assert ((Slider._getHeight c - r' - Slider.offsetBottom d) / h
            < (Slider._getHeight c - r - Slider.offsetBottom d) / h)
      by (apply div_lt; [done | lra]).
    nra.
Qed.

Lemma touch_value_geometry_witness :
  (Slider.calcTouchVal_of sample_slider 105 == 0)
  ∧ (Slider.calcTouchVal_of sample_slider 5 == 127)
  ∧ (0 <= Slider.calcTouchVal_of sample_slider 55
     ∧ Slider.calcTouchVal_of sample_slider 55 <= 127)
  ∧ (Slider.calcTouchVal_of sample_slider 80
     < Slider.calcTouchVal_of sample_slider 55).
Proof.
  assert (0 < Slider._calcSliderBodyHeight sample_container
                Slider._initState_dims) as Hh by reflexivity.
  split; [| split; [| split]].
  - by apply (touch_value_geometry sample_container Slider._initState_dims
                Slider.defaults 105 0 Hh).
  - by apply (touch_value_geometry sample_container Slider._initState_dims
                Slider.defaults 5 0 Hh).
  - apply (touch_value_geometry sample_container Slider._initState_dims
             Slider.defaults 55 0 Hh); by vm_compute.
  - apply (touch_value_geometry sample_container Slider._initState_dims
             Slider.defaults 55 80 Hh); by vm_compute.
Defined.

(** X5: the handle [_calcSliderHandlePoints] draws.  Its tip touches the
    right edge of the body and its base lies on the right edge of the hit
    overlay.  When the state holds a value and maxVal differs from minVal
    (the vertical coordinates are not numbers otherwise), the handle is
    symmetric about the height of its tip, [handleHeight] high.  With
    minVal = 0 < maxVal and the value within [0, maxVal] the tip lies on
    the body: at its bottom end for the value 0, at its top end for
    maxVal. *)
Theorem handle_geometry (c : Slider.container) (o : Slider.options)
    (st : gmap string Q) (v : Q) :
  let g := Slider.draw c Slider._initState_dims o st in
  let tip := (Slider.handle_points g).1.1 in
  let upper := (Slider.handle_points g).1.2 in
  let lower := (Slider.handle_points g).2 in
  (tip.1 == Slider.x (Slider.body g) + Slider.width (Slider.body g)
   ∧ upper.1 == Slider.x (Slider.overlay g) + Slider.width (Slider.overlay g)
   ∧ lower.1 == upper.1)
  ∧ (st !! "val" = Some v →
     ¬ (Slider.maxVal o - Slider.minVal o == 0) →
     upper.2 + lower.2 == 2 * tip.2
     ∧ lower.2 - upper.2 == Slider.handleHeight Slider._initState_dims)
  ∧ (st !! "val" = Some v →
     Slider.minVal o == 0 → 0 < Slider.maxVal o →
     0 <= v → v <= Slider.maxVal o →
     0 <= Slider.height (Slider.body g) →
     (Slider.y (Slider.body g) <= tip.2
      ∧ tip.2 <= Slider.y (Slider.body g) + Slider.height (Slider.body g))
     ∧ (v == 0 →
        tip.2 == Slider.y (Slider.body g) + Slider.height (Slider.body g))
     ∧ (v == Slider.maxVal o → tip.2 == Slider.y (Slider.body g))).
Proof.
  simpl. split; [| split].
  - repeat split; field.
  - intros Hv Hrange. unfold Slider._calcSliderBodyHeight. simpl.
    generalize (Slider.state_val st
                / (Slider.maxVal o - Slider.minVal o)
                * (Slider._getHeight c - 5 - 5)).
    intros t. split; field.
  - intros Hv Hmin Hmax Hv0 Hv1 Hh.
    unfold Slider.state_val, Slider._calcSliderBodyHeight in *.
    rewrite Hv. simpl in *.
    set (h := Slider._getHeight c - 5 - 5) in *.
    set (range := Slider.maxVal o - Slider.minVal o).
    assert (0 < range) as Hrange by (unfold range; lra).
    destruct (unit_fraction v range Hrange) as [Ht0 Ht1];
      [done | unfold range; lra |].
    destruct (scale_unit _ h Ht0 Ht1 Hh) as [Hs0 Hs1].
    split; [split; lra |]. split.
    + intros Hz. rewrite Hz. clearbody h. field. lra.
    + intros Hz. rewrite Hz.
      assert (Slider.maxVal o / range == 1) as ->
        by (unfold range; rewrite Hmin; field; lra).
      lra.
Qed.

Lemma handle_geometry_witness :
  let g :=
    Slider.draw sample_container Slider._initState_dims Slider.defaults
      {[ "val" := 64%Q ]} in
  ((Slider.handle_points g).1.2.2 + (Slider.handle_points g).2.2
   == 2 * (Slider.handle_points g).1.1.2)
  ∧ (Slider.y (Slider.body g) <= (Slider.handle_points g).1.1.2
     ∧ (Slider.handle_points g).1.1.2
       <= Slider.y (Slider.body g) + Slider.height (Slider.body g)).
Proof.
  destruct (handle_geometry sample_container Slider.defaults
              {[ "val" := 64%Q ]} 64) as (_ & Hsym & Hbody).
  split.
  - apply Hsym; [reflexivity | by vm_compute].
  - apply Hbody; by vm_compute.
Defined.

End SliderGeometry.

(** ** Size and rows of the overlay *)

Section OverlaySize.
Import LiveDropMenu.
Local Open Scope Q_scope.

Lemma widest_fold (mt : string → Q) (l : list string) (acc : Q) :
  let widest :=
    foldl (λ maxWidth item,
             if Qlt_le_dec maxWidth (mt item) then mt item else maxWidth)
          acc l in
  acc <= widest
  ∧ (∀ item, item ∈ l → mt item <= widest)
  ∧ (widest = acc ∨ ∃ item, item ∈ l ∧ widest = mt item).
Proof.
  revert acc. induction l as [| a l IH]; intros acc; simpl.
  - split; [lra |]. split; [| by left].
    intros item Hin. by apply elem_of_nil in Hin.
  - destruct (Qlt_le_dec acc (mt a)) as [Hlt | Hge].
    + destruct (IH (mt a)) as (H1 & H2 & H3). simpl in *.
      split; [lra |]. split.
      * intros item [-> | Hin]%elem_of_cons; [exact H1 | by apply H2].
      * right. destruct H3 as [-> | (item & Hin & ->)].
        -- exists a. split; [by left | done].
        -- exists item. split; [by right | done].
    + destruct (IH acc) as (H1 & H2 & H3). simpl in *.
      split; [exact H1 |]. split.
      * intros item [-> | Hin]%elem_of_cons; [lra | by apply H2].
      * destruct H3 as [-> | (item & Hin & ->)]; [by left |].
        right. exists item. split; [by right | done].
Qed.

(** X6: the width [_getDdCanvasDimensions] gives the overlay is 20 pixels
    more than the widest measured label: at least 20, exactly 20 for an
    empty menu, never less than a label plus 20, and otherwise attained by
    a label. *)
Theorem overlay_width_fits_labels (pg : page) (m : t) :
  let width := (_getDdCanvasDimensions pg m).1 in
  20 <= width
  ∧ (∀ item, item ∈ _menuItems m → measureText pg item + 20 <= width)
  ∧ (width == 20 ∨ ∃ item, item ∈ _menuItems m
                           ∧ width == measureText pg item + 20)
  ∧ (_menuItems m = [] → width == 20).
Proof.
  unfold _getDdCanvasDimensions. simpl.
  destruct (widest_fold (measureText pg) (_menuItems m) 0) as (H1 & H2 & H3).
  simpl in *. split; [lra |]. split.
  - intros item Hin. specialize (H2 item Hin). lra.
  - split.
    + destruct H3 as [-> | (item & Hin & ->)]; [left; lra |].
      right. exists item. split; [done | lra].
    + intros ->. simpl. lra.
Qed.

Lemma overlay_width_fits_labels_witness :
  measureText sample_page "B" + 20
  <= (_getDdCanvasDimensions sample_page abc_menu).1.
Proof.
  apply (overlay_width_fits_labels sample_page abc_menu).
  apply elem_of_cons. right. apply elem_of_cons. by left.
Defined.

Lemma run_mouseUpListener_keeps (e : event) (m : t) :
  ui (run_mouseUpListener e m) = ui m
  ∧ _menuItems (run_mouseUpListener e m) = _menuItems m
  ∧ _observers (run_mouseUpListener e m) = _observers m.
Proof. unfold run_mouseUpListener. simpl. by case_decide. Qed.

Lemma run_sized (pg : page) (e : event) (f : listener) (m : t) :
  sized m → sized (run pg e f m).
Proof.
  intros Hm. destruct f; simpl.
  - exact Hm.
  - unfold run_secondMouseDownListener. by case_decide.
  - exact Hm.
  - unfold sized, _getMenuItemHeight.
    rewrite run_mouseUpListener_overlay.
    destruct (run_mouseUpListener_keeps e m) as (-> & -> & _). exact Hm.
Qed.

Lemma step_sized (a : action) (m : t) :
  ¬ in_place a → sized m → sized (step m a).
Proof.
  intros Ha Hm.
  destruct a as [pg e | ctx f | ctx f | pg newItems | newItems |]; simpl.
  - unfold dispatch.
    apply invoke_preserves; [intros; by apply run_sized |].
    apply invoke_preserves; [intros; by apply run_sized | exact Hm].
  - exact Hm.
  - exact Hm.
  - reflexivity.
  - by destruct Ha.
  - exact Hm.
Qed.

Lemma run_actions_sized (l : list action) (m : t) :
  Forall (λ a, ¬ in_place a) l → sized m → sized (run_actions m l).
Proof.
  revert m. induction l as [| a l IH]; intros m Hl Hm; [exact Hm |].
  apply Forall_cons in Hl as [Ha Hl]. simpl. by apply IH, step_sized.
Qed.

Lemma canvas_size_range (d : Z) (a : JS.jsint) :
  (0 ≤ d ≤ 2147483647)%Z → (0 ≤ JS.canvas_size d a ≤ 2147483647)%Z.
Proof.
  intros Hd. unfold JS.canvas_size.
  assert (0 ≤ JS.ToUint32 a)%Z.
  { destruct a; simpl; try lia. by apply Z.mod_pos_bound. }
  destruct (Z.leb_spec (JS.ToUint32 a) 2147483647); lia.
Qed.

Lemma canvas_size_small (d z : Z) :
  (0 ≤ z ≤ 2147483647)%Z → JS.canvas_size d (JS.Int z) = z.
Proof.
  intros Hz. unfold JS.canvas_size, JS.ToUint32.
  rewrite Z.mod_small by lia.
  destruct (Z.leb_spec z 2147483647); [done | lia].
Qed.

Lemma canvas_size_negative (d z : Z) :
  (-2147483648 ≤ z < 0)%Z → JS.canvas_size d (JS.Int z) = d.
Proof.
  intros Hz. unfold JS.canvas_size, JS.ToUint32.
  rewrite <- (Z.mod_unique z 4294967296 (-1) (z + 4294967296)) by lia.
  destruct (Z.leb_spec (z + 4294967296) 2147483647); [lia | done].
Qed.

(** X7: as long as the host does not change the label array in place,
    the height of the overlay built by the constructor and resized by the
    setter [menuItems] is what its canvas makes of the height of its rows,
    whatever events and calls have come in between: twice the parsed font
    size for each label when that is a number from 0 to 2^31 - 1, the
    default 150 of a canvas when it is negative (down to -2^31), and 0
    when the font size does not start with a number. *)
Theorem overlay_height_follows_items (o : option options) (pg : page)
    (l : list action) (k : Z) :
  Forall (λ a, ¬ in_place a) l →
  let m := run_actions (new o pg) l in
  let rows_height := (k * 2 * Z.of_nat (length (_menuItems m)))%Z in
  sized m
  ∧ (JS.parseInt (_UImenuItemFontSize (ui m)) = JS.Int k →
     (0 ≤ rows_height ≤ 2147483647)%Z →
     dd_height (_ddCanvas m) = rows_height)
  ∧ (JS.parseInt (_UImenuItemFontSize (ui m)) = JS.Int k →
     (-2147483648 ≤ rows_height < 0)%Z →
     dd_height (_ddCanvas m) = 150%Z)
  ∧ (JS.parseInt (_UImenuItemFontSize (ui m)) = JS.NaN →
     dd_height (_ddCanvas m) = 0%Z).
Proof.
  intros Hl m rows_height.
  assert (sized m) as Hm by (by apply run_actions_sized).
  split; [exact Hm |].
  unfold sized, _getMenuItemHeight in Hm. rewrite Hm.
  split; [| split]; intros Hk; rewrite Hk; simpl.
  - apply canvas_size_small.
  - apply canvas_size_negative.
  - reflexivity.
Qed.

Lemma overlay_height_follows_items_witness :
  let m :=
    run_actions (new (Some abc_options) sample_page)
      [Subscribe 1 2;
       Dispatch sample_page (mouse mousedown Canvas 20);
       NotifyObservers;
       AssignMenuItems sample_page ["x"; "y"]%string] in
  dd_height (_ddCanvas m) = (12 * 2 * 2)%Z.
Proof.
  apply (overlay_height_follows_items (Some abc_options) sample_page
           [Subscribe 1 2;
            Dispatch sample_page (mouse mousedown Canvas 20);
            NotifyObservers;
            AssignMenuItems sample_page ["x"; "y"]%string] 12).
  - repeat (apply Forall_cons; split; [by intros [] |]). apply Forall_nil_2.
  - reflexivity.
  - by vm_compute.
Defined.

Lemma is_hovered_spec (hover : JS.jsint) (i : nat) :
  is_hovered hover i = true
  ↔ hover = JS.Int (Z.of_nat i) ∨ (hover = JS.NegZero ∧ i = 0%nat).
Proof.
  destruct hover as [z | | | s]; simpl.
  - rewrite Z.eqb_eq. split; [intros <-; by left |].
    by intros [[= ->] | [? _]].
  - rewrite Nat.eqb_eq. split; [by right |]. by intros [? | [_ ?]].
  - split; [done |]. by intros [? | [? _]].
  - split; [done |]. by intros [? | [? _]].
Qed.

(** X8: the rows [_drawDropDownMenuBox] paints are the labels, one row
    each and in their order; a row is highlighted exactly when its index is
    the hovered one, so at most one row is; and none is while hoverItemNum
    is negative, as it is between interactions. *)
Theorem rows_follow_items (m : t) :
  length (_drawDropDownMenuBox m) = length (_menuItems m)
  ∧ (∀ i, _drawDropDownMenuBox m !! i
          = (λ item, (item, is_hovered (_hoverItemNum m) i))
              <$> _menuItems m !! i)
  ∧ (∀ i j a b,
       _drawDropDownMenuBox m !! i = Some (a, true) →
       _drawDropDownMenuBox m !! j = Some (b, true) → i = j)
  ∧ (∀ z, _hoverItemNum m = JS.Int z → (z < 0)%Z →
          _drawDropDownMenuBox m = (λ item, (item, false)) <$> _menuItems m).
Proof.
  unfold _drawDropDownMenuBox.
  split; [apply length_imap |]. split; [intros; apply list_lookup_imap |].
  split.
  - intros i j a b. rewrite !list_lookup_imap.
    destruct (_menuItems m !! i) as [x |]; [| done].
    destruct (_menuItems m !! j) as [y |]; [| done].
    simpl. intros [= _ Hi] [= _ Hj].
    apply is_hovered_spec in Hi, Hj.
    destruct Hi as [Hi | [Hi ->]], Hj as [Hj | [Hj ->]];
      try congruence; try done.
    rewrite Hi in Hj. injection Hj. lia.
  - intros z Hz Hneg. rewrite Hz. rewrite <- imap_const.
    apply imap_ext. intros i x _. simpl. f_equal.
    apply Z.eqb_neq. lia.
Qed.

Lemma rows_follow_items_witness :
  _drawDropDownMenuBox abc_menu
  = (λ item, (item, false)) <$> _menuItems abc_menu.
Proof.
  apply (proj2 (proj2 (proj2 (rows_follow_items abc_menu))) (-1)%Z).
  - reflexivity.
  - lia.
Defined.

End OverlaySize.

(** ** The hovered row under a pointer inside the overlay *)

Section HoverInRange.
Import LiveDropMenu.
Local Open Scope Q_scope.

(** What a canvas makes of a non-negative height is never more than
    that height. *)
Lemma canvas_size_le (d z : Z) :
  (0 ≤ z)%Z → (d ≤ 2147483648)%Z → (JS.canvas_size d (JS.Int z) ≤ z)%Z.
Proof.
  intros Hz Hd. unfold JS.canvas_size, JS.ToUint32.
  pose proof (Z.mod_le z 4294967296 Hz eq_refl) as Hmod.
  destruct (Z.leb_spec (z mod 4294967296) 2147483647); lia.
Qed.

Lemma trunc_div_in_range (off : Q) (h n : Z) :
  (0 < h)%Z → 0 <= off → off < inject_Z (h * n) →
  (0 ≤ JS.trunc (off / inject_Z h) < n)%Z.
Proof.
  intros Hh Hoff Hlt.
  assert (0 < inject_Z h) as Hh'
    by (change 0 with (inject_Z 0); by rewrite <- Zlt_Qlt).
  assert (0 <= off / inject_Z h) as Hq0 by (apply Qle_shift_div_l; [done | lra]).
  assert (off / inject_Z h < inject_Z n) as Hqn.
  { apply Qlt_shift_div_r; [done |].
    rewrite inject_Z_mult in Hlt. lra. }
  unfold JS.trunc. destruct (Qlt_le_dec (off / inject_Z h) 0) as [? | _]; [lra |].
  split.
  - change 0%Z with (Qfloor 0). by apply Qfloor_resp_le.
  - pose proof (Qfloor_le (off / inject_Z h)) as Hf.
    rewrite Zlt_Qlt. lra.
Qed.

(** X9: on an overlay that is as high as its rows, with a positive row
    height, a mousemove whose pointer is inside the overlay
    (0 <= clientY - top < height) sets hoverItemNum to the index of an
    existing label, and the repaint highlights that row. *)
Theorem hover_in_range (pg : page) (e : event) (m : t) (k h : Z) :
  opened m ∨ armed m → sized m →
  JS.parseInt (_UImenuItemFontSize (ui m)) = JS.Int k → (0 < k)%Z →
  ev_type e = mousemove → target e = DdCanvas →
  dd_height (_ddCanvas m) = h →
  0 <= clientY e - overlay_top pg →
  clientY e - overlay_top pg < inject_Z h →
  let m' := dispatch pg e m in
  ∃ (i : nat) (item : string),
    _hoverItemNum m' = JS.Int (Z.of_nat i)
    ∧ _menuItems m' !! i = Some item
    ∧ JS.index (_menuItems m') (_hoverItemNum m') = Some item
    ∧ rows (painted m') !! i = Some (item, true).
Proof.
  intros Hcfg Hsized Hk Hk0 Hty Htg Hh Hoff0 Hoffh m'.
  assert (h ≤ k * 2 * Z.of_nat (length (_menuItems m)))%Z as Hrows.
  { rewrite Hsized in Hh. unfold _getMenuItemHeight in Hh.
    rewrite Hk in Hh. simpl in Hh. subst h.
    apply canvas_size_le; [lia | done]. }
  assert (clientY e - overlay_top pg
          < inject_Z (k * 2 * Z.of_nat (length (_menuItems m)))) as Hoffn.
  { rewrite Zle_Qle in Hrows. lra. }
  assert (_hoverItemNum m'
          = JS.Int (JS.trunc ((clientY e - overlay_top pg)
                              / inject_Z (k * 2)))) as Hhover.
  { subst m'. rewrite dispatch_mousemove_overlay by done.
    destruct (run_mouseMoveListener_hover pg e m) as (-> & _).
    rewrite Hk. simpl. apply trunc_div_Int; [lia | done]. }
  destruct (trunc_div_in_range (clientY e - overlay_top pg) (k * 2)
              (Z.of_nat (length (_menuItems m)))) as [Hi0 Hin];
    [lia | done | done |].
  set (z := JS.trunc ((clientY e - overlay_top pg) / inject_Z (k * 2))) in *.
  assert (m' = run_mouseMoveListener pg e m) as Hm'
    by (by apply dispatch_mousemove_overlay).
  destruct (lookup_lt_is_Some_2 (_menuItems m) (Z.to_nat z)) as [item Hitem];
    [lia |].
  exists (Z.to_nat z), item.
  rewrite Hhover, Z2Nat.id by done.
  split; [done |].
  assert (_menuItems m' = _menuItems m) as -> by (by rewrite Hm').
  split; [done |]. split.
  - simpl. destruct (Z.ltb_spec z 0); [lia | done].
  - rewrite Hm'. simpl. unfold _drawDropDownMenuBox.
    rewrite list_lookup_imap. simpl. rewrite Hitem. simpl.
    do 2 f_equal. unfold _getMenuItemHeight. rewrite Hk.
    change (JS.mul_nat (JS.Int k) 2) with (JS.Int (k * 2)).
    rewrite trunc_div_Int by (try lia; done). fold z. simpl.
    apply Z.eqb_eq. by rewrite Z2Nat.id.
Qed.

Lemma hover_in_range_witness :
  let m' := dispatch sample_page (mouse mousemove DdCanvas 100) clicked_open in
  ∃ (i : nat) (item : string),
    _hoverItemNum m' = JS.Int (Z.of_nat i)
    ∧ _menuItems m' !! i = Some item
    ∧ JS.index (_menuItems m') (_hoverItemNum m') = Some item
    ∧ rows (painted m') !! i = Some (item, true).
Proof.
  apply (hover_in_range sample_page (mouse mousemove DdCanvas 100)
           clicked_open 12 72).
  - left. by vm_compute.
  - reflexivity.
  - reflexivity.
  - lia.
  - reflexivity.
  - reflexivity.
  - reflexivity.
  - by vm_compute.
  - by vm_compute.
Defined.

End HoverInRange.

(** ** What the menu keeps and what it never does *)

Section MenuInvariants.
Import LiveDropMenu.

Ltac expose m :=
  destruct m as [obs items sel hov sty dd cl dl docl pt cls];
  simpl in *; subst.

Lemma run_in_sync (pg : page) (e : event) (f : listener) (m : t) :
  in_sync m → in_sync (run pg e f m).
Proof.
  intros Hm. destruct f; simpl.
  - exact Hm.
  - unfold run_secondMouseDownListener. by case_decide.
  - reflexivity.
  - reflexivity.
Qed.

Lemma step_in_sync (a : action) (m : t) :
  ¬ in_place a → in_sync m → in_sync (step m a).
Proof.
  intros Ha Hm.
  destruct a as [pg e | ctx f | ctx f | pg newItems | newItems |]; simpl.
  - unfold dispatch.
    apply invoke_preserves; [intros; by apply run_in_sync |].
    apply invoke_preserves; [intros; by apply run_in_sync | exact Hm].
  - exact Hm.
  - exact Hm.
  - reflexivity.
  - by destruct Ha.
  - exact Hm.
Qed.

(** X10: as long as the host does not change the label array in place,
    what is painted is what [_drawUI] would paint from the current labels,
    selection and hovered row, after every event and every call; the
    closed box shows the selected label, or nothing when the selection is
    not an index of the labels. *)
Theorem painted_in_sync (o : option options) (pg : page) (l : list action) :
  Forall (λ a, ¬ in_place a) l →
  let m := run_actions (new o pg) l in
  in_sync m
  ∧ box_text (painted m) = JS.index (_menuItems m) (_selectedItemNum m)
  ∧ length (rows (painted m)) = length (_menuItems m).
Proof.
  intros Hl m.
  assert (in_sync m) as Hm.
  { subst m. generalize (new o pg), (eq_refl : in_sync (new o pg)).
    induction l as [| a l IH]; intros m0 Hm0; [exact Hm0 |].
    apply Forall_cons in Hl as [Ha Hl]. simpl. by apply IH, step_in_sync. }
  split; [exact Hm |]. rewrite Hm. simpl.
  split; [reflexivity | apply length_imap].
Qed.

Lemma painted_in_sync_witness :
  let m :=
    run_actions (new (Some abc_options) sample_page)
      [Dispatch sample_page (mouse mousedown Canvas 20);
       AssignMenuItems sample_page []] in
  in_sync m
  ∧ box_text (painted m) = JS.index (_menuItems m) (_selectedItemNum m)
  ∧ length (rows (painted m)) = length (_menuItems m).
Proof.
  apply (painted_in_sync (Some abc_options) sample_page
           [Dispatch sample_page (mouse mousedown Canvas 20);
            AssignMenuItems sample_page []]).
  repeat (apply Forall_cons; split; [by intros [] |]). apply Forall_nil_2.
Defined.

(** X11: the listeners of a menu never pile up.  Whatever events and calls
    it has seen, the closed box holds [mouseDownListener] alone, the
    overlay at most [mouseMoveListener], and the document at most two
    listeners, [secondMouseDownListener] first, none of them twice. *)
Theorem menu_listeners_bounded (o : option options) (pg : page) (m : t) :
  reachable o pg m →
  canvas_listeners m = [(mousedown, mouseDownListener)]
  ∧ (ddCanvas_listeners m = []
     ∨ ddCanvas_listeners m = [(mousemove, mouseMoveListener)])
  ∧ (length (document_listeners m) ≤ 2)%nat
  ∧ NoDup (document_listeners m)
  ∧ head (document_listeners m)
    ∈ [None; Some (mousedown, secondMouseDownListener)].
Proof.
  intros Hr.
  destruct (reachable_config o pg m Hr)
    as [(-> & -> & ->) | [(-> & -> & ->) | (-> & -> & ->)]];
    (split; [done |]); (split; [auto |]); (split; [simpl; lia |]);
    (split; [apply (bool_decide_unpack _); by vm_compute |]);
    apply (bool_decide_unpack _); by vm_compute.
Qed.

Lemma menu_listeners_bounded_witness :
  (length (document_listeners hovering_third_row) ≤ 2)%nat
  ∧ NoDup (document_listeners hovering_third_row).
Proof.
  destruct (menu_listeners_bounded (Some abc_options) sample_page
              hovering_third_row (abc_menu_reachable _))
    as (_ & _ & Hlen & Hnd & _).
  split; [exact Hlen | exact Hnd].
Defined.

Lemma run_observers (pg : page) (e : event) (f : listener) (m : t) :
  _observers (run pg e f m) = _observers m.
Proof.
  destruct f.
  - reflexivity.
  - simpl. unfold run_secondMouseDownListener. by case_decide.
  - reflexivity.
  - apply (run_mouseUpListener_keeps e m).
Qed.

Lemma dispatch_observers (pg : page) (e : event) (m : t) :
  _observers (dispatch pg e m) = _observers m.
Proof.
  unfold dispatch.
  apply (invoke_preserves (λ s, _observers s = _observers m));
    [intros f s Hs; by rewrite run_observers |].
  apply (invoke_preserves (λ s, _observers s = _observers m));
    [intros f s Hs; by rewrite run_observers | done].
Qed.

(** X12: the observer registry only grows.  After any events and calls,
    [unsubscribe] calls included, it is the registry as it was, followed by
    the observers subscribed since, in the order of their subscription;
    a new menu has none. *)
Theorem registry_only_grows (l : list action) (m : t) :
  _observers (run_actions m l) = _observers m ++ subscriptions l
  ∧ ∀ o pg, _observers (run_actions (new o pg) l) = subscriptions l.
Proof.
  assert (∀ m, _observers (run_actions m l) = _observers m ++ subscriptions l)
    as Hgen.
  { induction l as [| a l IH]; intros m0; simpl.
    - by rewrite app_nil_r.
    - rewrite IH.
      destruct a as [pg e | ctx f | ctx f | pg newItems | newItems |]; simpl.
      + by rewrite dispatch_observers.
      + by rewrite <- app_assoc.
      + done.
      + done.
      + done.
      + done. }
  split; [apply Hgen |]. intros o pg. by rewrite Hgen.
Qed.

(** The selection and the call log after a dispatch that is no
    pointer-up. *)
Lemma dispatch_keeps_selection (pg : page) (e : event) (m : t) :
  fresh m ∨ opened m ∨ armed m → ev_type e ≠ mouseup →
  _selectedItemNum (dispatch pg e m) = _selectedItemNum m
  ∧ calls (dispatch pg e m) = calls m.
Proof.
  intros Hcfg Hty. destruct e as [ty tg y].
  destruct Hcfg as [(Hc & Hd & Hdoc) | [(Hc & Hd & Hdoc) | (Hc & Hd & Hdoc)]];
    expose m; destruct ty, tg; try done; split; reflexivity.
Qed.

(** What a pointer-up does to the selection and to the call log of a
    reachable menu. *)
Lemma dispatch_mouseup_selection (o : option options) (pg pg' : page)
    (e : event) (m : t) :
  reachable o pg m → ev_type e = mouseup →
  (_selectedItemNum (dispatch pg' e m) = _selectedItemNum m
   ∧ calls (dispatch pg' e m) = calls m)
  ∨ (target e = DdCanvas
     ∧ _hoverItemNum m ≠ JS.Int (-1)
     ∧ _selectedItemNum (dispatch pg' e m) = _hoverItemNum m
     ∧ calls (dispatch pg' e m)
       = calls m ++ map (λ ob, (ob, _hoverItemNum m)) (_observers m)).
Proof.
  intros Hr Hup.
  destruct (reachable_config o pg m Hr) as [Hf | [Ho | Ha]].
  - left. rewrite dispatch_mouseup_unarmed; [done | by left | done].
  - left. rewrite dispatch_mouseup_unarmed; [done | by right | done].
  - rewrite dispatch_mouseup_armed by done.
    destruct (decide (_hoverItemNum m ≠ JS.Int (-1) ∧ target e = DdCanvas))
      as [[Hh Ht] | Hno].
    + right. do 2 (split; [done |]).
      destruct (run_mouseUpListener_commit e m Hh Ht) as (Hs & Hc & _).
      by split.
    + left. unfold run_mouseUpListener. simpl. by rewrite decide_False.
Qed.

(** X13: the selection changes on a pointer-up over the overlay and on
    nothing else, and observers are called by such a pointer-up and by the
    public [notifyObservers()] only.  Every other event and every other
    call of the host leaves selectedItemNum and the call log as they were;
    [notifyObservers()] leaves the selection as it was and calls every
    observer once with it; a pointer-up either leaves both as they were,
    or stores the hovered index and calls every observer once with it. *)
Theorem selection_changes_only_on_pointer_up (o : option options) (pg : page)
    (m : t) (a : action) :
  reachable o pg m →
  ((∀ pg' e, a = Dispatch pg' e → ev_type e ≠ mouseup) →
   a ≠ NotifyObservers →
   _selectedItemNum (step m a) = _selectedItemNum m
   ∧ calls (step m a) = calls m)
  ∧ (a = NotifyObservers →
     _selectedItemNum (step m a) = _selectedItemNum m
     ∧ calls (step m a)
       = calls m ++ map (λ ob, (ob, _selectedItemNum m)) (_observers m))
  ∧ ((∃ pg' e, a = Dispatch pg' e ∧ ev_type e = mouseup) →
     (_selectedItemNum (step m a) = _selectedItemNum m
      ∧ calls (step m a) = calls m)
     ∨ (_hoverItemNum m ≠ JS.Int (-1)
        ∧ _selectedItemNum (step m a) = _hoverItemNum m
        ∧ calls (step m a)
          = calls m ++ map (λ ob, (ob, _hoverItemNum m)) (_observers m)))
  ∧ (_selectedItemNum (step m a) ≠ _selectedItemNum m →
     ∃ pg' e, a = Dispatch pg' e ∧ ev_type e = mouseup
              ∧ target e = DdCanvas).
Proof.
  intros Hr. pose proof (reachable_config o pg m Hr) as Hcfg.
  destruct a as [pg' e | ctx f | ctx f | pg' newItems | newItems |].
  - destruct (decide (ev_type e = mouseup)) as [Hup | Hother].
    + pose proof (dispatch_mouseup_selection o pg pg' e m Hr Hup) as Hsel.
      split; [intros Ha; exfalso; by eapply Ha |].
      split; [done |].
      split.
      * intros _. simpl.
        destruct Hsel as [Hsame | (_ & Hh & Hs & Hc)]; [by left | by right].
      * simpl. intros Hne.
        destruct Hsel as [[Hsame _] | (Ht & _)]; [done |].
        by exists pg', e.
    + destruct (dispatch_keeps_selection pg' e m Hcfg Hother) as [Hs Hc].
      split; [done |]. split; [done |].
      split; [intros (? & ? & [= <- <-] & ?); done |].
      simpl. by rewrite Hs.
  - split; [done |]. split; [done |].
    split; [by intros (? & ? & ? & _) | done].
  - split; [done |]. split; [done |].
    split; [by intros (? & ? & ? & _) | done].
  - split; [done |]. split; [done |].
    split; [by intros (? & ? & ? & _) | done].
  - split; [done |]. split; [done |].
    split; [by intros (? & ? & ? & _) | done].
  - split; [by intros _ Hne |]. split; [done |].
    split; [by intros (? & ? & ? & _) | done].
Qed.

Lemma selection_changes_only_on_pointer_up_witness :
  let a := Dispatch sample_page (mouse mousemove DdCanvas 80) in
  _selectedItemNum (step clicked_open a) = _selectedItemNum clicked_open
  ∧ calls (step clicked_open a) = calls clicked_open.
Proof.
  apply (proj1 (selection_changes_only_on_pointer_up (Some abc_options)
                  sample_page clicked_open
                  (Dispatch sample_page (mouse mousemove DdCanvas 80))
                  (abc_menu_reachable _))).
  - by intros pg' e [= _ <-].
  - discriminate.
Defined.

Lemma no_row_hovered (l : list string) :
  imap (λ i item, (item, is_hovered (JS.Int (-1)) i)) l
  = (λ item, (item, false)) <$> l.
Proof.
  rewrite <- imap_const. apply imap_ext. intros i x _. simpl. f_equal.
  apply Z.eqb_neq. lia.
Qed.

(** X14: a new menu.  It selects index 0 and hovers nothing, has no
    observer and has called none, keeps its overlay hidden and placed at
    the bottom left of the closed box, the height of the overlay being
    what a canvas makes of the height of the rows (a number from 0 to
    2^31 - 1, whatever the font size says); it listens for a pointer-down
    on the closed box and ignores every other event, and has painted the
    first label in the closed box (nothing for an empty menu) and every
    row without highlight. *)
Theorem new_menu_state (o : option options) (pg : page) :
  let m := new o pg in
  _selectedItemNum m = JS.Int 0
  ∧ _hoverItemNum m = JS.Int (-1)
  ∧ _observers m = [] ∧ calls m = []
  ∧ dd_visibility (_ddCanvas m) = hidden
  ∧ overlay_at (box_left pg) (box_bottom pg) m
  ∧ (0 ≤ dd_height (_ddCanvas m) ≤ 2147483647)%Z
  ∧ sized m ∧ fresh m ∧ in_sync m
  ∧ box_text (painted m) = head (_menuItems m)
  ∧ rows (painted m) = (λ item, (item, false)) <$> _menuItems m
  ∧ (o = None → _menuItems m = [] ∧ box_text (painted m) = None
                ∧ dd_height (_ddCanvas m) = 0%Z)
  ∧ (∀ pg' e, ¬ (ev_type e = mousedown ∧ target e = Canvas) →
              dispatch pg' e m = m).
Proof.
  simpl. do 5 (split; [reflexivity |]).
  split; [by unfold overlay_at |].
  split; [by apply canvas_size_range |].
  split; [by unfold sized |]. split; [apply new_fresh |].
  split; [by unfold in_sync |].
  split; [by rewrite head_lookup |].
  split; [apply no_row_hovered |].
  split; [by intros -> |].
  intros pg' [ty tg y] He. simpl in He.
  destruct ty, tg; try reflexivity. by destruct He.
Qed.

Lemma new_menu_state_witness :
  _menuItems (new None sample_page) = []
  ∧ box_text (painted (new None sample_page)) = None
  ∧ dd_height (_ddCanvas (new None sample_page)) = 0%Z.
Proof.
  destruct (new_menu_state None sample_page)
    as (_ & _ & _ & _ & _ & _ & _ & _ & _ & _ & _ & _ & Hnone & _).
  by apply Hnone.
Defined.

(** X15: a click on the closed box opens the menu and leaves it open.  On
    a menu whose mouseup listener is not attached, the pointer-down on the
    closed box makes the overlay visible and changes neither the selection,
    nor the hovered row, nor the call log, and the pointer-up that follows,
    wherever it lands, changes nothing at all; a further pointer-down on
    the closed box of a menu that is open changes nothing either. *)
Theorem click_on_box_opens (pg pg' : page) (e e' : event) (m : t) :
  fresh m ∨ opened m →
  ev_type e = mousedown → target e = Canvas → ev_type e' = mouseup →
  let m1 := dispatch pg e m in
  dd_visibility (_ddCanvas m1) = visible
  ∧ opened m1
  ∧ _selectedItemNum m1 = _selectedItemNum m
  ∧ _hoverItemNum m1 = _hoverItemNum m
  ∧ calls m1 = calls m
  ∧ dispatch pg' e' m1 = m1
  ∧ dispatch pg e m1 = m1.
Proof.
  intros Hcfg Hty Htg Hty' m1.
  assert (m1 = run_mouseDownListener m) as Hm1.
  { apply dispatch_mousedown_canvas; [| done | done].
    destruct Hcfg; [by left | right; by left]. }
  assert (opened m1) as Hopen.
  { rewrite Hm1.
    destruct Hcfg as [(Hc & Hd & Hdoc) | (Hc & Hd & Hdoc)]; by expose m. }
  split; [by rewrite Hm1 |]. split; [exact Hopen |].
  do 3 (split; [by rewrite Hm1 |]).
  split; [apply dispatch_mouseup_unarmed; [by right | done] |].
  rewrite dispatch_mousedown_canvas; [| right; by left | done | done].
  rewrite Hm1.
  destruct Hcfg as [(Hc & Hd & Hdoc) | (Hc & Hd & Hdoc)]; by expose m.
Qed.

Lemma click_on_box_opens_witness :
  let m1 :=
    dispatch sample_page (mouse mousedown Canvas 20) abc_menu in
  dd_visibility (_ddCanvas m1) = visible
  ∧ dispatch moved_page (mouse mouseup Canvas 20) m1 = m1.
Proof.
  destruct (click_on_box_opens sample_page moved_page
              (mouse mousedown Canvas 20) (mouse mouseup Canvas 20) abc_menu)
    as (Hv & _ & _ & _ & _ & Hup & _).
  - left. by vm_compute.
  - reflexivity.
  - reflexivity.
  - reflexivity.
  - split; [exact Hv | exact Hup].
Defined.

End MenuInvariants.
